(** * opencdms-api: the customised pygeoapi collection endpoints

    A shallow embedding of [opencdms_api/pygeoapi/api.py]
    ([CustomPyGeoAPI.describe_collections], [get_collection_queryables] and
    [get_collection_items]) together with the properties of the item query
    pipeline, of link synthesis and of the collection listing.

    Conventions.
    - A Python [str] is a Rocq [string]; non-ASCII text is carried by its UTF-8
      bytes, which is what [urllib.parse.quote] works on.
    - A Python [dict] whose iteration order is observable (request parameters,
      configured resources, provider fields) is an association list; the
      queryables property map, which is only looked up, is a [gmap].
    - Floating point values are never computed on by this code; they are
      carried by their decimal text.
    - A call either returns or raises: see [flow]. *)

From Stdlib Require Import ZArith NArith List String Ascii Bool Lia.
From stdpp Require Import base option strings gmap.
Import ListNotations.

Local Open Scope string_scope.
Local Open Scope Z_scope.

(** ** Strings *)

Module Str.

Fixpoint mem (c : ascii) (s : string) : bool :=
  match s with
  | EmptyString => false
  | String d r => Ascii.eqb c d || mem c r
  end.

(** [str.split(sep)] for a one-character separator. *)
Fixpoint split (sep : ascii) (s : string) : list string :=
  match s with
  | EmptyString => [EmptyString]
  | String c r =>
      if Ascii.eqb c sep then EmptyString :: split sep r
      else match split sep r with
           | h :: t => String c h :: t
           | [] => [String c EmptyString]
           end
  end.

(** [str.split(sep, 1)]: the text before the first separator and, when
    there is one, the text after it. *)
Fixpoint split1 (sep : ascii) (s : string) : string * option string :=
  match s with
  | EmptyString => (EmptyString, None)
  | String c r =>
      if Ascii.eqb c sep then (EmptyString, Some r)
      else let '(h, t) := split1 sep r in (String c h, t)
  end.

(** [str.replace(a, b)] for single characters. *)
Fixpoint replace (a b : ascii) (s : string) : string :=
  match s with
  | EmptyString => EmptyString
  | String c r => String (if Ascii.eqb c a then b else c) (replace a b r)
  end.

(** [sep.join(l)]. *)
Fixpoint join (sep : string) (l : list string) : string :=
  match l with
  | [] => EmptyString
  | [x] => x
  | x :: r => x +:+ sep +:+ join sep r
  end.

Fixpoint concat (l : list string) : string :=
  match l with
  | [] => EmptyString
  | x :: r => x +:+ concat r
  end.

(** [str(n)] for a Python [int]. *)
Definition digit (n : N) : ascii := ascii_of_N (48 + n).

Fixpoint of_pos_fuel (fuel : nat) (n : N) (acc : string) : string :=
  match fuel with
  | O => acc
  | S f =>
      let acc' := String (digit (n mod 10)) acc in
      if (n / 10 =? 0)%N then acc' else of_pos_fuel f (n / 10)%N acc'
  end.

Definition of_N (n : N) : string := of_pos_fuel (S (N.to_nat (N.log2 n))) n EmptyString.

Definition of_Z (z : Z) : string :=
  match z with
  | Z0 => "0"
  | Zpos p => of_N (Npos p)
  | Zneg p => String "-" (of_N (Npos p))
  end.

End Str.

(** ** [urllib.parse]: percent-encoding and query-string parsing *)

Module Url.

Definition between (lo hi c : ascii) : bool :=
  (N_of_ascii lo <=? N_of_ascii c)%N && (N_of_ascii c <=? N_of_ascii hi)%N.

(** [_ALWAYS_SAFE]: ASCII letters, digits and [_.-~]. *)
Definition always_safe (c : ascii) : bool :=
  between "A" "Z" c || between "a" "z" c || between "0" "9" c
  || Str.mem c "_.-~".

Definition hex_digit (n : N) : ascii :=
  if (n <? 10)%N then ascii_of_N (48 + n) else ascii_of_N (55 + n).

(** The ['%{:02X}'] form of a byte. *)
Definition pct (c : ascii) : string :=
  String "%" (String (hex_digit (N_of_ascii c / 16))
               (String (hex_digit (N_of_ascii c mod 16)) EmptyString)).

Definition quote_byte (safe : string) (c : ascii) : string :=
  if always_safe c || Str.mem c safe then String c EmptyString else pct c.

(** [urllib.parse.quote(s, safe=safe)]. *)
Fixpoint quote (safe : string) (s : string) : string :=
  match s with
  | EmptyString => EmptyString
  | String c r => quote_byte safe c +:+ quote safe r
  end.

Definition hex_val (c : ascii) : option N :=
  if between "0" "9" c then Some (N_of_ascii c - 48)%N
  else if between "A" "F" c then Some (N_of_ascii c - 55)%N
  else if between "a" "f" c then Some (N_of_ascii c - 87)%N
  else None.

(** [urllib.parse.unquote]: a ['%'] followed by two hexadecimal digits is
    the byte they denote, any other character stands for itself. *)
Fixpoint unquote (s : string) : string :=
  match s with
  | EmptyString => EmptyString
  | String c r =>
      if Ascii.eqb c "%" then
        match r with
        | String a (String b r') =>
            match hex_val a, hex_val b with
            | Some x, Some y => String (ascii_of_N (16 * x + y)) (unquote r')
            | _, _ => String c (unquote r)
            end
        | _ => String c (unquote r)
        end
      else String c (unquote r)
  end.

(** [urllib.parse.parse_qsl(qs, keep_blank_values=True)], which is how the
    web framework reads a query string into request arguments. *)
Definition parse_pair (name_value : string) : string * string :=
  let '(n, v) := Str.split1 "=" name_value in
  let v := match v with Some v => v | None => EmptyString end in
  (unquote (Str.replace "+" " " n), unquote (Str.replace "+" " " v)).

Fixpoint parse_pairs (pairs : list string) : list (string * string) :=
  match pairs with
  | [] => []
  | nv :: r =>
      match nv with
      | EmptyString => parse_pairs r
      | _ => parse_pair nv :: parse_pairs r
      end
  end.

Definition parse_qsl (qs : string) : list (string * string) :=
  parse_pairs (Str.split "&" qs).

End Url.

(** ** Python values shared by the three endpoints *)

(** The exceptions the handlers tell apart.  In [pygeoapi.provider.base]
    every [Provider...Error] is a subclass of [ProviderGenericError]. *)
Inductive exn :=
| ProviderGenericError
| ProviderConnectionError
| ProviderTypeError
| ProviderQueryError
| FormatterSerializationError
| IndexError
| OtherError (name : string).

Definition is_provider_error (e : exn) : bool :=
  match e with
  | ProviderGenericError | ProviderConnectionError
  | ProviderTypeError | ProviderQueryError => true
  | _ => false
  end.

(** The result of a library call: a value or a raised exception. *)
Inductive res (A : Type) :=
| Ok (a : A)
| Err (e : exn).
Arguments Ok {A} a.
Arguments Err {A} e.

Definition float := string.
Definition json := string.
Definition headers := list (string * string).

(** Ordered dictionaries with string keys. *)
Module Dict.
Section Dict.
Context {V : Type}.

Fixpoint get (k : string) (d : list (string * V)) : option V :=
  match d with
  | [] => None
  | (k', v) :: r => if String.eqb k k' then Some v else get k r
  end.

(** [d[k] = v]: a present key keeps its position. *)
Fixpoint set (k : string) (v : V) (d : list (string * V)) : list (string * V) :=
  match d with
  | [] => [(k, v)]
  | (k', v') :: r =>
      if String.eqb k k' then (k, v) :: r else (k', v') :: set k v r
  end.

Definition keys (d : list (string * V)) : list string := map fst d.
End Dict.
End Dict.

Definition dquote : ascii := ascii_of_N 34.

Definition inb (x : string) (l : list string) : bool := existsb (String.eqb x) l.

(** Text that may be given per language in the configuration. *)
Inductive ltext :=
| Plain (s : string)
| Words (l : list string)
| ByLocale (m : list (string * list string)).

Record Link := {
  l_type : string;
  l_rel : string;
  l_title : string;
  l_href : string;
  l_hreflang : option string
}.

Definition mk_link (type rel title href : string) : Link :=
  {| l_type := type; l_rel := rel; l_title := title; l_href := href;
     l_hreflang := None |}.

(** *** Configuration *)

Record Format := { fmt_name : string; fmt_mimetype : string }.

Record ProviderDef := {
  pd_type : string;
  pd_name : string;
  pd_default : option bool;
  pd_format : option Format
}.

Record CfgLink := {
  cl_type : string;
  cl_rel : string;
  cl_title : ltext;
  cl_href : ltext;
  cl_hreflang : option ltext
}.

Inductive BBox :=
| BBox1 (b : list float)
| BBoxN (bs : list (list float)).

Record Temporal := {
  t_begin : option string;
  t_end : option string;
  t_trs : option string
}.

Record Extents := {
  spatial_bbox : BBox;
  spatial_crs : option string;
  temporal : option Temporal
}.

Record Resource := {
  r_type : string;
  r_title : ltext;
  r_description : ltext;
  r_keywords : ltext;
  r_links : list CfgLink;
  r_providers : list ProviderDef;
  r_extents : option Extents;
  r_visibility : option string
}.

Record Config := {
  server_url : string;
  server_limit : Z;
  server_encoding : string;
  resources : list (string * Resource)
}.

(** *** Providers *)

Record FieldDef := { f_type : string; f_values : option (list string) }.

Record Feature := {
  ft_id : string;
  ft_geometry : option json;
  ft_properties : list (string * json)
}.

Record FeatureCollection := {
  fc_features : list Feature;
  fc_other : list (string * json)
}.

Record SortKey := { sk_property : string; sk_order : string }.

(** A parsed CQL expression; this module only passes it on. *)
Inductive cql_ast := Ast (text : string).

(** The keyword arguments of [p.query]. *)
Record QueryArgs := {
  q_offset : Z;
  q_limit : Z;
  q_resulttype : string;
  q_bbox : list float;
  q_datetime : option string;
  q_properties : list (string * string);
  q_sortby : list SortKey;
  q_select_properties : list string;
  q_skip_geometry : bool;
  q_q : option string;
  q_language : option string;
  q_filterq : option cql_ast
}.

Record EdrParam := { ep_id : string; ep_body : json }.

(** A loaded provider plugin, as far as this module looks at it. *)
Record Provider := {
  p_fields : list (string * FieldDef);
  p_properties : list string;
  p_spatial : option bool;
  p_id_field : string;
  p_uri_field : option string;
  p_title_field : option ltext;
  p_filename : option string;
  p_crs : string;
  p_coverage_domainset : json;
  p_coverage_rangetype : json;
  p_get_fields : option (list EdrParam);
  p_query_types : list string;
  p_query : QueryArgs -> res FeatureCollection
}.

(** *** Requests, documents and responses *)

Record APIRequest := {
  format : option string;
  locale : string;
  raw_locale : option string;
  params : list (string * string)
}.

Record Extent := {
  e_bbox : list (list float);
  e_crs : option string;
  e_interval : option (option string * option string);
  e_trs : option string
}.

(** The metadata object of one collection. *)
Record Collection := {
  c_id : string;
  c_title : string;
  c_description : string;
  c_keywords : list string;
  c_links : list Link;
  c_extent : option Extent;
  c_itemType : option string;
  c_crs : option (list string);
  c_domainset : option json;
  c_rangetype : option json;
  c_parameter_names : option (list (string * EdrParam))
}.

Record Listing := {
  collections : list Collection;
  links : list Link
}.

(** [fcm] is the listing document until a requested collection replaces it. *)
Inductive Fcm :=
| FListing (l : Listing)
| FCollection (c : Collection).

Inductive PropSchema :=
| PRef (ref : string)
| PField (title type : string) (enum : option (list string)).

Record Queryables := {
  qy_type : string;
  qy_title : string;
  qy_properties : gmap string PropSchema;
  qy_schema : string;
  qy_id : string
}.

(** The keys the HTML rendering of an item page adds. *)
Record HtmlItems := {
  items_path : string;
  dataset_path : string;
  h_collections_path : string;
  h_offset : Z;
  id_field : string;
  uri_field : option string;
  title_field : option string
}.

Record ItemsDoc := {
  i_features : list Feature;
  i_other : list (string * json);
  i_links : list Link;
  i_timeStamp : string;
  i_html : option HtmlItems
}.

Inductive Doc :=
| DException (code description : string)
| DFcm (fcm : Fcm) (collections_path : option string)
| DLdDataset (fcm : Fcm)
| DLdDatasets (cs : list Collection)
| DQueryables (q : Queryables) (collections_path : option string)
| DItems (d : ItemsDoc)
| DItemsLd (d : ItemsDoc) (dataset id_field : string).

(** Response content, by the library call that serialises it. *)
Inductive Body :=
| BJson (pretty_print : bool) (d : Doc)          (* to_json *)
| BHtml (template : string) (d : Doc) (locale : string)  (* render_j2_template *)
| BRaw (text : string).

Record Response := {
  rs_headers : headers;
  rs_status : Z;
  rs_body : Body
}.

(** What a handler does: go on, [return] a response, or raise. *)
Inductive flow (A : Type) :=
| Next (a : A)
| Return (r : Response)
| Raise (e : exn).
Arguments Next {A} a.
Arguments Return {A} r.
Arguments Raise {A} e.

Definition bind {A B} (m : flow A) (k : A -> flow B) : flow B :=
  match m with
  | Next a => k a
  | Return r => Return r
  | Raise e => Raise e
  end.

Notation "'do' x <- m ; k" := (bind m (fun x => k))
  (at level 10, x pattern, m at level 100, k at level 200).

Inductive outcome :=
| Responded (r : Response)
| Raised (e : exn).

Definition run (m : flow Response) : outcome :=
  match m with
  | Next r | Return r => Responded r
  | Raise e => Raised e
  end.

Inductive vd_result :=
| VdOk (datetime_ : option string)
| VdValueError (msg : string)
| VdKeyError.

(** ** The pygeoapi library, as far as the handlers call it

    Helpers whose result the handlers only pass on are fields of [Lib];
    the few whose result decides a branch are written out below. *)
Record Lib := {
  translate : ltext -> string -> string;
  translate_words : ltext -> string -> list string;
  translate_links : list CfgLink -> string -> list CfgLink;
  get_plugin_locale : ProviderDef -> option string -> option string;
  set_response_language : headers -> option string -> string -> headers;
  get_response_headers : APIRequest -> option string -> headers;
  formatter_plugins : list string;
  py_int : string -> option Z;
  str2bool : string -> bool;
  validate_bbox : string -> string + list float;
  validate_datetime : Extents -> option string -> vd_result;
  parse_ecql_text : string -> option cql_ast;
  load_plugin : ProviderDef -> res Provider;
  csv_write : ItemsDoc -> ProviderDef -> res string;
  csv_mimetype : string;
  utcnow : string
}.

(** The [API] instance. *)
Record API := {
  config : Config;
  pretty_print : bool;
  get_collections_url : string
}.

Definition F_JSON := "json".
Definition F_HTML := "html".
Definition F_JSONLD := "jsonld".
Definition SYSTEM_LOCALE := "en_US".
Definition OGC_RELTYPES_BASE := "http://www.opengis.net/def/rel/ogc/1.0".

Definition FORMAT_TYPES_table : list (string * string) :=
  [ (F_HTML, "text/html");
    (F_JSONLD, "application/ld+json");
    (F_JSON, "application/json");
    ("png", "image/png");
    ("mvt", "application/vnd.mapbox-vector-tile") ].

Definition FORMAT_TYPES (f : string) : string :=
  match Dict.get f FORMAT_TYPES_table with
  | Some t => t
  | None => EmptyString
  end.

Definition lower_ascii (c : ascii) : ascii :=
  if Url.between "A" "Z" c then ascii_of_N (N_of_ascii c + 32) else c.

Fixpoint lower (s : string) : string :=
  match s with
  | EmptyString => EmptyString
  | String c r => String (lower_ascii c) (lower r)
  end.

Definition opt_eqb (a : option string) (b : string) : bool :=
  match a with
  | Some x => String.eqb x b
  | None => false
  end.

(** [APIRequest.is_valid(additional_formats)] *)
Definition is_valid (request : APIRequest) (additional_formats : list string) : bool :=
  match format request with
  | None => true
  | Some f =>
      inb f (Dict.keys FORMAT_TYPES_table) || inb f (map lower additional_formats)
  end.

(** [APIRequest.get_linkrel(format_)] *)
Definition get_linkrel (request : APIRequest) (format_ : string) : string :=
  let fmt := lower format_ in
  if opt_eqb (format request) fmt
     || (String.eqb fmt F_JSON
         && match format request with None => true | Some f => String.eqb f EmptyString end)
  then "self" else "alternate".

(** [API.get_exception(status, headers, format_, code, description)] *)
Definition get_exception (api : API) (status : Z) (hdrs : headers)
    (format_ : option string) (code description : string) : Response :=
  {| rs_headers := hdrs;
     rs_status := status;
     rs_body :=
       if opt_eqb format_ F_HTML
       then BHtml "exception.html" (DException code description) SYSTEM_LOCALE
       else BJson (pretty_print api) (DException code description) |}.

(** [API.get_format_exception(request)] *)
Definition get_format_exception (lib : Lib) (api : API) (request : APIRequest)
  : Response :=
  get_exception api 400 (get_response_headers lib request (Some SYSTEM_LOCALE))
    (format request) "InvalidParameterValue"
    ("Invalid format: " +:+ match format request with
                            | Some f => f
                            | None => "None"
                            end).

(** [pygeoapi.util.filter_dict_by_key_value(dict_, "type", value)] *)
Definition filter_dict_by_type (d : list (string * Resource)) (value : string)
  : list (string * Resource) :=
  List.filter (fun kv => String.eqb (r_type (snd kv)) value) d.

(** [pygeoapi.util.get_provider_by_type]: the first binding of the type. *)
Fixpoint get_provider_by_type (providers : list ProviderDef) (provider_type : string)
  : res ProviderDef :=
  match providers with
  | [] => Err ProviderTypeError
  | d :: r =>
      if String.eqb (pd_type d) provider_type then Ok d
      else get_provider_by_type r provider_type
  end.

(** [pygeoapi.util.get_provider_default]: the first binding flagged as
    default, else the first binding. *)
Definition get_provider_default (providers : list ProviderDef) : res ProviderDef :=
  match find (fun d => match pd_default d with Some b => b | None => false end) providers with
  | Some d => Ok d
  | None =>
      match providers with
      | d :: _ => Ok d
      | [] => Err IndexError
      end
  end.

(** ** [get_collection_items] *)

Section Items.

Variable lib : Lib.
Variable api : API.

Definition reserved_fieldnames : list string :=
  [ "bbox"; "f"; "lang"; "limit"; "offset"; "resulttype"; "datetime";
    "sortby"; "properties"; "skipGeometry"; "q"; "filter"; "filter-lang" ].

Definition bad_request (request : APIRequest) (hdrs : headers) (msg : string)
  : Response :=
  get_exception api 400 hdrs (format request) "InvalidParameterValue" msg.

Definition server_error (request : APIRequest) (hdrs : headers) (msg : string)
  : Response :=
  get_exception api 500 hdrs (format request) "NoApplicableCode" msg.

(** [int(request.params.get("offset"))]: [int(None)] is the [TypeError]. *)
Definition offset_param (request : APIRequest) (hdrs : headers) : flow Z :=
  match Dict.get "offset" (params request) with
  | None => Next 0
  | Some s =>
      match py_int lib s with
      | None => Return (bad_request request hdrs "offset value should be an integer")
      | Some offset =>
          if offset <? 0
          then Return (bad_request request hdrs "offset value should be positive or zero")
          else Next offset
      end
  end.

Definition limit_param (request : APIRequest) (hdrs : headers) : flow Z :=
  match Dict.get "limit" (params request) with
  | None => Next (server_limit (config api))
  | Some s =>
      match py_int lib s with
      | None => Return (bad_request request hdrs "limit value should be an integer")
      | Some limit =>
          if limit <=? 0
          then Return (bad_request request hdrs "limit value should be strictly positive")
          else Next limit
      end
  end.

(** [x or default] on an optional string. *)
Definition or_else (x : option string) (d : option string) : option string :=
  match x with
  | Some EmptyString | None => d
  | Some _ => x
  end.

Definition bbox_param (request : APIRequest) (hdrs : headers) : flow (list float) :=
  match Dict.get "bbox" (params request) with
  | None => Next []
  | Some b =>
      match validate_bbox lib b with
      | inr bbox => Next bbox
      | inl msg => Return (bad_request request hdrs msg)
      end
  end.

(** A collection without an [extents] entry raises [KeyError] before the
    validator is called; the handler lets it pass and keeps the raw text. *)
Definition datetime_param (request : APIRequest) (hdrs : headers)
    (collection : Resource) : flow (option string) :=
  let datetime_ := Dict.get "datetime" (params request) in
  match r_extents collection with
  | None => Next datetime_
  | Some extents =>
      match validate_datetime lib extents datetime_ with
      | VdOk d => Next d
      | VdKeyError => Next datetime_
      | VdValueError msg => Return (bad_request request hdrs msg)
      end
  end.

(** [get_provider_by_type] followed by [load_plugin], one [try] body. *)
Definition load_provider (providers : list ProviderDef) (provider_type : string)
  : res (ProviderDef * Provider) :=
  match get_provider_by_type providers provider_type with
  | Err e => Err e
  | Ok provider_def =>
      match load_plugin lib provider_def with
      | Ok p => Ok (provider_def, p)
      | Err e => Err e
      end
  end.

(** The handlers for the connection and query errors belong to the outer
    [try]; what the record fallback raises inside the [ProviderTypeError]
    handler is only caught by the inner [except ProviderTypeError]. *)
Definition items_provider (request : APIRequest) (hdrs : headers)
    (collection : Resource) : flow (ProviderDef * Provider) :=
  match load_provider (r_providers collection) "feature" with
  | Ok r => Next r
  | Err ProviderTypeError =>
      match load_provider (r_providers collection) "record" with
      | Ok r => Next r
      | Err ProviderTypeError =>
          Return (get_exception api 400 hdrs (format request)
                    "NoApplicableCode" "Invalid provider type")
      | Err e => Raise e
      end
  | Err ProviderConnectionError =>
      Return (server_error request hdrs "connection error (check logs)")
  | Err ProviderQueryError =>
      Return (server_error request hdrs "query error (check logs)")
  | Err e => Raise e
  end.

Definition property_filters (request : APIRequest) (p : Provider)
  : list (string * string) :=
  List.filter (fun kv => negb (inb (fst kv) reserved_fieldnames)
                    && inb (fst kv) (Dict.keys (p_fields p)))
         (params request).

(** One [sortby] token; [s[0]] of an empty token raises [IndexError]. *)
Definition sort_token (s : string) : res SortKey :=
  match s with
  | EmptyString => Err IndexError
  | String c r =>
      if Ascii.eqb c "+" || Ascii.eqb c "-"
      then Ok {| sk_property := r; sk_order := String c EmptyString |}
      else Ok {| sk_property := s; sk_order := "+" |}
  end.

Fixpoint sort_tokens (request : APIRequest) (hdrs : headers) (p : Provider)
    (sorts : list string) (sortby : list SortKey) : flow (list SortKey) :=
  match sorts with
  | [] => Next sortby
  | s :: r =>
      match sort_token s with
      | Err e => Raise e
      | Ok k =>
          if inb (sk_property k) (Dict.keys (p_fields p))
          then sort_tokens request hdrs p r (sortby ++ [k])%list
          else Return (bad_request request hdrs "bad sort property")
      end
  end.

Definition sortby_param (request : APIRequest) (hdrs : headers) (p : Provider)
  : flow (list SortKey) :=
  match Dict.get "sortby" (params request) with
  | None => Next []
  | Some val => sort_tokens request hdrs p (Str.split "," val) []
  end.

Definition properties_param (request : APIRequest) (hdrs : headers) (p : Provider)
  : flow (list string) :=
  match Dict.get "properties" (params request) with
  | None => Next []
  | Some val =>
      let select_properties := Str.split "," val in
      let properties_to_check := (p_properties p ++ Dict.keys (p_fields p))%list in
      if existsb (fun s => negb (inb s properties_to_check)) select_properties
      then Return (bad_request request hdrs "unknown properties specified")
      else Next select_properties
  end.

Definition skip_geometry_param (request : APIRequest) : bool :=
  match Dict.get "skipGeometry" (params request) with
  | None => false
  | Some val => str2bool lib val
  end.

Definition filter_param (request : APIRequest) (hdrs : headers)
  : flow (option cql_ast) :=
  match Dict.get "filter" (params request) with
  | None => Next None
  | Some cql_text =>
      match parse_ecql_text lib cql_text with
      | Some filter_ => Next (Some filter_)
      | None => Return (bad_request request hdrs ("Bad CQL string : " +:+ cql_text))
      end
  end.

Definition filter_lang_param (request : APIRequest) (hdrs : headers) : flow unit :=
  match Dict.get "filter-lang" (params request) with
  | None => Next tt
  | Some filter_lang =>
      if String.eqb filter_lang "cql-text" then Next tt
      else Return (bad_request request hdrs "Invalid filter language")
  end.

(** Everything the handler has worked out when it calls the provider. *)
Record Prepared := {
  pr_headers : headers;
  pr_collection : Resource;
  pr_provider_def : ProviderDef;
  pr_provider : Provider;
  pr_args : QueryArgs
}.

(** The handler up to the [skipGeometry] parameter. *)
Definition before_filter (request : APIRequest) (dataset : string)
  : flow (Prepared) :=
  if negb (is_valid request (formatter_plugins lib))
  then Return (get_format_exception lib api request)
  else
    let hdrs := get_response_headers lib request (Some SYSTEM_LOCALE) in
    let collections := filter_dict_by_type (resources (config api)) "collection" in
    match Dict.get dataset collections with
    | None =>
        Return (get_exception api 404 hdrs (format request) "NotFound"
                  "Collection not found")
    | Some collection =>
        do offset <- offset_param request hdrs;
        do limit <- limit_param request hdrs;
        let resulttype :=
          match or_else (Dict.get "resulttype" (params request)) (Some "results") with
          | Some r => r
          | None => "results"
          end in
        do bbox <- bbox_param request hdrs;
        do datetime_ <- datetime_param request hdrs collection;
        let q := or_else (Dict.get "q" (params request)) None in
        do loaded <- items_provider request hdrs collection;
        let provider_def := fst loaded in
        let p := snd loaded in
        let properties := property_filters request p in
        do sortby <- sortby_param request hdrs p;
        do select_properties <- properties_param request hdrs p;
        let skip_geometry := skip_geometry_param request in
        Next {| pr_headers := hdrs;
                pr_collection := collection;
                pr_provider_def := provider_def;
                pr_provider := p;
                pr_args :=
                  {| q_offset := offset; q_limit := limit;
                     q_resulttype := resulttype; q_bbox := bbox;
                     q_datetime := datetime_; q_properties := properties;
                     q_sortby := sortby;
                     q_select_properties := select_properties;
                     q_skip_geometry := skip_geometry; q_q := q;
                     q_language := None; q_filterq := None |} |}
    end.

(** The handler up to the call of [p.query]: the CQL text is parsed before
    the filter language is looked at. *)
Definition prepare (request : APIRequest) (dataset : string) : flow Prepared :=
  do pr <- before_filter request dataset;
  do filter_ <- filter_param request (pr_headers pr);
  do _ <- filter_lang_param request (pr_headers pr);
  let prv_locale :=
    get_plugin_locale lib (pr_provider_def pr) (raw_locale request) in
  let a := pr_args pr in
  Next {| pr_headers := pr_headers pr;
          pr_collection := pr_collection pr;
          pr_provider_def := pr_provider_def pr;
          pr_provider := pr_provider pr;
          pr_args :=
            {| q_offset := q_offset a; q_limit := q_limit a;
               q_resulttype := q_resulttype a; q_bbox := q_bbox a;
               q_datetime := q_datetime a; q_properties := q_properties a;
               q_sortby := q_sortby a;
               q_select_properties := q_select_properties a;
               q_skip_geometry := q_skip_geometry a; q_q := q_q a;
               q_language := prv_locale; q_filterq := filter_ |} |}.

(** [p.query(...)] and its three handlers; [except ProviderGenericError]
    also takes the subclasses the first two do not. *)
Definition query_provider (request : APIRequest) (pr : Prepared)
  : flow FeatureCollection :=
  match p_query (pr_provider pr) (pr_args pr) with
  | Ok content => Next content
  | Err ProviderConnectionError =>
      Return (server_error request (pr_headers pr) "connection error (check logs)")
  | Err ProviderQueryError =>
      Return (server_error request (pr_headers pr) "query error (check logs)")
  | Err e =>
      if is_provider_error e
      then Return (server_error request (pr_headers pr) "generic error (check logs)")
      else Raise e
  end.

(** *** Links *)

Definition serialized_query_params (request : APIRequest) : string :=
  Str.concat
    (map (fun kv => "&" +:+ Url.quote EmptyString (fst kv) +:+ "="
                    +:+ Url.quote "," (snd kv))
         (List.filter (fun kv => negb (inb (fst kv) ["f"; "offset"]))
            (params request))).

Definition items_uri (dataset : string) : string :=
  get_collections_url api +:+ "/" +:+ dataset +:+ "/items".

Definition format_links (request : APIRequest) (uri : string) : list Link :=
  let sqp := serialized_query_params request in
  [ mk_link "application/geo+json" (get_linkrel request F_JSON)
      "This document as GeoJSON" (uri +:+ "?f=" +:+ F_JSON +:+ sqp);
    mk_link (FORMAT_TYPES F_JSONLD) (get_linkrel request F_JSONLD)
      "This document as RDF (JSON-LD)" (uri +:+ "?f=" +:+ F_JSONLD +:+ sqp);
    mk_link (FORMAT_TYPES F_HTML) (get_linkrel request F_HTML)
      "This document as HTML" (uri +:+ "?f=" +:+ F_HTML +:+ sqp) ].

Definition prev_link (request : APIRequest) (uri : string) (offset limit : Z)
  : list Link :=
  if 0 <? offset
  then [ mk_link "application/geo+json" "prev" "items (prev)"
           (uri +:+ "?offset=" +:+ Str.of_Z (Z.max 0 (offset - limit))
                +:+ serialized_query_params request) ]
  else [].

Definition next_link (request : APIRequest) (uri : string) (offset limit : Z)
    (features : list Feature) : list Link :=
  if Z.of_nat (length features) =? limit
  then [ mk_link "application/geo+json" "next" "items (next)"
           (uri +:+ "?offset=" +:+ Str.of_Z (offset + limit)
                +:+ serialized_query_params request) ]
  else [].

Definition collection_link (request : APIRequest) (uri : string)
    (collection : Resource) : list Link :=
  [ mk_link (FORMAT_TYPES F_JSON)
      "collection" (translate lib (r_title collection) (locale request)) uri ].

(** [content["links"]], in the order the handler appends. *)
Definition items_links (request : APIRequest) (dataset : string)
    (collection : Resource) (offset limit : Z) (features : list Feature)
  : list Link :=
  let uri := items_uri dataset in
  (format_links request uri
   ++ prev_link request uri offset limit
   ++ next_link request uri offset limit features
   ++ collection_link request uri collection)%list.

(** *** The response *)

Definition html_items (request : APIRequest) (dataset : string) (pr : Prepared)
  : HtmlItems :=
  let uri := items_uri dataset in
  let p := pr_provider pr in
  let title := option_map (fun t => translate lib t (locale request)) (p_title_field p) in
  {| items_path := uri;
     dataset_path := Str.join "/" (removelast (Str.split "/" uri));
     h_collections_path := get_collections_url api;
     h_offset := q_offset (pr_args pr);
     id_field := match title with Some t => t | None => p_id_field p end;
     uri_field := p_uri_field p;
     title_field := title |}.

Definition csv_response (request : APIRequest) (dataset : string) (pr : Prepared)
    (hdrs : headers) (doc : ItemsDoc) : flow Response :=
  match get_provider_by_type (r_providers (pr_collection pr)) "feature" with
  | Err e => Raise e
  | Ok provider_def =>
      match csv_write lib doc provider_def with
      | Err FormatterSerializationError =>
          Return (server_error request hdrs "Error serializing output")
      | Err e => Raise e
      | Ok text =>
          let hdrs := Dict.set "Content-Type"
                        (csv_mimetype lib +:+ "; charset="
                           +:+ server_encoding (config api)) hdrs in
          let filename :=
            match p_filename (pr_provider pr) with
            | None => dataset +:+ ".csv"
            | Some f => f
            end in
          let cd := "attachment; filename=" +:+ String dquote filename
                      +:+ String dquote EmptyString in
          Next {| rs_headers := Dict.set "Content-Disposition" cd hdrs;
                  rs_status := 200;
                  rs_body := BRaw text |}
      end
  end.

Definition items_document (request : APIRequest) (dataset : string)
    (pr : Prepared) (content : FeatureCollection) : ItemsDoc :=
  {| i_features := fc_features content;
     i_other := fc_other content;
     i_links := items_links request dataset (pr_collection pr)
                  (q_offset (pr_args pr)) (q_limit (pr_args pr))
                  (fc_features content);
     i_timeStamp := utcnow lib;
     i_html := None |}.

Definition respond (request : APIRequest) (dataset : string) (pr : Prepared)
    (content : FeatureCollection) : flow Response :=
  let doc := items_document request dataset pr content in
  let hdrs := set_response_language lib (pr_headers pr)
                (q_language (pr_args pr)) (locale request) in
  if opt_eqb (format request) F_HTML then
    let doc := {| i_features := i_features doc; i_other := i_other doc;
                  i_links := i_links doc; i_timeStamp := i_timeStamp doc;
                  i_html := Some (html_items request dataset pr) |} in
    Next {| rs_headers := hdrs; rs_status := 200;
            rs_body := BHtml "collections/items/index.html" (DItems doc)
                         (locale request) |}
  else if opt_eqb (format request) "csv" then
    csv_response request dataset pr hdrs doc
  else if opt_eqb (format request) F_JSONLD then
    let id := match or_else (p_uri_field (pr_provider pr)) (Some "id") with
              | Some i => i
              | None => "id"
              end in
    Next {| rs_headers := hdrs; rs_status := 200;
            rs_body := BJson (pretty_print api) (DItemsLd doc dataset id) |}
  else
    Next {| rs_headers := hdrs; rs_status := 200;
            rs_body := BJson (pretty_print api) (DItems doc) |}.

Definition get_collection_items (request : APIRequest) (dataset : string)
  : outcome :=
  run (do pr <- prepare request dataset;
       do content <- query_provider request pr;
       respond request dataset pr content).

End Items.

(** ** [get_collection_queryables] *)

Section Queryables.

Variable lib : Lib.
Variable api : API.

(** The [try] statement that loads the provider.  The record fallback runs
    inside the [ProviderTypeError] handler, so nothing it raises is caught. *)
Definition queryables_provider (request : APIRequest) (hdrs : headers)
    (providers : list ProviderDef) : flow Provider :=
  match load_provider lib providers "feature" with
  | Ok r => Next (snd r)
  | Err ProviderTypeError =>
      match load_provider lib providers "record" with
      | Ok r => Next (snd r)
      | Err e => Raise e
      end
  | Err ProviderConnectionError =>
      Return (server_error api request hdrs "connection error (check logs)")
  | Err ProviderQueryError =>
      Return (server_error api request hdrs "query error (check logs)")
  | Err e => Raise e
  end.

Definition geometry_ref : PropSchema :=
  PRef "https://geojson.org/schema/Geometry.json".

(** [p.fields and (hasattr(p, "spatial") and p.spatial)] *)
Definition wants_geometry (p : Provider) : bool :=
  match p_fields p with
  | [] => false
  | _ :: _ => match p_spatial p with Some b => b | None => false end
  end.

Definition show_field (p : Provider) (k : string) : bool :=
  match p_properties p with
  | [] => true
  | _ :: _ => inb k (p_properties p)
  end.

Definition add_field (p : Provider) (props : gmap string PropSchema)
    (kv : string * FieldDef) : gmap string PropSchema :=
  if show_field p (fst kv)
  then <[ fst kv := PField (fst kv) (f_type (snd kv)) (f_values (snd kv)) ]> props
  else props.

Definition queryables_properties (p : Provider) : gmap string PropSchema :=
  fold_left (add_field p) (p_fields p)
    (if wants_geometry p then <[ "geometry" := geometry_ref ]> ∅ else ∅).

Definition get_collection_queryables (request : APIRequest)
    (dataset : option string) : outcome :=
  run (
    if negb (is_valid request [])
    then Return (get_format_exception lib api request)
    else
      let hdrs := get_response_headers lib request None in
      match dataset with
      | None =>
          Return (get_exception api 404 hdrs (format request) "NotFound"
                    "Collection not found")
      | Some dataset =>
          match Dict.get dataset (resources (config api)) with
          | None =>
              Return (get_exception api 404 hdrs (format request) "NotFound"
                        "Collection not found")
          | Some resource =>
              do p <- queryables_provider request hdrs (r_providers resource);
              let queryables :=
                {| qy_type := "object";
                   qy_title := translate lib (r_title resource) (locale request);
                   qy_properties := queryables_properties p;
                   qy_schema := "http://json-schema.org/draft/2019-09/schema";
                   qy_id := get_collections_url api +:+ "/" +:+ dataset
                              +:+ "/queryables" |} in
              if opt_eqb (format request) F_HTML then
                Next {| rs_headers := hdrs; rs_status := 200;
                        rs_body :=
                          BHtml "collections/queryables.html"
                            (DQueryables queryables (Some (get_collections_url api)))
                            (locale request) |}
              else
                Next {| rs_headers := Dict.set "Content-Type" "application/schema+json" hdrs;
                        rs_status := 200;
                        rs_body := BJson (pretty_print api)
                                     (DQueryables queryables None) |}
          end
      end).

End Queryables.

(** ** [describe_collections] *)

Section Describe.

Variable lib : Lib.
Variable api : API.

Definition is_hidden (v : Resource) : bool :=
  match r_visibility v with
  | Some vis => String.eqb vis "hidden"
  | None => false
  end.

Definition collection_extent (v : Resource) : option Extent :=
  match r_extents v with
  | None => None
  | Some ext =>
      Some {| e_bbox := match spatial_bbox ext with
                        | BBox1 b => [b]
                        | BBoxN bs => bs
                        end;
              e_crs := spatial_crs ext;
              e_interval := option_map (fun t => (t_begin t, t_end t)) (temporal ext);
              e_trs := match temporal ext with
                       | Some t => t_trs t
                       | None => None
                       end |}
  end.

Definition configured_links (request : APIRequest) (v : Resource) : list Link :=
  map (fun link =>
         {| l_type := cl_type link;
            l_rel := cl_rel link;
            l_title := translate lib (cl_title link) (locale request);
            l_href := translate lib (cl_href link) (locale request);
            l_hreflang := option_map (fun h => translate lib h (locale request))
                            (cl_hreflang link) |})
      (translate_links lib (r_links v) (locale request)).

Definition curl : string := get_collections_url api.

Definition document_links (request : APIRequest) (k : string) : list Link :=
  [ mk_link (FORMAT_TYPES F_JSON) "root" "The landing page of this server as JSON"
      (server_url (config api) +:+ "?f=" +:+ F_JSON);
    mk_link (FORMAT_TYPES F_HTML) "root" "The landing page of this server as HTML"
      (server_url (config api) +:+ "?f=" +:+ F_HTML);
    mk_link (FORMAT_TYPES F_JSON) (get_linkrel request F_JSON) "This document as JSON"
      (curl +:+ "/" +:+ k +:+ "?f=" +:+ F_JSON);
    mk_link (FORMAT_TYPES F_JSONLD) (get_linkrel request F_JSONLD)
      "This document as RDF (JSON-LD)"
      (curl +:+ "/" +:+ k +:+ "?f=" +:+ F_JSONLD);
    mk_link (FORMAT_TYPES F_HTML) (get_linkrel request F_HTML) "This document as HTML"
      (curl +:+ "/" +:+ k +:+ "?f=" +:+ F_HTML) ].

(** The HTML queryables link has no [/] before [queryables] in the source. *)
Definition item_links (k : string) : list Link :=
  [ mk_link (FORMAT_TYPES F_JSON) "queryables" "Queryables for this collection as JSON"
      (curl +:+ "/" +:+ k +:+ "/queryables?f=" +:+ F_JSON);
    mk_link (FORMAT_TYPES F_HTML) "queryables" "Queryables for this collection as HTML"
      (curl +:+ "/" +:+ k +:+ "queryables?f=" +:+ F_HTML);
    mk_link "application/geo+json" "items" "items as GeoJSON"
      (curl +:+ "/" +:+ k +:+ "/items?f=" +:+ F_JSON);
    mk_link (FORMAT_TYPES F_JSONLD) "items" "items as RDF (GeoJSON-LD)"
      (curl +:+ "/" +:+ k +:+ "/items?f=" +:+ F_JSONLD);
    mk_link (FORMAT_TYPES F_HTML) "items" "Items as HTML"
      (curl +:+ "/" +:+ k +:+ "/items?f=" +:+ F_HTML) ].

Definition coverage_links (k : string) (fmt : option Format) : list Link :=
  let coverage_url := curl +:+ "/" +:+ k +:+ "/coverage" in
  ([ mk_link (FORMAT_TYPES F_JSON) "collection" "Detailed Coverage metadata in JSON"
       (curl +:+ "/" +:+ k +:+ "?f=" +:+ F_JSON);
     mk_link (FORMAT_TYPES F_HTML) "collection" "Detailed Coverage metadata in HTML"
       (curl +:+ "/" +:+ k +:+ "?f=" +:+ F_HTML);
     mk_link (FORMAT_TYPES F_JSON) (OGC_RELTYPES_BASE +:+ "/coverage-domainset")
       "Coverage domain set of collection in JSON"
       (coverage_url +:+ "/domainset?f=" +:+ F_JSON);
     mk_link (FORMAT_TYPES F_HTML) (OGC_RELTYPES_BASE +:+ "/coverage-domainset")
       "Coverage domain set of collection in HTML"
       (coverage_url +:+ "/domainset?f=" +:+ F_HTML);
     mk_link (FORMAT_TYPES F_JSON) (OGC_RELTYPES_BASE +:+ "/coverage-rangetype")
       "Coverage range type of collection in JSON"
       (coverage_url +:+ "/rangetype?f=" +:+ F_JSON);
     mk_link (FORMAT_TYPES F_HTML) (OGC_RELTYPES_BASE +:+ "/coverage-rangetype")
       "Coverage range type of collection in HTML"
       (coverage_url +:+ "/rangetype?f=" +:+ F_HTML);
     mk_link "application/prs.coverage+json" (OGC_RELTYPES_BASE +:+ "/coverage")
       "Coverage data" (curl +:+ "/" +:+ k +:+ "/coverage?f=" +:+ F_JSON) ]
   ++ match fmt with
      | None => []
      | Some f =>
          [ mk_link (fmt_mimetype f) (OGC_RELTYPES_BASE +:+ "/coverage")
              ("Coverage data as " +:+ fmt_name f)
              (curl +:+ "/" +:+ k +:+ "/coverage?f=" +:+ fmt_name f) ]
      end)%list.

Definition tile_links (k : string) : list Link :=
  [ mk_link (FORMAT_TYPES F_JSON) "tiles" "Tiles as JSON"
      (curl +:+ "/" +:+ k +:+ "/tiles?f=" +:+ F_JSON);
    mk_link (FORMAT_TYPES F_HTML) "tiles" "Tiles as HTML"
      (curl +:+ "/" +:+ k +:+ "/tiles?f=" +:+ F_HTML) ].

Definition edr_links (k : string) (query_types : list string) : list Link :=
  flat_map (fun qt =>
    [ mk_link "application/json" "data"
        (qt +:+ " query for this collection as JSON")
        (curl +:+ "/" +:+ k +:+ "/" +:+ qt +:+ "?f=" +:+ F_JSON);
      mk_link (FORMAT_TYPES F_HTML) "data"
        (qt +:+ " query for this collection as HTML")
        (curl +:+ "/" +:+ k +:+ "/" +:+ qt +:+ "?f=" +:+ F_HTML) ])
    query_types.

Definition connection_error (request : APIRequest) (hdrs : headers) : Response :=
  get_exception api 500 hdrs (format request) "NoApplicableCode"
    "connection error (check logs)".

(** The extended coverage metadata of a single requested collection:
    a type mismatch is passed over, a connection failure is a 500. *)
Definition coverage_extension (request : APIRequest) (hdrs : headers)
    (v : Resource) : flow (option Provider) :=
  match load_provider lib (r_providers v) "coverage" with
  | Ok r => Next (Some (snd r))
  | Err ProviderConnectionError => Return (connection_error request hdrs)
  | Err ProviderTypeError => Next None
  | Err e => Raise e
  end.

Definition edr_extension (request : APIRequest) (hdrs : headers)
    (v : Resource) : flow (option Provider) :=
  match load_provider lib (r_providers v) "edr" with
  | Ok r => Next (Some (snd r))
  | Err ProviderConnectionError => Return (connection_error request hdrs)
  | Err ProviderTypeError => Next None
  | Err e => Raise e
  end.

Definition parameter_names (params : list EdrParam) : list (string * EdrParam) :=
  fold_left (fun d f => Dict.set (ep_id f) f d) params [].

Definition has_provider (v : Resource) (provider_type : string) : bool :=
  match get_provider_by_type (r_providers v) provider_type with
  | Ok _ => true
  | Err _ => false
  end.

Definition is_some {A} (o : option A) : bool :=
  match o with Some _ => true | None => false end.

(** The body of the loop for one collection that is not skipped. *)
Definition build_collection (request : APIRequest) (hdrs : headers)
    (dataset : option string) (k : string) (v : Resource) : flow Collection :=
  match get_provider_default (r_providers v) with
  | Err e => Raise e
  | Ok collection_data =>
      let collection_data_type := pd_type collection_data in
      let itemish := inb collection_data_type ["feature"; "record"; "tile"] in
      let coverage := negb itemish && String.eqb collection_data_type "coverage" in
      do cov <- (if coverage && is_some dataset
                 then coverage_extension request hdrs v
                 else Next None);
      do edr <- (if has_provider v "edr" && is_some dataset
                 then edr_extension request hdrs v
                 else Next None);
      Next {| c_id := k;
              c_title := translate lib (r_title v) (locale request);
              c_description := translate lib (r_description v) (locale request);
              c_keywords := translate_words lib (r_keywords v) (locale request);
              c_links :=
                (configured_links request v
                 ++ document_links request k
                 ++ (if itemish then item_links k
                     else if coverage
                          then coverage_links k (pd_format collection_data)
                          else [])
                 ++ (if has_provider v "tile" then tile_links k else [])
                 ++ match edr with
                    | Some p => edr_links k (p_query_types p)
                    | None => []
                    end)%list;
              c_extent := collection_extent v;
              c_itemType := if itemish then Some collection_data_type else None;
              c_crs := option_map (fun p => [p_crs p]) cov;
              c_domainset := option_map p_coverage_domainset cov;
              c_rangetype := option_map p_coverage_rangetype cov;
              c_parameter_names :=
                match edr with
                | Some p => option_map parameter_names (p_get_fields p)
                | None => None
                end |}
  end.

(** The loop over [collections_dict]: a hidden entry is skipped whatever
    was asked for; the requested entry replaces [fcm] and ends the loop. *)
Fixpoint collect (request : APIRequest) (hdrs : headers)
    (dataset : option string) (items : list (string * Resource))
    (fcm : Listing) : flow Fcm :=
  match items with
  | [] => Next (FListing fcm)
  | (k, v) :: rest =>
      if is_hidden v then collect request hdrs dataset rest fcm
      else
        do collection <- build_collection request hdrs dataset k v;
        if opt_eqb dataset k then Next (FCollection collection)
        else collect request hdrs dataset rest
               {| collections := (collections fcm ++ [collection])%list;
                  links := links fcm |}
  end.

Definition listing_links (request : APIRequest) : list Link :=
  [ mk_link (FORMAT_TYPES F_JSON) (get_linkrel request F_JSON) "This document as JSON"
      (curl +:+ "?f=" +:+ F_JSON);
    mk_link (FORMAT_TYPES F_JSONLD) (get_linkrel request F_JSONLD)
      "This document as RDF (JSON-LD)" (curl +:+ "?f=" +:+ F_JSONLD);
    mk_link (FORMAT_TYPES F_HTML) (get_linkrel request F_HTML) "This document as HTML"
      (curl +:+ "?f=" +:+ F_HTML) ].

(** [fcm["links"].append(...)], on whichever object [fcm] is. *)
Definition append_links (fcm : Fcm) (ls : list Link) : Fcm :=
  match fcm with
  | FListing l => FListing {| collections := collections l;
                              links := (links l ++ ls)%list |}
  | FCollection c =>
      FCollection
        {| c_id := c_id c; c_title := c_title c; c_description := c_description c;
           c_keywords := c_keywords c; c_links := (c_links c ++ ls)%list;
           c_extent := c_extent c; c_itemType := c_itemType c; c_crs := c_crs c;
           c_domainset := c_domainset c; c_rangetype := c_rangetype c;
           c_parameter_names := c_parameter_names c |}
  end.

Definition describe_response (request : APIRequest) (hdrs : headers)
    (dataset : option string) (fcm : Fcm) : Response :=
  if opt_eqb (format request) F_HTML then
    {| rs_headers := hdrs; rs_status := 200;
       rs_body := BHtml (if is_some dataset
                         then "collections/collection.html"
                         else "collections/index.html")
                    (DFcm fcm (Some curl)) (locale request) |}
  else if opt_eqb (format request) F_JSONLD then
    {| rs_headers := hdrs; rs_status := 200;
       rs_body := BJson (pretty_print api)
                    (if is_some dataset then DLdDataset fcm
                     else DLdDatasets match fcm with
                                      | FListing l => collections l
                                      | FCollection _ => []
                                      end) |}
  else
    {| rs_headers := hdrs; rs_status := 200;
       rs_body := BJson (pretty_print api) (DFcm fcm None) |}.

(** Whether [fcm] is the metadata object of a collection. *)
Definition collection_shaped (fcm : Fcm) : bool :=
  match fcm with
  | FCollection _ => true
  | FListing _ => false
  end.

(** The end of the handler.  For a requested collection the HTML template of
    a collection and [jsonldify_collection] are handed [fcm] as if it were a
    collection: [jsonldify_collection] reads [collection['id']], a
    [KeyError] on the listing document, and the template reads into the
    fields of a collection, which the template engine refuses on the listing
    document.  The JSON branch serialises whatever [fcm] is. *)
Definition describe_render (request : APIRequest) (hdrs : headers)
    (dataset : option string) (fcm : Fcm) : flow Response :=
  if is_some dataset && negb (collection_shaped fcm) then
    if opt_eqb (format request) F_HTML then Raise (OtherError "UndefinedError")
    else if opt_eqb (format request) F_JSONLD then Raise (OtherError "KeyError")
    else Next (describe_response request hdrs dataset fcm)
  else Next (describe_response request hdrs dataset fcm).

Definition describe_collections (request : APIRequest) (dataset : option string)
  : outcome :=
  run (
    if negb (is_valid request [])
    then Return (get_format_exception lib api request)
    else
      let hdrs := get_response_headers lib request None in
      let collections := filter_dict_by_type (resources (config api)) "collection" in
      if match dataset with
         | Some d => negb (inb d (Dict.keys collections))
         | None => false
         end
      then Return (get_exception api 404 hdrs (format request) "NotFound"
                     "Collection not found")
      else
        let collections_dict :=
          match dataset with
          | Some d => List.filter (fun kv => String.eqb (fst kv) d) collections
          | None => collections
          end in
        do fcm <- collect request hdrs dataset collections_dict
                    {| collections := []; links := [] |};
        let fcm := if is_some dataset then fcm
                   else append_links fcm (listing_links request) in
        describe_render request hdrs dataset fcm).

End Describe.

(** ** Reading a response back *)

(** The item document a response carries, whatever its format. *)
Definition response_items (r : Response) : option ItemsDoc :=
  match rs_body r with
  | BJson _ (DItems d) | BJson _ (DItemsLd d _ _) | BHtml _ (DItems d) _ => Some d
  | _ => None
  end.

(** The description of an exception report. *)
Definition error_message (r : Response) : option string :=
  match rs_body r with
  | BJson _ (DException _ description) | BHtml _ (DException _ description) _ =>
      Some description
  | _ => None
  end.

Definition response_queryables (r : Response) : option Queryables :=
  match rs_body r with
  | BJson _ (DQueryables q _) | BHtml _ (DQueryables q _) _ => Some q
  | _ => None
  end.

(** The document of a collection description. *)
Definition described (r : Response) : option Fcm :=
  match rs_body r with
  | BJson _ (DFcm fcm _) | BHtml _ (DFcm fcm _) _ | BJson _ (DLdDataset fcm) => Some fcm
  | _ => None
  end.

Definition has_rel (rel : string) (ls : list Link) : Prop :=
  exists l, In l ls /\ l_rel l = rel.

(** ** A small deployment

    One configuration and one stand-in for the library, on which the
    handlers can be run. *)
Module Demo.

Fixpoint digits (s : string) (acc : Z) : option Z :=
  match s with
  | EmptyString => Some acc
  | String c r =>
      if Url.between "0" "9" c
      then digits r (10 * acc + (Z.of_N (N_of_ascii c) - 48))
      else None
  end.

Definition int (s : string) : option Z :=
  match s with
  | EmptyString => None
  | String c r =>
      if Ascii.eqb c "-"
      then match r with
           | EmptyString => None
           | _ => option_map Z.opp (digits r 0)
           end
      else digits s 0
  end.

Definition bbox (s : string) : string + list float :=
  let parts := Str.split "," s in
  if (length parts =? 4)%nat || (length parts =? 6)%nat
  then inr parts
  else inl "bbox should be either 4 values (minx,miny,maxx,maxy) or 6 values (minx,miny,minz,maxx,maxy,maxz)".

Fixpoint all_in (allowed : string) (s : string) : bool :=
  match s with
  | EmptyString => true
  | String c r => Str.mem c allowed && all_in allowed r
  end.

(** Accepts instants and intervals written with digits and the RFC 3339
    punctuation, rejects any other text. *)
Definition datetime (e : Extents) (d : option string) : vd_result :=
  match d with
  | None => VdOk None
  | Some t =>
      if all_in "0123456789-:.TZ/+" t then VdOk (Some t)
      else VdValueError ("Unknown string format: " +:+ t)
  end.

(** Accepts a text that has a comparison in it. *)
Definition ecql (text : string) : option cql_ast :=
  if Str.mem "=" text || Str.mem "<" text || Str.mem ">" text
  then Some (Ast text) else None.

Definition feature (id : string) : Feature :=
  {| ft_id := id; ft_geometry := None; ft_properties := [("name", id)] |}.

Definition backing : list Feature :=
  map feature ["s1"; "s2"; "s3"; "s4"; "s5"].

Definition page (a : QueryArgs) : res FeatureCollection :=
  Ok {| fc_features := firstn (Z.to_nat (q_limit a))
                         (skipn (Z.to_nat (q_offset a)) backing);
        fc_other := [("type", "FeatureCollection"); ("numberMatched", "5")] |}.

Definition stations_provider : Provider :=
  {| p_fields := [ ("id", {| f_type := "string"; f_values := None |});
                   ("name", {| f_type := "string"; f_values := None |});
                   ("elevation", {| f_type := "number"; f_values := None |}) ];
     p_properties := [];
     p_spatial := Some true;
     p_id_field := "id";
     p_uri_field := None;
     p_title_field := None;
     p_filename := None;
     p_crs := EmptyString;
     p_coverage_domainset := EmptyString;
     p_coverage_rangetype := EmptyString;
     p_get_fields := None;
     p_query_types := [];
     p_query := page |}.

(** A spatial provider that exposes no field. *)
Definition bare_provider : Provider :=
  {| p_fields := [];
     p_properties := [];
     p_spatial := Some true;
     p_id_field := "id";
     p_uri_field := None;
     p_title_field := None;
     p_filename := None;
     p_crs := EmptyString;
     p_coverage_domainset := EmptyString;
     p_coverage_rangetype := EmptyString;
     p_get_fields := None;
     p_query_types := [];
     p_query := page |}.

Definition load (d : ProviderDef) : res Provider :=
  if String.eqb (pd_name d) "Stations" then Ok stations_provider
  else if String.eqb (pd_name d) "Bare" then Ok bare_provider
  else if String.eqb (pd_name d) "Down" then Err ProviderConnectionError
  else Err (OtherError "InvalidPluginError").

Definition text (t : ltext) (locale : string) : string :=
  match t with
  | Plain s => s
  | _ => EmptyString
  end.

Definition words (t : ltext) (locale : string) : list string :=
  match t with
  | Words l => l
  | _ => []
  end.

Definition lib : Lib :=
  {| translate := text;
     translate_words := words;
     translate_links := fun l _ => l;
     get_plugin_locale := fun _ _ => None;
     set_response_language := fun h _ l => Dict.set "Content-Language" l h;
     get_response_headers := fun r _ =>
       [("Content-Type",
         FORMAT_TYPES match format r with Some f => f | None => F_JSON end)];
     formatter_plugins := ["CSV"];
     py_int := int;
     str2bool := fun s => inb (lower s) ["true"; "t"; "1"; "yes"; "on"];
     validate_bbox := bbox;
     validate_datetime := datetime;
     parse_ecql_text := ecql;
     load_plugin := load;
     csv_write := fun _ _ => Ok "id,name";
     csv_mimetype := "text/csv";
     utcnow := "2021-01-01T00:00:00.000000Z" |}.

Definition binding (type name : string) : ProviderDef :=
  {| pd_type := type; pd_name := name; pd_default := None; pd_format := None |}.

Definition resource (title : string) (providers : list ProviderDef)
    (extents : option Extents) (visibility : option string) : Resource :=
  {| r_type := "collection";
     r_title := Plain title;
     r_description := Plain title;
     r_keywords := Words [];
     r_links := [];
     r_providers := providers;
     r_extents := extents;
     r_visibility := visibility |}.

Definition world : Extents :=
  {| spatial_bbox := BBox1 ["-180"; "-90"; "180"; "90"];
     spatial_crs := None;
     temporal := Some {| t_begin := Some "2000-01-01T00:00:00Z";
                         t_end := None; t_trs := None |} |}.

Definition cfg : Config :=
  {| server_url := "http://localhost:5000/oapi";
     server_limit := 10;
     server_encoding := "utf-8";
     resources :=
       [ ("stations", resource "Stations" [binding "feature" "Stations"] (Some world) None);
         ("archive", resource "Archive" [binding "feature" "Stations"] (Some world)
                       (Some "hidden"));
         ("basemap", resource "Base map" [binding "tile" "MVT"] (Some world) None);
         ("catalogue", resource "Catalogue" [binding "record" "Down"] (Some world) None);
         ("plain", resource "Plain" [binding "feature" "Stations"] None None);
         ("bare", resource "Bare" [binding "feature" "Bare"] (Some world) None) ] |}.

Definition api : API :=
  {| config := cfg;
     pretty_print := false;
     get_collections_url := "http://localhost:5000/oapi/collections" |}.

Definition get (params : list (string * string)) : APIRequest :=
  {| format := None; locale := "en_US"; raw_locale := None; params := params |}.

(** Sorted by two keys, with a selection of properties. *)
Definition sorted : APIRequest :=
  get [("sortby", "-elevation,name"); ("properties", "name,id")].

Definition stations : Resource :=
  resource "Stations" [binding "feature" "Stations"] (Some world) None.

(** The second page of two stations, filtered by name. *)
Definition page2 : APIRequest :=
  get [("f", "json"); ("limit", "2"); ("offset", "2"); ("name", "s 3,s4")].

(** *** A second deployment, with providers that fail *)

Definition with_query (p : Provider) (q : QueryArgs -> res FeatureCollection)
  : Provider :=
  {| p_fields := p_fields p; p_properties := p_properties p;
     p_spatial := p_spatial p; p_id_field := p_id_field p;
     p_uri_field := p_uri_field p; p_title_field := p_title_field p;
     p_filename := p_filename p; p_crs := p_crs p;
     p_coverage_domainset := p_coverage_domainset p;
     p_coverage_rangetype := p_coverage_rangetype p;
     p_get_fields := p_get_fields p; p_query_types := p_query_types p;
     p_query := q |}.

(** Loads, but every query fails. *)
Definition flaky_provider : Provider :=
  with_query stations_provider (fun _ => Err ProviderQueryError).

(** Has a title field, a file name, and shows only two of its fields. *)
Definition titled_provider : Provider :=
  {| p_fields := p_fields stations_provider;
     p_properties := ["name"; "elevation"];
     p_spatial := None;
     p_id_field := "id";
     p_uri_field := None;
     p_title_field := Some (Plain "name");
     p_filename := Some "export.csv";
     p_crs := EmptyString;
     p_coverage_domainset := EmptyString;
     p_coverage_rangetype := EmptyString;
     p_get_fields := None;
     p_query_types := [];
     p_query := page |}.

Definition load2 (d : ProviderDef) : res Provider :=
  if String.eqb (pd_name d) "Flaky" then Ok flaky_provider
  else if String.eqb (pd_name d) "Titled" then Ok titled_provider
  else load d.

Definition lib2 : Lib :=
  {| translate := translate lib;
     translate_words := translate_words lib;
     translate_links := translate_links lib;
     get_plugin_locale := get_plugin_locale lib;
     set_response_language := set_response_language lib;
     get_response_headers := get_response_headers lib;
     formatter_plugins := formatter_plugins lib;
     py_int := py_int lib;
     str2bool := str2bool lib;
     validate_bbox := validate_bbox lib;
     validate_datetime := validate_datetime lib;
     parse_ecql_text := parse_ecql_text lib;
     load_plugin := load2;
     csv_write := csv_write lib;
     csv_mimetype := csv_mimetype lib;
     utcnow := utcnow lib |}.

Definition job : Resource :=
  {| r_type := "process";
     r_title := Plain "Job";
     r_description := Plain "Job";
     r_keywords := Words [];
     r_links := [];
     r_providers := [binding "feature" "Stations"];
     r_extents := None;
     r_visibility := None |}.

Definition cfg2 : Config :=
  {| server_url := "http://localhost:5000/oapi";
     server_limit := 10;
     server_encoding := "utf-8";
     resources :=
       [ ("flaky", resource "Flaky" [binding "feature" "Flaky"] None None);
         ("offline", resource "Offline" [binding "feature" "Down"] None None);
         ("records", resource "Records" [binding "record" "Stations"] None None);
         ("titled", resource "Titled" [binding "feature" "Titled"] None None);
         ("grid", resource "Grid" [binding "coverage" "Down"] None None);
         ("job", job) ] |}.

Definition api2 : API :=
  {| config := cfg2;
     pretty_print := false;
     get_collections_url := "http://localhost:5000/oapi/collections" |}.

(** A deployment with a collection that has no provider at all. *)
Definition api3 : API :=
  {| config :=
       {| server_url := "http://localhost:5000/oapi";
          server_limit := 10;
          server_encoding := "utf-8";
          resources :=
            [ ("stations", stations);
              ("empty", resource "Empty" [] None None) ] |};
     pretty_print := false;
     get_collections_url := "http://localhost:5000/oapi/collections" |}.

Definition get_as (fmt : string) (ps : list (string * string)) : APIRequest :=
  {| format := Some fmt; locale := "en_US"; raw_locale := None; params := ps |}.

End Demo.

(** ** Vocabulary of the statements *)

(** The parameters that go into the links: all but [f] and [offset]. *)
Definition kept (kv : string * string) : bool :=
  negb (inb (fst kv) ["f"; "offset"]).

(** One [key=value] of the suffix, and the suffix of a list of parameters. *)
Definition pair_text (kv : string * string) : string :=
  Url.quote EmptyString (fst kv) +:+ "=" +:+ Url.quote "," (snd kv).

Definition suffix_of (l : list (string * string)) : string :=
  Str.concat (map (fun kv => "&" +:+ pair_text kv) l).

(** The request with one more parameter. *)
Definition with_param (request : APIRequest) (k v : string) : APIRequest :=
  {| format := format request;
     locale := locale request;
     raw_locale := raw_locale request;
     params := (params request ++ [(k, v)])%list |}.

(** The headers of a collection description. *)
Definition describe_headers (lib : Lib) (request : APIRequest) : headers :=
  get_response_headers lib request None.

(** The headers the item handler reports a failed check with. *)
Definition items_headers (lib : Lib) (request : APIRequest) : headers :=
  get_response_headers lib request (Some SYSTEM_LOCALE).

(** The request has a valid format, names a configured collection and its
    [offset], [limit] and [bbox] pass their checks. *)
Definition reaches_datetime (lib : Lib) (api : API) (request : APIRequest)
    (dataset : string) (collection : Resource) : Prop :=
  is_valid request (formatter_plugins lib) = true
  /\ Dict.get dataset (filter_dict_by_type (resources (config api)) "collection")
     = Some collection
  /\ (exists offset,
        offset_param lib api request (items_headers lib request) = Next offset)
  /\ (exists limit,
        limit_param lib api request (items_headers lib request) = Next limit)
  /\ (exists bbox,
        bbox_param lib api request (items_headers lib request) = Next bbox).

(** ... and its [datetime] passes too, so that the provider is looked up. *)
Definition reaches_provider (lib : Lib) (api : API) (request : APIRequest)
    (dataset : string) (collection : Resource) : Prop :=
  reaches_datetime lib api request dataset collection
  /\ (exists datetime_,
        datetime_param lib api request (items_headers lib request) collection
        = Next datetime_).

(** The link to the page at [target]. *)
Definition page_link (api : API) (request : APIRequest) (dataset rel : string)
    (target : Z) : Link :=
  mk_link "application/geo+json" rel ("items (" +:+ rel +:+ ")")
    (items_uri api dataset +:+ "?offset=" +:+ Str.of_Z target
       +:+ serialized_query_params request).

Definition the_prev (api : API) (request : APIRequest) (dataset : string)
    (offset limit : Z) : Link :=
  page_link api request dataset "prev" (Z.max 0 (offset - limit)).

Definition the_next (api : API) (request : APIRequest) (dataset : string)
    (offset limit : Z) : Link :=
  page_link api request dataset "next" (offset + limit).

(** A response made by [get_exception]. *)
Definition exceptional (api : API) (r : Response) : Prop :=
  exists status hdrs fmt code msg, r = get_exception api status hdrs fmt code msg.

(** What holds of [pr] when the handler has come through the parameter
    checks up to [skipGeometry] with it. *)
Record reached (lib : Lib) (api : API) (request : APIRequest) (dataset : string)
    (pr : Prepared) : Prop := {
  reached_valid : is_valid request (formatter_plugins lib) = true;
  reached_headers :
    pr_headers pr = get_response_headers lib request (Some SYSTEM_LOCALE);
  reached_collection :
    Dict.get dataset (filter_dict_by_type (resources (config api)) "collection")
    = Some (pr_collection pr);
  reached_offset :
    offset_param lib api request (pr_headers pr) = Next (q_offset (pr_args pr));
  reached_limit :
    limit_param lib api request (pr_headers pr) = Next (q_limit (pr_args pr));
  reached_bbox :
    bbox_param lib api request (pr_headers pr) = Next (q_bbox (pr_args pr));
  reached_datetime :
    datetime_param lib api request (pr_headers pr) (pr_collection pr)
    = Next (q_datetime (pr_args pr));
  reached_provider :
    items_provider lib api request (pr_headers pr) (pr_collection pr)
    = Next (pr_provider_def pr, pr_provider pr);
  reached_properties :
    q_properties (pr_args pr) = property_filters request (pr_provider pr);
  reached_sortby :
    sortby_param api request (pr_headers pr) (pr_provider pr)
    = Next (q_sortby (pr_args pr));
  reached_select :
    properties_param api request (pr_headers pr) (pr_provider pr)
    = Next (q_select_properties (pr_args pr))
}.

(** A failed request: one of the three error statuses and an exception
    report for a body. *)
Definition failure (r : Response) : Prop :=
  (rs_status r = 400 \/ rs_status r = 404 \/ rs_status r = 500)
  /\ exists msg, error_message r = Some msg.

(** A successful item response: the item document, or the CSV text. *)
Definition delivers (r : Response) : Prop :=
  rs_status r = 200
  /\ ((exists d, response_items r = Some d) \/ (exists text, rs_body r = BRaw text)).

(** The entries of a dictionary of resources that are not hidden. *)
Definition visible (kv : string * Resource) : bool := negb (is_hidden (snd kv)).

(** The query string of a link: what follows the first [?]. *)
Definition link_query (l : Link) : string :=
  match snd (Str.split1 "?" (l_href l)) with
  | Some q => q
  | None => EmptyString
  end.

(** A text that a query string carries unchanged. *)
Definition plain (s : string) : Prop :=
  Str.mem "&" s = false /\ Str.mem "=" s = false
  /\ Str.mem "+" s = false /\ Str.mem "%" s = false.

(** What the property map holds before the fields are added. *)
Definition geometry_entry (p : Provider) (k : string) : option PropSchema :=
  if String.eqb k "geometry" && wants_geometry p then Some geometry_ref else None.

(** * Properties *)

(** ** Worked values *)

Example quote_key_ex : Url.quote EmptyString "a b,c" = "a%20b%2Cc".
Proof. reflexivity. Qed.

Example quote_val_ex : Url.quote "," "a b,c/ü" = "a%20b,c%2F%C3%BC".
Proof. reflexivity. Qed.

Example unquote_ex : Url.unquote "a%20b%2cc%zz%" = "a b,c%zz%".
Proof. reflexivity. Qed.

Example parse_qsl_ex :
  Url.parse_qsl "&limit=2&name=&a%3Db=1,2"
  = [("limit", "2"); ("name", EmptyString); ("a=b", "1,2")].
Proof. reflexivity. Qed.

Example of_Z_ex : Str.of_Z 120 = "120" /\ Str.of_Z 0 = "0" /\ Str.of_Z (-7) = "-7".
Proof. repeat split; reflexivity. Qed.

(** The stations scenario: the first page of two has a [next] link to
    offset 2 and no [prev] link. *)
Example stations_first_page :
  match get_collection_items Demo.lib Demo.api
          (Demo.get [("limit", "2"); ("offset", "0"); ("sortby", "-elevation")])
          "stations" with
  | Responded r =>
      option_map (fun d => (map ft_id (i_features d), map l_rel (i_links d)))
        (response_items r)
  | Raised _ => None
  end
  = Some (["s1"; "s2"], ["self"; "alternate"; "alternate"; "next"; "collection"]).
Proof. reflexivity. Qed.

Example stations_next_target :
  l_href (the_next Demo.api
            (Demo.get [("limit", "2"); ("offset", "0"); ("sortby", "-elevation")])
            "stations" 0 2)
  = "http://localhost:5000/oapi/collections/stations/items?offset=2&limit=2&sortby=-elevation".
Proof. reflexivity. Qed.

(** ** Strings and percent-encoding *)

Section StringFacts.

Lemma append_cons (c : ascii) (a b : string) :
  String c a +:+ b = String c (a +:+ b).
Proof. reflexivity. Qed.

Lemma append_nil_l (b : string) : EmptyString +:+ b = b.
Proof. reflexivity. Qed.

Lemma append_nil_r (s : string) : s +:+ EmptyString = s.
Proof.
  induction s as [|c s IH]; [reflexivity|].
  now rewrite append_cons, IH.
Qed.

Lemma append_assoc (a b c : string) : (a +:+ b) +:+ c = a +:+ (b +:+ c).
Proof.
  induction a as [|x a IH]; [reflexivity|].
  now rewrite !append_cons, IH.
Qed.

Lemma mem_append (x : ascii) (a b : string) :
  Str.mem x (a +:+ b) = Str.mem x a || Str.mem x b.
Proof.
  induction a as [|c a IH]; [reflexivity|].
  rewrite append_cons. simpl. rewrite IH. now rewrite orb_assoc.
Qed.

Lemma split_no_sep (sep : ascii) (a : string) :
  Str.mem sep a = false -> Str.split sep a = [a].
Proof.
  induction a as [|c a IH]; simpl; intros H; [reflexivity|].
  apply orb_false_elim in H as [Hc Ha].
  rewrite Ascii.eqb_sym, Hc, (IH Ha). reflexivity.
Qed.

Lemma split_at_sep (sep : ascii) (a rest : string) :
  Str.mem sep a = false ->
  Str.split sep (a +:+ String sep rest) = a :: Str.split sep rest.
Proof.
  induction a as [|c a IH]; rewrite ?append_cons, ?append_nil_l; simpl; intros H.
  - now rewrite Ascii.eqb_refl.
  - apply orb_false_elim in H as [Hc Ha].
    rewrite Ascii.eqb_sym, Hc, (IH Ha). reflexivity.
Qed.

Lemma split1_at_sep (sep : ascii) (a rest : string) :
  Str.mem sep a = false ->
  Str.split1 sep (a +:+ String sep rest) = (a, Some rest).
Proof.
  induction a as [|c a IH]; rewrite ?append_cons, ?append_nil_l; simpl; intros H.
  - now rewrite Ascii.eqb_refl.
  - apply orb_false_elim in H as [Hc Ha].
    rewrite Ascii.eqb_sym, Hc, (IH Ha). reflexivity.
Qed.

Lemma replace_absent (a b : ascii) (s : string) :
  Str.mem a s = false -> Str.replace a b s = s.
Proof.
  induction s as [|c s IH]; simpl; intros H; [reflexivity|].
  apply orb_false_elim in H as [Hc Hs].
  rewrite Ascii.eqb_sym, Hc, (IH Hs). reflexivity.
Qed.

End StringFacts.

Section Percent.

(** The two digits written for a byte are read back as that byte. *)
Lemma hex_round (c : ascii) :
  match Url.hex_val (Url.hex_digit (N_of_ascii c / 16)),
        Url.hex_val (Url.hex_digit (N_of_ascii c mod 16)) with
  | Some x, Some y => ascii_of_N (16 * x + y) = c
  | _, _ => False
  end.
Proof. destruct c as [[] [] [] [] [] [] [] []]; vm_compute; reflexivity. Qed.

Lemma hex_digit_safe (c : ascii) :
  Url.always_safe (Url.hex_digit (N_of_ascii c / 16)) = true
  /\ Url.always_safe (Url.hex_digit (N_of_ascii c mod 16)) = true.
Proof. destruct c as [[] [] [] [] [] [] [] []]; vm_compute; split; reflexivity. Qed.

(** A character that is neither safe nor ['%'] never occurs in a quoted
    text. *)
Lemma quote_avoids (safe : string) (x : ascii) (s : string) :
  Url.always_safe x = false -> Str.mem x safe = false -> x <> "%"%char ->
  Str.mem x (Url.quote safe s) = false.
Proof.
  intros Hx Hs Hp. induction s as [|c s IH]; simpl; [reflexivity|].
  rewrite mem_append, IH, orb_false_r.
  unfold Url.quote_byte.
  destruct (Url.always_safe c || Str.mem c safe) eqn:Hc; simpl.
  - rewrite orb_false_r. apply Ascii.eqb_neq. intros ->.
    rewrite Hx, Hs in Hc. discriminate.
  - destruct (hex_digit_safe c) as [H1 H2].
    rewrite orb_false_r.
    repeat (apply orb_false_intro); apply Ascii.eqb_neq.
    + exact Hp.
    + intros ->. rewrite Hx in H1. discriminate.
    + intros ->. rewrite Hx in H2. discriminate.
Qed.

Lemma unquote_quote (safe : string) (s : string) :
  Str.mem "%" safe = false -> Url.unquote (Url.quote safe s) = s.
Proof.
  intros Hs. induction s as [|c s IH]; simpl; [reflexivity|].
  unfold Url.quote_byte.
  destruct (Url.always_safe c || Str.mem c safe) eqn:Hc.
  - rewrite append_cons, append_nil_l. simpl.
    destruct (Ascii.eqb c "%") eqn:Hp.
    + apply Ascii.eqb_eq in Hp. subst c. rewrite Hs in Hc. discriminate.
    + now rewrite IH.
  - pose proof (hex_round c) as Hr. unfold Url.pct.
    rewrite !append_cons, append_nil_l. simpl.
    destruct (Url.hex_val (Url.hex_digit (N_of_ascii c / 16))) as [x|]; [|contradiction].
    destruct (Url.hex_val (Url.hex_digit (N_of_ascii c mod 16))) as [y|]; [|contradiction].
    now rewrite Hr, IH.
Qed.

End Percent.

(** ** The query-string suffix of the generated links *)

Section Suffix.

Lemma serialized_query_params_eq (request : APIRequest) :
  serialized_query_params request = suffix_of (List.filter kept (params request)).
Proof. reflexivity. Qed.

Lemma pair_text_no_amp (kv : string * string) : Str.mem "&" (pair_text kv) = false.
Proof.
  unfold pair_text. rewrite !mem_append.
  rewrite !quote_avoids by (reflexivity || discriminate). reflexivity.
Qed.

Lemma pair_text_cons (kv : string * string) :
  exists c r, pair_text kv = String c r.
Proof.
  unfold pair_text. destruct (Url.quote EmptyString (fst kv)) as [|c r].
  - rewrite append_nil_l. eexists _, _. reflexivity.
  - rewrite append_cons. eexists _, _. reflexivity.
Qed.

Lemma parse_pair_text (kv : string * string) : Url.parse_pair (pair_text kv) = kv.
Proof.
  destruct kv as [k v]. unfold Url.parse_pair, pair_text. simpl fst. simpl snd.
  change ("=" +:+ Url.quote "," v) with (String "=" (Url.quote "," v)).
  rewrite split1_at_sep by (apply quote_avoids; reflexivity || discriminate).
  rewrite !replace_absent by (apply quote_avoids; reflexivity || discriminate).
  now rewrite !unquote_quote by reflexivity.
Qed.

Lemma split_suffix (l : list (string * string)) (a : string) :
  Str.mem "&" a = false ->
  Str.split "&" (a +:+ suffix_of l) = a :: map pair_text l.
Proof.
  revert a. induction l as [|kv l IH]; intros a Ha.
  - unfold suffix_of. simpl. rewrite append_nil_r. now apply split_no_sep.
  - unfold suffix_of. simpl map. simpl Str.concat.
    change (("&" +:+ pair_text kv) +:+ Str.concat (map (fun kv0 => "&" +:+ pair_text kv0) l))
      with (String "&" (pair_text kv +:+ suffix_of l)).
    rewrite split_at_sep by exact Ha.
    now rewrite IH by apply pair_text_no_amp.
Qed.

Lemma parse_pairs_texts (l : list (string * string)) :
  Url.parse_pairs (map pair_text l) = l.
Proof.
  induction l as [|kv l IH]; [reflexivity|].
  simpl. destruct (pair_text_cons kv) as (c & r & E).
  rewrite E, <- E, parse_pair_text, IH. reflexivity.
Qed.

(** Reading the suffix back gives the parameters it was written from. *)
Lemma parse_suffix (l : list (string * string)) : Url.parse_qsl (suffix_of l) = l.
Proof.
  unfold Url.parse_qsl.
  rewrite <- (append_nil_l (suffix_of l)), split_suffix by reflexivity.
  simpl. apply parse_pairs_texts.
Qed.

End Suffix.

(** ** The item query pipeline, stage by stage *)

Create HintDb flow.

Section Pipeline.

Variable lib : Lib.
Variable api : API.

Lemma exceptional_intro status hdrs fmt code msg :
  exceptional api (get_exception api status hdrs fmt code msg).
Proof. unfold exceptional. eauto 10. Qed.

Lemma exceptional_no_items (r : Response) :
  exceptional api r -> response_items r = None.
Proof.
  intros (st & h & f & c & m & ->).
  unfold get_exception, response_items. simpl.
  destruct (opt_eqb f F_HTML); reflexivity.
Qed.

Lemma bind_next {A B} (m : flow A) (k : A -> flow B) (b : B) :
  bind m k = Next b -> exists a, m = Next a /\ k a = Next b.
Proof. destruct m; simpl; intros H; try discriminate. eauto. Qed.

Lemma bind_return {A B} (m : flow A) (k : A -> flow B) (r : Response) :
  bind m k = Return r -> m = Return r \/ exists a, m = Next a /\ k a = Return r.
Proof.
  destruct m; simpl; intros H; try discriminate.
  - right. eauto.
  - left. now injection H as ->.
Qed.

Ltac cases :=
  repeat match goal with
    | H : Return _ = Return _ |- _ => injection H as <-
    | H : Next _ = Return _ |- _ => discriminate H
    | H : Raise _ = Return _ |- _ => discriminate H
    | H : context [match ?x with _ => _ end] |- _ => destruct x eqn:?
    end.

Local Hint Resolve exceptional_intro : flow.

Lemma offset_param_return request hdrs r :
  offset_param lib api request hdrs = Return r -> exceptional api r.
Proof. unfold offset_param, bad_request. intros H. cases; auto with flow. Qed.

Lemma limit_param_return request hdrs r :
  limit_param lib api request hdrs = Return r -> exceptional api r.
Proof. unfold limit_param, bad_request. intros H. cases; auto with flow. Qed.

Lemma bbox_param_return request hdrs r :
  bbox_param lib api request hdrs = Return r -> exceptional api r.
Proof. unfold bbox_param, bad_request. intros H. cases; auto with flow. Qed.

Lemma datetime_param_return request hdrs c r :
  datetime_param lib api request hdrs c = Return r -> exceptional api r.
Proof. unfold datetime_param, bad_request. intros H. cases; auto with flow. Qed.

Lemma items_provider_return request hdrs c r :
  items_provider lib api request hdrs c = Return r -> exceptional api r.
Proof.
  unfold items_provider, server_error. intros H.
  destruct (load_provider lib (r_providers c) "feature") as [?|[]];
    try discriminate; cases; auto with flow.
Qed.

Lemma sort_tokens_return request hdrs p sorts acc r :
  sort_tokens api request hdrs p sorts acc = Return r -> exceptional api r.
Proof.
  revert acc. induction sorts as [|s sorts IH]; simpl; intros acc H; [discriminate|].
  destruct (sort_token s); [|discriminate].
  destruct (inb _ _); [eauto|].
  unfold bad_request in H. cases; auto with flow.
Qed.

Lemma sortby_param_return request hdrs p r :
  sortby_param api request hdrs p = Return r -> exceptional api r.
Proof.
  unfold sortby_param. destruct (Dict.get _ _); [|discriminate].
  apply sort_tokens_return.
Qed.

Lemma properties_param_return request hdrs p r :
  properties_param api request hdrs p = Return r -> exceptional api r.
Proof. unfold properties_param, bad_request. intros H. cases; auto with flow. Qed.

Lemma filter_param_return request hdrs r :
  filter_param lib api request hdrs = Return r -> exceptional api r.
Proof. unfold filter_param, bad_request. intros H. cases; auto with flow. Qed.

Lemma filter_lang_param_return request hdrs r :
  filter_lang_param api request hdrs = Return r -> exceptional api r.
Proof. unfold filter_lang_param, bad_request. intros H. cases; auto with flow. Qed.

Lemma query_provider_return request pr r :
  query_provider api request pr = Return r -> exceptional api r.
Proof.
  unfold query_provider, server_error. intros H.
  destruct (p_query _ _) as [?|[]]; simpl in H; cases; auto with flow.
Qed.

Lemma before_filter_next request dataset pr :
  before_filter lib api request dataset = Next pr ->
  reached lib api request dataset pr.
Proof.
  unfold before_filter. intros H.
  destruct (is_valid request (formatter_plugins lib)) eqn:Hv; [|discriminate].
  simpl in H.
  destruct (Dict.get dataset _) as [collection|] eqn:Hc; [|discriminate].
  apply bind_next in H as (offset & Ho & H).
  apply bind_next in H as (limit & Hl & H).
  apply bind_next in H as (bbox & Hb & H).
  apply bind_next in H as (datetime_ & Hd & H).
  apply bind_next in H as ([provider_def p] & Hp & H).
  apply bind_next in H as (sortby & Hs & H).
  apply bind_next in H as (select & Hsel & H).
  injection H as <-. now constructor.
Qed.

Lemma prepare_next request dataset pr :
  prepare lib api request dataset = Next pr ->
  reached lib api request dataset pr
  /\ filter_param lib api request (pr_headers pr) = Next (q_filterq (pr_args pr))
  /\ filter_lang_param api request (pr_headers pr) = Next tt.
Proof.
  unfold prepare. intros H.
  apply bind_next in H as (pr0 & H0 & H).
  apply bind_next in H as (filter_ & Hf & H).
  apply bind_next in H as ([] & Hl & H).
  apply before_filter_next in H0. destruct H0.
  injection H as <-. simpl. repeat split; assumption.
Qed.

Lemma before_filter_return request dataset r :
  before_filter lib api request dataset = Return r -> exceptional api r.
Proof.
  unfold before_filter, get_format_exception. intros H.
  destruct (is_valid request (formatter_plugins lib)); simpl in H;
    [|injection H as <-; auto with flow].
  destruct (Dict.get dataset _) as [collection|]; [|injection H as <-; auto with flow].
  repeat (apply bind_return in H as [H|(? & _ & H)];
          [eauto using offset_param_return, limit_param_return, bbox_param_return,
             datetime_param_return, items_provider_return, sortby_param_return,
             properties_param_return|]).
  discriminate.
Qed.

Lemma prepare_return request dataset r :
  prepare lib api request dataset = Return r -> exceptional api r.
Proof.
  unfold prepare. intros H.
  repeat (apply bind_return in H as [H|(? & _ & H)];
          [eauto using before_filter_return, filter_param_return,
             filter_lang_param_return|]).
  discriminate.
Qed.

(** A response that carries an item document comes from a request that
    went through every check and whose provider answered. *)
Lemma items_response request dataset r d :
  get_collection_items lib api request dataset = Responded r ->
  response_items r = Some d ->
  exists pr content,
    prepare lib api request dataset = Next pr
    /\ query_provider api request pr = Next content
    /\ i_features d = fc_features content
    /\ i_links d = items_links lib api request dataset (pr_collection pr)
                     (q_offset (pr_args pr)) (q_limit (pr_args pr))
                     (fc_features content).
Proof.
  unfold get_collection_items. intros H Hd.
  destruct (prepare lib api request dataset) as [pr|r0|e] eqn:Hp; simpl in H.
  - destruct (query_provider api request pr) as [content|r0|e] eqn:Hq; simpl in H.
    + exists pr, content. repeat split; try reflexivity; try exact Hq.
      all: unfold respond, csv_response in H.
      all: repeat match type of H with
             | context [if ?c then _ else _] => destruct c
             | context [match ?x with _ => _ end] => destruct x
             end; simpl in H; try discriminate.
      all: injection H as <-; try discriminate Hd.
      all: try (injection Hd as <-; reflexivity).
      all: unfold response_items in Hd; simpl in Hd;
        repeat match type of Hd with
               | context [if ?c then _ else _] => destruct c
               end; discriminate.
    + injection H as <-. apply query_provider_return in Hq.
      rewrite (exceptional_no_items _ Hq) in Hd. discriminate.
    + discriminate.
  - injection H as <-. apply prepare_return in Hp.
    rewrite (exceptional_no_items _ Hp) in Hd. discriminate.
  - discriminate.
Qed.

End Pipeline.

(** ** Pagination and link synthesis *)

Section Links.

Variable lib : Lib.
Variable api : API.

Lemma get_linkrel_cases request f :
  get_linkrel request f = "self" \/ get_linkrel request f = "alternate".
Proof. unfold get_linkrel. destruct (_ || _); auto. Qed.

Lemma format_links_rel request uri l :
  In l (format_links request uri) -> l_rel l = "self" \/ l_rel l = "alternate".
Proof.
  unfold format_links. simpl.
  intros [<-|[<-|[<-|[]]]]; simpl; apply get_linkrel_cases.
Qed.

Lemma links_split request dataset collection offset limit features l :
  In l (items_links lib api request dataset collection offset limit features) <->
  In l (format_links request (items_uri api dataset))
  \/ In l (prev_link request (items_uri api dataset) offset limit)
  \/ In l (next_link request (items_uri api dataset) offset limit features)
  \/ In l (collection_link lib request (items_uri api dataset) collection).
Proof. unfold items_links. rewrite !in_app_iff. tauto. Qed.

Lemma prev_in_links request dataset collection offset limit features l :
  In l (items_links lib api request dataset collection offset limit features)
  /\ l_rel l = "prev" <->
  0 < offset /\ l = the_prev api request dataset offset limit.
Proof.
  rewrite links_split. unfold prev_link, next_link, collection_link.
  split.
  - intros [[H|[H|[H|H]]] Hr].
    + apply format_links_rel in H as [H|H]; rewrite H in Hr; discriminate.
    + destruct (0 <? offset) eqn:Ho; [|destruct H].
      destruct H as [<-|[]]. split; [lia | reflexivity].
    + destruct (_ =? _); [|destruct H].
      destruct H as [<-|[]]. discriminate.
    + destruct H as [<-|[]]. discriminate.
  - intros [Ho ->]. split; [|reflexivity].
    right. left. apply Z.ltb_lt in Ho. rewrite Ho. now left.
Qed.

Lemma next_in_links request dataset collection offset limit features l :
  In l (items_links lib api request dataset collection offset limit features)
  /\ l_rel l = "next" <->
  Z.of_nat (length features) = limit /\ l = the_next api request dataset offset limit.
Proof.
  rewrite links_split. unfold prev_link, next_link, collection_link.
  split.
  - intros [[H|[H|[H|H]]] Hr].
    + apply format_links_rel in H as [H|H]; rewrite H in Hr; discriminate.
    + destruct (0 <? offset); [|destruct H].
      destruct H as [<-|[]]. discriminate.
    + destruct (_ =? _) eqn:Hn; [|destruct H].
      destruct H as [<-|[]]. split; [lia | reflexivity].
    + destruct H as [<-|[]]. discriminate.
  - intros [Hn ->]. split; [|reflexivity].
    right. right. left. apply Z.eqb_eq in Hn. rewrite Hn. now left.
Qed.

Lemma link_has_suffix request dataset collection offset limit features l :
  In l (items_links lib api request dataset collection offset limit features) ->
  l_rel l <> "collection" ->
  exists base, l_href l = base +:+ serialized_query_params request.
Proof.
  rewrite links_split.
  unfold format_links, prev_link, next_link, collection_link.
  intros [H|[H|[H|H]]] Hr.
  - simpl in H. destruct H as [<-|[<-|[<-|[]]]]; simpl.
    + exists (items_uri api dataset +:+ "?f=" +:+ F_JSON).
      now rewrite !append_assoc.
    + exists (items_uri api dataset +:+ "?f=" +:+ F_JSONLD).
      now rewrite !append_assoc.
    + exists (items_uri api dataset +:+ "?f=" +:+ F_HTML).
      now rewrite !append_assoc.
  - destruct (0 <? offset); [|destruct H]. destruct H as [<-|[]]. simpl.
    exists (items_uri api dataset +:+ "?offset="
              +:+ Str.of_Z (Z.max 0 (offset - limit))).
    now rewrite !append_assoc.
  - destruct (_ =? _); [|destruct H]. destruct H as [<-|[]]. simpl.
    exists (items_uri api dataset +:+ "?offset=" +:+ Str.of_Z (offset + limit)).
    now rewrite !append_assoc.
  - destruct H as [<-|[]]. now contradict Hr.
Qed.

End Links.

Section ItemsClaims.

Variable lib : Lib.
Variable api : API.

Lemma reached_offset_limit request dataset pr offset limit :
  reached lib api request dataset pr ->
  offset_param lib api request (items_headers lib request) = Next offset ->
  limit_param lib api request (items_headers lib request) = Next limit ->
  q_offset (pr_args pr) = offset /\ q_limit (pr_args pr) = limit.
Proof.
  intros R Ho Hl. destruct R as [_ Hh _ Ro Rl _ _ _ _ _ _].
  rewrite Hh in Ro, Rl. unfold items_headers in Ho, Hl.
  rewrite Ho in Ro. rewrite Hl in Rl. split; congruence.
Qed.

(** C1.  An item response, for a request whose [offset] and [limit] were
    validated to [offset] and [limit], has a [prev] link exactly when
    [offset > 0], and that link goes to [max(0, offset - limit)]; it has a
    [next] link exactly when the number of features returned is [limit],
    and that link goes to [offset + limit]. *)
Theorem C1_pagination_links request dataset r d offset limit :
  get_collection_items lib api request dataset = Responded r ->
  response_items r = Some d ->
  offset_param lib api request (items_headers lib request) = Next offset ->
  limit_param lib api request (items_headers lib request) = Next limit ->
  0 <= offset
  /\ (has_rel "prev" (i_links d) <-> 0 < offset)
  /\ (forall l, In l (i_links d) -> l_rel l = "prev" ->
                l = the_prev api request dataset offset limit)
  /\ (has_rel "next" (i_links d) <-> Z.of_nat (length (i_features d)) = limit)
  /\ (forall l, In l (i_links d) -> l_rel l = "next" ->
                l = the_next api request dataset offset limit).
Proof.
  intros Hr Hd Ho Hl.
  destruct (items_response _ _ _ _ _ _ Hr Hd) as (pr & content & Hp & _ & Hf & Hlinks).
  apply prepare_next in Hp as (R & _ & _).
  destruct (reached_offset_limit _ _ _ _ _ R Ho Hl) as [Eo El].
  rewrite Eo, El in Hlinks. rewrite Hlinks, Hf.
  split; [|repeat split].
  - unfold offset_param in Ho.
    destruct (Dict.get "offset" (params request)); [|injection Ho; lia].
    destruct (py_int lib s); [|discriminate].
    destruct (z <? 0) eqn:E; [discriminate|]. injection Ho. lia.
  - intros (l & Hin & Hrel).
    exact (proj1 (proj1 (prev_in_links lib api _ _ _ _ _ _ _) (conj Hin Hrel))).
  - intros Hpos. exists (the_prev api request dataset offset limit).
    now apply (prev_in_links lib api).
  - intros l Hin Hrel.
    exact (proj2 (proj1 (prev_in_links lib api _ _ _ _ _ _ _) (conj Hin Hrel))).
  - intros (l & Hin & Hrel).
    exact (proj1 (proj1 (next_in_links lib api _ _ _ _ _ _ _) (conj Hin Hrel))).
  - intros Hn. exists (the_next api request dataset offset limit).
    now apply (next_in_links lib api).
  - intros l Hin Hrel.
    exact (proj2 (proj1 (next_in_links lib api _ _ _ _ _ _ _) (conj Hin Hrel))).
Qed.

(** C2.  Every alternate-format and pagination link of an item response
    ends with the same suffix; the suffix is written from the request
    parameters other than [f] and [offset], keys quoted with no extra safe
    character and values with [,] safe; and reading the suffix back as a
    query string gives exactly those parameters. *)
Theorem C2_link_suffix_round_trip request dataset r d l :
  get_collection_items lib api request dataset = Responded r ->
  response_items r = Some d ->
  In l (i_links d) ->
  l_rel l <> "collection" ->
  (exists base, l_href l = base +:+ serialized_query_params request)
  /\ serialized_query_params request = suffix_of (List.filter kept (params request))
  /\ Url.parse_qsl (serialized_query_params request)
     = List.filter kept (params request).
Proof.
  intros Hr Hd Hin Hrel.
  destruct (items_response _ _ _ _ _ _ Hr Hd) as (pr & content & _ & _ & _ & Hlinks).
  rewrite Hlinks in Hin.
  split; [|split].
  - eapply link_has_suffix; eassumption.
  - reflexivity.
  - rewrite serialized_query_params_eq. apply parse_suffix.
Qed.

End ItemsClaims.

Lemma C1_pagination_links_witness :
  exists r d,
    get_collection_items Demo.lib Demo.api Demo.page2 "stations" = Responded r
    /\ response_items r = Some d
    /\ has_rel "prev" (i_links d)
    /\ has_rel "next" (i_links d).
Proof.
  eexists _, _. split; [lazy; reflexivity|]. split; [reflexivity|].
  destruct (C1_pagination_links Demo.lib Demo.api Demo.page2 "stations" _ _ 2 2
              eq_refl eq_refl eq_refl eq_refl) as (_ & Hp & _ & Hn & _).
  split; [apply Hp; lia | apply Hn; reflexivity].
Defined.

Lemma C2_link_suffix_round_trip_witness :
  Url.parse_qsl (serialized_query_params Demo.page2)
  = [("limit", "2"); ("name", "s 3,s4")].
Proof.
  refine (proj2 (proj2 (C2_link_suffix_round_trip Demo.lib Demo.api Demo.page2 "stations"
                          _ _ (the_next Demo.api Demo.page2 "stations" 2 2)
                          eq_refl eq_refl _ _))).
  - vm_compute. tauto.
  - discriminate.
Defined.

(** ** Parameters the handler does not know *)

Section ExtraParameter.

Variable lib : Lib.
Variable api : API.
Variable request : APIRequest.
Variables k v : string.
Hypothesis not_reserved : ~ In k reserved_fieldnames.

Let request' := with_param request k v.

Lemma get_with_param (x : string) :
  In x reserved_fieldnames ->
  Dict.get x (params request') = Dict.get x (params request).
Proof.
  intros Hx. unfold request', with_param. simpl.
  induction (params request) as [|[k0 v0] l IH]; simpl.
  - destruct (String.eqb x k) eqn:E; [|reflexivity].
    apply String.eqb_eq in E. subst x. contradiction.
  - now rewrite IH.
Qed.

Lemma offset_param_extra h h' o :
  offset_param lib api request h = Next o ->
  offset_param lib api request' h' = Next o.
Proof.
  unfold offset_param.
  rewrite (get_with_param "offset") by (simpl; tauto).
  destruct (Dict.get _ _); [|trivial].
  destruct (py_int lib s); [|discriminate].
  destruct (_ <? _); [discriminate | trivial].
Qed.

Lemma limit_param_extra h h' o :
  limit_param lib api request h = Next o ->
  limit_param lib api request' h' = Next o.
Proof.
  unfold limit_param.
  rewrite (get_with_param "limit") by (simpl; tauto).
  destruct (Dict.get _ _); [|trivial].
  destruct (py_int lib s); [|discriminate].
  destruct (_ <=? _); [discriminate | trivial].
Qed.

Lemma bbox_param_extra h h' o :
  bbox_param lib api request h = Next o ->
  bbox_param lib api request' h' = Next o.
Proof.
  unfold bbox_param.
  rewrite (get_with_param "bbox") by (simpl; tauto).
  destruct (Dict.get _ _); [|trivial].
  destruct (validate_bbox lib s); [discriminate | trivial].
Qed.

Lemma datetime_param_extra h h' c o :
  datetime_param lib api request h c = Next o ->
  datetime_param lib api request' h' c = Next o.
Proof.
  unfold datetime_param.
  rewrite (get_with_param "datetime") by (simpl; tauto).
  destruct (r_extents c); [|trivial].
  destruct (validate_datetime lib e _); [trivial | discriminate | trivial].
Qed.

Lemma items_provider_extra h h' c o :
  items_provider lib api request h c = Next o ->
  items_provider lib api request' h' c = Next o.
Proof.
  unfold items_provider.
  destruct (load_provider lib (r_providers c) "feature") as [?|[]];
    try discriminate; trivial.
  destruct (load_provider lib (r_providers c) "record") as [?|[]];
    try discriminate; trivial.
Qed.

Lemma sort_tokens_extra h h' p sorts acc o :
  sort_tokens api request h p sorts acc = Next o ->
  sort_tokens api request' h' p sorts acc = Next o.
Proof.
  revert acc. induction sorts as [|s sorts IH]; simpl; intros acc; [trivial|].
  destruct (sort_token s); [|discriminate].
  destruct (inb _ _); [apply IH | discriminate].
Qed.

Lemma sortby_param_extra h h' p o :
  sortby_param api request h p = Next o ->
  sortby_param api request' h' p = Next o.
Proof.
  unfold sortby_param.
  rewrite (get_with_param "sortby") by (simpl; tauto).
  destruct (Dict.get _ _); [apply sort_tokens_extra | trivial].
Qed.

Lemma properties_param_extra h h' p o :
  properties_param api request h p = Next o ->
  properties_param api request' h' p = Next o.
Proof.
  unfold properties_param.
  rewrite (get_with_param "properties") by (simpl; tauto).
  destruct (Dict.get _ _); [|trivial].
  destruct (existsb _ _); [discriminate | trivial].
Qed.

Lemma filter_param_extra h h' o :
  filter_param lib api request h = Next o ->
  filter_param lib api request' h' = Next o.
Proof.
  unfold filter_param.
  rewrite (get_with_param "filter") by (simpl; tauto).
  destruct (Dict.get _ _); [|trivial].
  destruct (parse_ecql_text lib s); [trivial | discriminate].
Qed.

Lemma filter_lang_param_extra h h' o :
  filter_lang_param api request h = Next o ->
  filter_lang_param api request' h' = Next o.
Proof.
  unfold filter_lang_param.
  rewrite (get_with_param "filter-lang") by (simpl; tauto).
  destruct (Dict.get _ _); [|trivial].
  destruct (String.eqb _ _); [trivial | discriminate].
Qed.

Lemma property_filters_extra p :
  ~ In k (Dict.keys (p_fields p)) ->
  property_filters request' p = property_filters request p.
Proof.
  intros Hk.
  assert (E : inb k (Dict.keys (p_fields p)) = false).
  { apply not_true_is_false. intros E. apply Hk.
    unfold inb in E. apply existsb_exists in E as (x & Hx & E).
    apply String.eqb_eq in E. now subst x. }
  unfold property_filters, request', with_param. cbn [params].
  rewrite List.filter_app. cbn [List.filter fst].
  rewrite E, andb_false_r. apply app_nil_r.
Qed.

End ExtraParameter.

Section PropertyFilters.

Variable lib : Lib.
Variable api : API.

Lemma before_filter_extra request k v dataset pr :
  ~ In k reserved_fieldnames ->
  ~ In k (Dict.keys (p_fields (pr_provider pr))) ->
  before_filter lib api request dataset = Next pr ->
  exists pr',
    before_filter lib api (with_param request k v) dataset = Next pr'
    /\ pr_args pr' = pr_args pr
    /\ pr_provider pr' = pr_provider pr
    /\ pr_provider_def pr' = pr_provider_def pr
    /\ pr_collection pr' = pr_collection pr.
Proof.
  intros Hres Hk H. unfold before_filter in *.
  change (is_valid (with_param request k v) (formatter_plugins lib))
    with (is_valid request (formatter_plugins lib)).
  destruct (is_valid request (formatter_plugins lib)); [|discriminate].
  cbn [negb] in *. cbv iota in *.
  destruct (Dict.get dataset _) as [collection|]; [|discriminate].
  apply bind_next in H as (offset & Ho & H).
  apply bind_next in H as (limit & Hl & H).
  apply bind_next in H as (bbox & Hb & H).
  apply bind_next in H as (datetime_ & Hd & H).
  apply bind_next in H as ([provider_def p] & Hp & H).
  apply bind_next in H as (sortby & Hs & H).
  apply bind_next in H as (select & Hsel & H).
  injection H as <-. cbn [pr_provider] in Hk.
  erewrite (offset_param_extra lib api request k v Hres) by eassumption.
  erewrite (limit_param_extra lib api request k v Hres) by eassumption.
  erewrite (bbox_param_extra lib api request k v Hres) by eassumption.
  erewrite (datetime_param_extra lib api request k v Hres) by eassumption.
  erewrite (items_provider_extra lib api request k v) by eassumption.
  cbn [bind fst snd].
  erewrite (sortby_param_extra api request k v Hres) by eassumption.
  erewrite (properties_param_extra api request k v Hres) by eassumption.
  cbn [bind].
  eexists. split; [reflexivity|].
  cbn [pr_args pr_provider pr_provider_def pr_collection fst snd].
  rewrite (property_filters_extra request k v p Hk).
  unfold skip_geometry_param.
  rewrite !(get_with_param request k v Hres) by (simpl; tauto).
  repeat split.
Qed.

(** An unknown parameter changes nothing of what the provider is asked. *)
Lemma prepare_extra request k v dataset pr :
  ~ In k reserved_fieldnames ->
  ~ In k (Dict.keys (p_fields (pr_provider pr))) ->
  prepare lib api request dataset = Next pr ->
  exists pr',
    prepare lib api (with_param request k v) dataset = Next pr'
    /\ pr_args pr' = pr_args pr
    /\ pr_provider pr' = pr_provider pr.
Proof.
  intros Hres Hk H. unfold prepare in *.
  apply bind_next in H as (pr0 & H0 & H).
  apply bind_next in H as (filter_ & Hf & H).
  apply bind_next in H as ([] & Hl & H).
  injection H as <-. cbn [pr_provider] in Hk.
  destruct (before_filter_extra request k v dataset pr0 Hres Hk H0)
    as (pr1 & -> & Ea & Ep & Ed & Ec).
  cbn [bind].
  erewrite (filter_param_extra lib api request k v Hres) by eassumption.
  cbn [bind].
  erewrite (filter_lang_param_extra api request k v Hres) by eassumption.
  cbn [bind].
  eexists. split; [reflexivity|].
  cbn [pr_args pr_provider pr_provider_def pr_collection].
  rewrite Ea, Ep, Ed. split; reflexivity.
Qed.

(** C7.  When the handler calls the provider, the property filters it
    passes are exactly the request parameters whose key is not reserved
    and is a field of the provider, in request order; the provider's answer
    to that call decides the response; and a parameter that is neither
    reserved nor a field can be added to the request without any error and
    without changing what the provider is asked. *)
Theorem C7_property_filters request dataset pr :
  prepare lib api request dataset = Next pr ->
  q_properties (pr_args pr)
  = List.filter (fun kv => negb (inb (fst kv) reserved_fieldnames)
                           && inb (fst kv) (Dict.keys (p_fields (pr_provider pr))))
      (params request)
  /\ (forall k v,
        In (k, v) (q_properties (pr_args pr)) <->
        In (k, v) (params request)
        /\ ~ In k reserved_fieldnames
        /\ In k (Dict.keys (p_fields (pr_provider pr))))
  /\ get_collection_items lib api request dataset
     = run (match p_query (pr_provider pr) (pr_args pr) with
            | Ok content => respond lib api request dataset pr content
            | Err e => bind (query_provider api request pr)
                         (respond lib api request dataset pr)
            end)
  /\ (forall k v,
        ~ In k reserved_fieldnames ->
        ~ In k (Dict.keys (p_fields (pr_provider pr))) ->
        exists pr',
          prepare lib api (with_param request k v) dataset = Next pr'
          /\ pr_args pr' = pr_args pr).
Proof.
  intros Hp.
  assert (E : q_properties (pr_args pr) = property_filters request (pr_provider pr)).
  { apply prepare_next in Hp as (R & _ & _). now destruct R. }
  split; [exact E|]. split; [|split].
  - intros k v. rewrite E. unfold property_filters.
    rewrite List.filter_In. cbn [fst].
    rewrite andb_true_iff, negb_true_iff. unfold inb.
    split.
    + intros (Hin & Hr & Hf). split; [exact Hin|]. split.
      * intros Hk. apply not_true_iff_false in Hr. apply Hr.
        apply existsb_exists. exists k. split; [exact Hk | apply String.eqb_refl].
      * apply existsb_exists in Hf as (x & Hx & Ex).
        apply String.eqb_eq in Ex. now subst x.
    + intros (Hin & Hr & Hf). split; [exact Hin|]. split.
      * apply not_true_iff_false. intros Hk. apply Hr.
        apply existsb_exists in Hk as (x & Hx & Ex).
        apply String.eqb_eq in Ex. now subst x.
      * apply existsb_exists. exists k. split; [exact Hf | apply String.eqb_refl].
  - unfold get_collection_items. rewrite Hp. cbn [bind].
    unfold query_provider at 1.
    destruct (p_query (pr_provider pr) (pr_args pr)) eqn:Eq; [reflexivity|].
    unfold query_provider. rewrite Eq. reflexivity.
  - intros k v Hres Hk.
    destruct (prepare_extra request k v dataset pr Hres Hk Hp) as (pr' & H1 & H2 & _).
    eauto.
Qed.

End PropertyFilters.

Lemma C7_property_filters_witness :
  exists pr,
    prepare Demo.lib Demo.api Demo.page2 "stations" = Next pr
    /\ q_properties (pr_args pr) = [("name", "s 3,s4")].
Proof.
  eexists. split; [lazy; reflexivity|].
  refine (eq_trans (proj1 (C7_property_filters Demo.lib Demo.api Demo.page2
                             "stations" _ eq_refl)) _).
  reflexivity.
Defined.

(** ** Errors of the item query *)

Section ItemErrors.

Variable lib : Lib.
Variable api : API.

Lemma get_provider_by_type_none providers provider_type :
  (forall d, In d providers -> pd_type d <> provider_type) ->
  get_provider_by_type providers provider_type = Err ProviderTypeError.
Proof.
  induction providers as [|d l IH]; simpl; intros H; [reflexivity|].
  destruct (String.eqb (pd_type d) provider_type) eqn:E.
  - apply String.eqb_eq in E. now apply H in E; [|left].
  - apply IH. intros d' Hd'. apply H. now right.
Qed.

(** C8.  An item query that gets as far as the provider, on a collection
    with no [feature] and no [record] binding, is answered 400
    [Invalid provider type]. *)
Theorem C8_invalid_provider_type request dataset collection :
  reaches_provider lib api request dataset collection ->
  (forall d, In d (r_providers collection) ->
             pd_type d <> "feature" /\ pd_type d <> "record") ->
  exists r,
    get_collection_items lib api request dataset = Responded r
    /\ r = get_exception api 400 (items_headers lib request) (format request)
             "NoApplicableCode" "Invalid provider type"
    /\ rs_status r = 400
    /\ error_message r = Some "Invalid provider type".
Proof.
  intros ((Hv & Hc & (o & Ho) & (l & Hl) & (b & Hb)) & (d & Hd)) Hnone.
  eexists. split; [|split; [reflexivity|split; [reflexivity|]]].
  - unfold get_collection_items, prepare, before_filter.
    unfold items_headers in *.
    rewrite Hv, Hc. cbn [negb]. cbv iota.
    rewrite Ho, Hl, Hb, Hd. cbn [bind].
    unfold items_provider, load_provider.
    rewrite !get_provider_by_type_none by (intros ? ?; now apply Hnone).
    reflexivity.
  - unfold error_message, get_exception. simpl.
    now destruct (opt_eqb (format request) F_HTML).
Qed.

(** C5, as the handler has it.  On a collection that has an [extents]
    entry, a [datetime] the validator rejects is answered 400
    [InvalidParameterValue] with the validator's message; on a collection
    without that entry the validator is not consulted and the provider is
    handed the text as it came. *)
Theorem C5_datetime_validation request dataset collection :
  reaches_datetime lib api request dataset collection ->
  (forall extents msg,
      r_extents collection = Some extents ->
      validate_datetime lib extents (Dict.get "datetime" (params request))
      = VdValueError msg ->
      get_collection_items lib api request dataset
      = Responded (get_exception api 400 (items_headers lib request)
                     (format request) "InvalidParameterValue" msg))
  /\ (r_extents collection = None ->
      forall pr, prepare lib api request dataset = Next pr ->
                 q_datetime (pr_args pr) = Dict.get "datetime" (params request)).
Proof.
  intros (Hv & Hc & (o & Ho) & (l & Hl) & (b & Hb)). split.
  - intros extents msg He Hm.
    unfold get_collection_items, prepare, before_filter.
    unfold items_headers in *.
    rewrite Hv, Hc. cbn [negb]. cbv iota.
    rewrite Ho, Hl, Hb. cbn [bind].
    unfold datetime_param. rewrite He, Hm. reflexivity.
  - intros He pr Hp. apply prepare_next in Hp as (R & _ & _).
    destruct R as [_ _ Rc _ _ _ Rd _ _ _ _].
    rewrite Hc in Rc. injection Rc as Rc. rewrite <- Rc in Rd.
    unfold datetime_param in Rd. rewrite He in Rd. now injection Rd.
Qed.

(** C4, as the handler has it.  Once the checks before it have passed, a
    [filter-lang] other than [cql-text] is answered 400: with
    [Invalid filter language] when there is no [filter] or the filter
    parses, with [Bad CQL string] when the filter does not parse, since
    the filter is parsed first. *)
Theorem C4_filter_language request dataset pr filter_lang :
  before_filter lib api request dataset = Next pr ->
  Dict.get "filter-lang" (params request) = Some filter_lang ->
  filter_lang <> "cql-text" ->
  get_collection_items lib api request dataset
  = Responded
      (get_exception api 400 (items_headers lib request) (format request)
         "InvalidParameterValue"
         match Dict.get "filter" (params request) with
         | None => "Invalid filter language"
         | Some cql_text =>
             match parse_ecql_text lib cql_text with
             | Some _ => "Invalid filter language"
             | None => "Bad CQL string : " +:+ cql_text
             end
         end).
Proof.
  intros Hb Hl Hne.
  pose proof (reached_headers _ _ _ _ _ (before_filter_next _ _ _ _ _ Hb)) as Hh.
  unfold get_collection_items, prepare. rewrite Hb. cbn [bind].
  unfold filter_param, filter_lang_param, bad_request, items_headers.
  rewrite Hl, Hh.
  apply String.eqb_neq in Hne. rewrite Hne.
  destruct (Dict.get "filter" (params request)) as [t|]; [|reflexivity].
  destruct (parse_ecql_text lib t); reflexivity.
Qed.

End ItemErrors.

Lemma C8_invalid_provider_type_witness :
  exists r,
    get_collection_items Demo.lib Demo.api (Demo.get [("limit", "3")]) "basemap"
    = Responded r
    /\ rs_status r = 400
    /\ error_message r = Some "Invalid provider type".
Proof.
  destruct (C8_invalid_provider_type Demo.lib Demo.api (Demo.get [("limit", "3")])
              "basemap"
              (Demo.resource "Base map" [Demo.binding "tile" "MVT"]
                 (Some Demo.world) None))
    as (r & H & _ & Hs & Hm).
  - repeat split; try reflexivity; eexists; reflexivity.
  - intros d [<-|[]]. split; discriminate.
  - exists r. auto.
Defined.

Lemma C5_datetime_validation_witness :
  get_collection_items Demo.lib Demo.api (Demo.get [("datetime", "garbage")]) "stations"
  = Responded
      (get_exception Demo.api 400
         (items_headers Demo.lib (Demo.get [("datetime", "garbage")])) None
         "InvalidParameterValue" "Unknown string format: garbage").
Proof.
  refine (proj1 (C5_datetime_validation Demo.lib Demo.api
                   (Demo.get [("datetime", "garbage")]) "stations"
                   (Demo.resource "Stations" [Demo.binding "feature" "Stations"]
                      (Some Demo.world) None) _)
            Demo.world _ eq_refl eq_refl).
  repeat split; try reflexivity; eexists; reflexivity.
Defined.

(** On a collection with no [extents] entry the same text is not checked: the
    request is answered, and not with a 400. *)
Lemma C5_counterexample :
  validate_datetime Demo.lib Demo.world (Some "garbage")
  = VdValueError "Unknown string format: garbage"
  /\ ~ (exists r,
          get_collection_items Demo.lib Demo.api
            (Demo.get [("datetime", "garbage")]) "plain" = Responded r
          /\ rs_status r = 400).
Proof.
  split; [reflexivity|].
  intros (r & H & Hs). vm_compute in H. injection H as <-. discriminate Hs.
Qed.

Lemma C4_filter_language_witness :
  get_collection_items Demo.lib Demo.api
    (Demo.get [("filter-lang", "sql"); ("filter", "name = 's1'")]) "stations"
  = Responded
      (get_exception Demo.api 400
         (items_headers Demo.lib
            (Demo.get [("filter-lang", "sql"); ("filter", "name = 's1'")])) None
         "InvalidParameterValue" "Invalid filter language").
Proof.
  refine (C4_filter_language Demo.lib Demo.api
            (Demo.get [("filter-lang", "sql"); ("filter", "name = 's1'")])
            "stations" _ "sql" eq_refl eq_refl _).
  discriminate.
Defined.

(** With a filter that does not parse, the message is the parser's, not
    [Invalid filter language]. *)
Lemma C4_counterexample :
  parse_ecql_text Demo.lib "((" = None
  /\ ~ (exists r,
          get_collection_items Demo.lib Demo.api
            (Demo.get [("filter-lang", "sql"); ("filter", "((")]) "stations"
          = Responded r
          /\ error_message r = Some "Invalid filter language").
Proof.
  split; [reflexivity|].
  intros (r & H & Hm). vm_compute in H. injection H as <-. discriminate Hm.
Qed.

(** C6, what the handlers do.  A collection bound to a [record] provider only,
    whose provider cannot connect: the error is raised inside the handler of
    [ProviderTypeError], where no [except ProviderConnectionError] applies,
    and leaves both handlers as an exception instead of a 500 response. *)
Theorem C6_record_fallback_connection_error :
  load_provider Demo.lib [Demo.binding "record" "Down"] "record"
  = Err ProviderConnectionError
  /\ get_collection_items Demo.lib Demo.api (Demo.get []) "catalogue"
     = Raised ProviderConnectionError
  /\ get_collection_queryables Demo.lib Demo.api (Demo.get []) (Some "catalogue")
     = Raised ProviderConnectionError.
Proof. repeat split; reflexivity. Qed.

(** ** Queryables *)

Section QueryablesClaims.

Variable lib : Lib.
Variable api : API.

Lemma fold_add_field_other (p : Provider) (l : list (string * FieldDef))
    (m : gmap string PropSchema) (x : string) :
  (forall kv, In kv l -> show_field p (fst kv) = true -> fst kv <> x) ->
  fold_left (add_field p) l m !! x = m !! x.
Proof.
  revert m. induction l as [|kv l IH]; intros m H; [reflexivity|].
  simpl. rewrite IH by (intros kv' Hin; apply H; now right).
  unfold add_field. destruct (show_field p (fst kv)) eqn:E; [|reflexivity].
  apply lookup_insert_ne. apply H; [now left | exact E].
Qed.

(** C9, as the handler has it.  When the resolved provider is spatial,
    exposes at least one field, and none of the fields it shows is named
    [geometry], the property map of the response has a [geometry] entry
    that refers to the GeoJSON geometry schema. *)
Theorem C9_geometry_property request dataset resource p :
  is_valid request [] = true ->
  Dict.get dataset (resources (config api)) = Some resource ->
  queryables_provider lib api request (get_response_headers lib request None)
    (r_providers resource) = Next p ->
  p_spatial p = Some true ->
  p_fields p <> [] ->
  (forall k, In k (Dict.keys (p_fields p)) -> show_field p k = true ->
             k <> "geometry") ->
  exists r q,
    get_collection_queryables lib api request (Some dataset) = Responded r
    /\ rs_status r = 200
    /\ response_queryables r = Some q
    /\ qy_properties q !! "geometry"
       = Some (PRef "https://geojson.org/schema/Geometry.json").
Proof.
  intros Hv Hc Hp Hs Hf Hk.
  assert (G : queryables_properties p !! "geometry" = Some geometry_ref).
  { unfold queryables_properties.
    rewrite fold_add_field_other.
    - unfold wants_geometry. rewrite Hs.
      destruct (p_fields p); [contradiction|]. apply lookup_insert_eq.
    - intros kv Hin. apply Hk. unfold Dict.keys. now apply in_map. }
  unfold get_collection_queryables. rewrite Hv, Hc. cbn [negb]. cbv iota.
  rewrite Hp. cbn [bind].
  destruct (opt_eqb (format request) F_HTML);
    eexists _, _; (split; [reflexivity|]); repeat split; exact G.
Qed.

End QueryablesClaims.

Lemma C9_geometry_property_witness :
  exists r q,
    get_collection_queryables Demo.lib Demo.api (Demo.get []) (Some "stations")
    = Responded r
    /\ response_queryables r = Some q
    /\ qy_properties q !! "geometry"
       = Some (PRef "https://geojson.org/schema/Geometry.json").
Proof.
  destruct (C9_geometry_property Demo.lib Demo.api (Demo.get []) "stations"
              (Demo.resource "Stations" [Demo.binding "feature" "Stations"]
                 (Some Demo.world) None)
              Demo.stations_provider eq_refl eq_refl eq_refl eq_refl)
    as (r & q & H & _ & Hq & Hg).
  - discriminate.
  - simpl. intros k [<-|[<-|[<-|[]]]] _; discriminate.
  - exists r, q. auto.
Defined.

(** A spatial provider that exposes no field gets no [geometry] entry. *)
Lemma C9_counterexample :
  p_spatial Demo.bare_provider = Some true
  /\ queryables_provider Demo.lib Demo.api (Demo.get [])
       (get_response_headers Demo.lib (Demo.get []) None)
       [Demo.binding "feature" "Bare"] = Next Demo.bare_provider
  /\ ~ (exists r q,
          get_collection_queryables Demo.lib Demo.api (Demo.get []) (Some "bare")
          = Responded r
          /\ response_queryables r = Some q
          /\ qy_properties q !! "geometry"
             = Some (PRef "https://geojson.org/schema/Geometry.json")).
Proof.
  split; [reflexivity|]. split; [reflexivity|].
  intros (r & q & H & Hq & Hg).
  assert (E : exists r0 q0,
             get_collection_queryables Demo.lib Demo.api (Demo.get []) (Some "bare")
             = Responded r0
             /\ response_queryables r0 = Some q0
             /\ qy_properties q0 !! "geometry" = None).
  { eexists _, _. split; [reflexivity|]. split; reflexivity. }
  destruct E as (r0 & q0 & H0 & Hq0 & Hg0).
  rewrite H0 in H. injection H as ->.
  rewrite Hq0 in Hq. injection Hq as ->.
  rewrite Hg0 in Hg. discriminate.
Qed.

(** ** The collection listing *)

Section DescribeClaims.

Variable lib : Lib.
Variable api : API.
Variable request : APIRequest.

Local Abbreviation hdrs := (describe_headers lib request).

Lemma build_collection_id dataset k v c :
  build_collection lib api request hdrs dataset k v = Next c -> c_id c = k.
Proof.
  unfold build_collection.
  destruct (get_provider_default (r_providers v)); [|discriminate].
  intros H.
  apply bind_next in H as (cov & _ & H).
  apply bind_next in H as (edr & _ & H).
  now injection H as <-.
Qed.

(** Without a requested collection no provider is loaded, so building a
    collection never ends the request with a response. *)
Lemma build_collection_listing k v r :
  build_collection lib api request hdrs None k v <> Return r.
Proof.
  unfold build_collection.
  destruct (get_provider_default (r_providers v)); [|discriminate].
  cbn [is_some]. rewrite !andb_false_r. cbn [bind]. discriminate.
Qed.

(** What the loop leaves when nothing was asked for: the entries that are
    not hidden, each under its own key. *)
Lemma collect_listing items fcm :
  match collect lib api request hdrs None items fcm with
  | Next f =>
      exists cs,
        f = FListing {| collections := (collections fcm ++ cs)%list;
                        links := links fcm |}
        /\ forall c, In c cs ->
             exists v, In (c_id c, v) items /\ is_hidden v = false
  | Return _ => False
  | Raise _ => True
  end.
Proof.
  revert fcm. induction items as [|[k v] items IH]; intros fcm; simpl.
  - exists []. rewrite app_nil_r. destruct fcm. split; [reflexivity|].
    intros c [].
  - destruct (is_hidden v) eqn:Hh.
    + specialize (IH fcm). destruct (collect _ _ _ _ _ _ _); auto.
      destruct IH as (cs & -> & Hcs). exists cs. split; [reflexivity|].
      intros c Hc. destruct (Hcs c Hc) as (v' & Hin & Hv). eauto.
    + destruct (build_collection lib api request hdrs None k v) as [c|r|e] eqn:Hb;
        cbn [bind opt_eqb].
      * specialize (IH {| collections := (collections fcm ++ [c])%list;
                          links := links fcm |}).
        destruct (collect _ _ _ _ _ _ _); auto.
        destruct IH as (cs & -> & Hcs). exists (c :: cs). cbn [collections links].
        rewrite <- app_assoc. split; [reflexivity|].
        intros c' [<-|Hc'].
        -- exists v. rewrite (build_collection_id _ _ _ _ Hb). split; [now left | exact Hh].
        -- destruct (Hcs c' Hc') as (v' & Hin & Hv). eauto.
      * now apply build_collection_listing in Hb.
      * exact I.
Qed.

Lemma in_filter_by_type (d : list (string * Resource)) k v value :
  In (k, v) (filter_dict_by_type d value) -> In (k, v) d.
Proof. unfold filter_dict_by_type. rewrite List.filter_In. tauto. Qed.

Lemma keys_unique (d : list (string * Resource)) k v v' :
  List.NoDup (Dict.keys d) -> In (k, v) d -> In (k, v') d -> v = v'.
Proof.
  induction d as [|[k0 v0] d IH]; simpl; intros Hn H1 H2; [destruct H1|].
  inversion Hn as [|? ? Hnot Hn']; subst.
  destruct H1 as [H1|H1], H2 as [H2|H2].
  - congruence.
  - injection H1 as -> ->. exfalso. apply Hnot.
    change k with (fst (k, v')). now apply in_map.
  - injection H2 as -> ->. exfalso. apply Hnot.
    change k with (fst (k, v)). now apply in_map.
  - now apply IH.
Qed.

Lemma filter_key_unique (d : list (string * Resource)) k v :
  List.NoDup (Dict.keys d) -> In (k, v) d ->
  List.filter (fun kv => String.eqb (fst kv) k) d = [(k, v)].
Proof.
  induction d as [|[k0 v0] d IH]; simpl; intros Hn Hin; [destruct Hin|].
  inversion Hn as [|? ? Hnot Hn']; subst.
  destruct (String.eqb k0 k) eqn:E.
  - apply String.eqb_eq in E. subst k0.
    destruct Hin as [Hin|Hin].
    + injection Hin as ->. f_equal.
      clear IH Hn Hn'. induction d as [|[k1 v1] d IH]; simpl; [reflexivity|].
      destruct (String.eqb k1 k) eqn:E1.
      * apply String.eqb_eq in E1. subst k1. exfalso. apply Hnot. now left.
      * apply IH. intros H. apply Hnot. now right.
    + exfalso. apply Hnot. change k with (fst (k, v)). now apply in_map.
  - destruct Hin as [Hin|Hin].
    + injection Hin as -> _. rewrite String.eqb_refl in E. discriminate.
    + now apply IH.
Qed.

Lemma nodup_filter_by_type (d : list (string * Resource)) value :
  List.NoDup (Dict.keys d) -> List.NoDup (Dict.keys (filter_dict_by_type d value)).
Proof.
  unfold filter_dict_by_type, Dict.keys.
  induction d as [|[k v] d IH]; simpl; intros Hn; [constructor|].
  inversion Hn as [|? ? Hnot Hn']; subst.
  destruct (String.eqb (r_type v) value); simpl; [|now apply IH].
  constructor; [|now apply IH].
  intros Hin. apply Hnot. apply in_map_iff in Hin as ([k' v'] & <- & Hin).
  apply List.filter_In in Hin as [Hin _].
  change (fst (k', v')) with (fst (k', v')). now apply in_map.
Qed.

Lemma inb_keys (d : list (string * Resource)) k v :
  In (k, v) d -> inb k (Dict.keys d) = true.
Proof.
  intros Hin. unfold inb. apply existsb_exists. exists k.
  split; [|apply String.eqb_refl].
  change k with (fst (k, v)). now apply in_map.
Qed.

Lemma get_filter_head (d : list (string * Resource)) k v :
  Dict.get k d = Some v ->
  exists rest, List.filter (fun kv => String.eqb (fst kv) k) d = (k, v) :: rest.
Proof.
  induction d as [|[k0 v0] d IH]; simpl; intros H; [discriminate|].
  rewrite (String.eqb_sym k0 k).
  destruct (String.eqb k k0) eqn:E.
  - apply String.eqb_eq in E. subst k0. injection H as ->. eauto.
  - now apply IH.
Qed.

Lemma get_in (d : list (string * Resource)) k v :
  Dict.get k d = Some v -> In (k, v) d.
Proof.
  induction d as [|[k0 v0] d IH]; simpl; intros H; [discriminate|].
  destruct (String.eqb k k0) eqn:E.
  - apply String.eqb_eq in E. subst k0. injection H as ->. now left.
  - right. now apply IH.
Qed.

Lemma build_collection_return dataset k v r :
  build_collection lib api request hdrs dataset k v = Return r ->
  rs_status r = 500.
Proof.
  unfold build_collection, coverage_extension, edr_extension, connection_error.
  destruct (get_provider_default (r_providers v)); [|discriminate].
  intros H.
  apply bind_return in H as [H|(cov & _ & H)].
  - destruct (_ && _); [|discriminate].
    destruct (load_provider lib (r_providers v) "coverage") as [?|[]];
      try discriminate. now injection H as <-.
  - apply bind_return in H as [H|(edr & _ & H)]; [|discriminate].
    destruct (_ && _); [|discriminate].
    destruct (load_provider lib (r_providers v) "edr") as [?|[]];
      try discriminate. now injection H as <-.
Qed.

(** A hidden collection is skipped whatever was asked for.  It is left out
    of the listing; asked for by its id, the loop leaves the listing document
    empty and the end of the handler is run on that document. *)
Lemma hidden_collection_skipped k v :
  is_valid request [] = true ->
  List.NoDup (Dict.keys (resources (config api))) ->
  In (k, v) (resources (config api)) ->
  r_type v = "collection" ->
  is_hidden v = true ->
  (forall r,
      describe_collections lib api request None = Responded r ->
      exists l,
        r = describe_response api request hdrs None (FListing l)
        /\ ~ In k (map c_id (collections l)))
  /\ describe_collections lib api request (Some k)
     = run (describe_render api request hdrs (Some k)
              (FListing {| collections := []; links := [] |})).
Proof.
  intros Hv Hn Hin Ht Hh.
  assert (Hin' : In (k, v) (filter_dict_by_type (resources (config api)) "collection")).
  { unfold filter_dict_by_type. apply List.filter_In. split; [exact Hin|].
    cbn [snd]. rewrite Ht. reflexivity. }
  split.
  - intros r. unfold describe_collections. rewrite Hv. cbn [negb]. cbv iota.
    pose proof (collect_listing
                  (filter_dict_by_type (resources (config api)) "collection")
                  {| collections := []; links := [] |}) as Hl.
    fold (describe_headers lib request).
    destruct (collect _ _ _ _ _ _ _) as [f|r0|e];
      cbn [bind run is_some describe_render andb];
      [|destruct Hl|discriminate].
    destruct Hl as (cs & -> & Hcs). intros H. injection H as <-.
    eexists. split; [reflexivity|]. cbn [collections app].
    intros Hk. apply in_map_iff in Hk as (c & Hc & Hcin).
    destruct (Hcs c Hcin) as (v' & Hv' & Hvis). rewrite Hc in Hv'.
    apply in_filter_by_type in Hv'.
    rewrite (keys_unique _ _ _ _ Hn Hin Hv') in Hh. congruence.
  - unfold describe_collections. rewrite Hv. cbn [negb]. cbv iota.
    rewrite (inb_keys _ _ _ Hin'). cbn [negb]. cbv iota.
    rewrite (filter_key_unique _ _ _ (nodup_filter_by_type _ _ Hn) Hin').
    cbn [collect]. rewrite Hh. reflexivity.
Qed.

(** C10.  Asking for one configured collection that is not hidden, and
    being answered 200: the document of the response is the metadata
    object built for that collection, with its id, and not a listing that
    holds it; and the loop ends at that collection whatever follows it. *)
Theorem C10_single_collection k v r :
  is_valid request [] = true ->
  Dict.get k (filter_dict_by_type (resources (config api)) "collection") = Some v ->
  is_hidden v = false ->
  describe_collections lib api request (Some k) = Responded r ->
  rs_status r = 200 ->
  exists c,
    build_collection lib api request hdrs (Some k) k v = Next c
    /\ c_id c = k
    /\ r = describe_response api request hdrs (Some k) (FCollection c)
    /\ (forall rest fcm,
          collect lib api request hdrs (Some k) ((k, v) :: rest) fcm
          = Next (FCollection c)).
Proof.
  intros Hv Hg Hvis H Hs.
  unfold describe_collections in H. rewrite Hv in H. cbn [negb] in H. cbv iota in H.
  rewrite (inb_keys _ _ _ (get_in _ _ _ Hg)) in H. cbn [negb] in H. cbv iota in H.
  destruct (get_filter_head _ _ _ Hg) as (rest & E). rewrite E in H.
  fold (describe_headers lib request) in H.
  cbn [collect] in H. rewrite Hvis in H.
  destruct (build_collection lib api request hdrs (Some k) k v) as [c|r0|e] eqn:Hb;
    cbn [bind run opt_eqb is_some] in H.
  - rewrite String.eqb_refl in H.
    cbn [bind run describe_render is_some collection_shaped negb andb] in H.
    injection H as <-.
    exists c. split; [reflexivity|]. split; [exact (build_collection_id _ _ _ _ Hb)|].
    split; [reflexivity|].
    intros rest' fcm. cbn [collect]. rewrite Hvis, Hb. cbn [bind opt_eqb].
    now rewrite String.eqb_refl.
  - injection H as <-. apply build_collection_return in Hb. lia.
  - discriminate.
Qed.

End DescribeClaims.


Lemma C10_single_collection_witness :
  exists c,
    c_id c = "stations"
    /\ described (describe_response Demo.api (Demo.get [])
                    (describe_headers Demo.lib (Demo.get [])) (Some "stations")
                    (FCollection c))
       = Some (FCollection c)
    /\ describe_collections Demo.lib Demo.api (Demo.get []) (Some "stations")
       = Responded (describe_response Demo.api (Demo.get [])
                      (describe_headers Demo.lib (Demo.get [])) (Some "stations")
                      (FCollection c)).
Proof.
  destruct (C10_single_collection Demo.lib Demo.api (Demo.get []) "stations"
              (Demo.resource "Stations" [Demo.binding "feature" "Stations"]
                 (Some Demo.world) None)
              _ eq_refl eq_refl eq_refl eq_refl eq_refl)
    as (c & _ & Hid & Hr & _).
  exists c. split; [exact Hid|]. split; [reflexivity|].
  rewrite <- Hr. reflexivity.
Defined.

(** * Further properties of the handlers *)

(** ** No partial payload *)

Ltac flow_cases :=
  repeat match goal with
    | H : Return _ = Return _ |- _ => injection H as <-
    | H : Next _ = Return _ |- _ => discriminate H
    | H : Raise _ = Return _ |- _ => discriminate H
    | H : context [match ?x with _ => _ end] |- _ => destruct x eqn:?
    end.

Section Outcomes.

Variable lib : Lib.
Variable api : API.

Lemma failure_exception status hdrs fmt code msg :
  status = 400 \/ status = 404 \/ status = 500 ->
  failure (get_exception api status hdrs fmt code msg).
Proof.
  intros Hs. split; [exact Hs|].
  unfold error_message, get_exception. cbn [rs_body].
  destruct (opt_eqb fmt F_HTML); eauto.
Qed.

Lemma failure_400 hdrs fmt code msg :
  failure (get_exception api 400 hdrs fmt code msg).
Proof. apply failure_exception. auto. Qed.

Lemma failure_404 hdrs fmt code msg :
  failure (get_exception api 404 hdrs fmt code msg).
Proof. apply failure_exception. auto. Qed.

Lemma failure_500 hdrs fmt code msg :
  failure (get_exception api 500 hdrs fmt code msg).
Proof. apply failure_exception. auto. Qed.

Local Hint Resolve failure_400 failure_404 failure_500 : flow.

Lemma offset_param_fails request hdrs r :
  offset_param lib api request hdrs = Return r -> failure r.
Proof. unfold offset_param, bad_request. intros H. flow_cases; auto with flow. Qed.

Lemma limit_param_fails request hdrs r :
  limit_param lib api request hdrs = Return r -> failure r.
Proof. unfold limit_param, bad_request. intros H. flow_cases; auto with flow. Qed.

Lemma bbox_param_fails request hdrs r :
  bbox_param lib api request hdrs = Return r -> failure r.
Proof. unfold bbox_param, bad_request. intros H. flow_cases; auto with flow. Qed.

Lemma datetime_param_fails request hdrs c r :
  datetime_param lib api request hdrs c = Return r -> failure r.
Proof. unfold datetime_param, bad_request. intros H. flow_cases; auto with flow. Qed.

Lemma items_provider_fails request hdrs c r :
  items_provider lib api request hdrs c = Return r -> failure r.
Proof.
  unfold items_provider, server_error. intros H.
  destruct (load_provider lib (r_providers c) "feature") as [?|[]];
    try discriminate; flow_cases; auto with flow.
Qed.

Lemma sort_tokens_fails request hdrs p sorts acc r :
  sort_tokens api request hdrs p sorts acc = Return r -> failure r.
Proof.
  revert acc. induction sorts as [|s sorts IH]; simpl; intros acc H; [discriminate|].
  destruct (sort_token s); [|discriminate].
  destruct (inb _ _); [eauto|].
  unfold bad_request in H. flow_cases; auto with flow.
Qed.

Lemma sortby_param_fails request hdrs p r :
  sortby_param api request hdrs p = Return r -> failure r.
Proof.
  unfold sortby_param. destruct (Dict.get _ _); [|discriminate].
  apply sort_tokens_fails.
Qed.

Lemma properties_param_fails request hdrs p r :
  properties_param api request hdrs p = Return r -> failure r.
Proof. unfold properties_param, bad_request. intros H. flow_cases; auto with flow. Qed.

Lemma filter_param_fails request hdrs r :
  filter_param lib api request hdrs = Return r -> failure r.
Proof. unfold filter_param, bad_request. intros H. flow_cases; auto with flow. Qed.

Lemma filter_lang_param_fails request hdrs r :
  filter_lang_param api request hdrs = Return r -> failure r.
Proof. unfold filter_lang_param, bad_request. intros H. flow_cases; auto with flow. Qed.

Lemma query_provider_fails request pr r :
  query_provider api request pr = Return r -> failure r.
Proof.
  unfold query_provider, server_error. intros H.
  destruct (p_query _ _) as [?|[]]; simpl in H; flow_cases; auto with flow.
Qed.

Lemma before_filter_fails request dataset r :
  before_filter lib api request dataset = Return r -> failure r.
Proof.
  unfold before_filter, get_format_exception. intros H.
  destruct (is_valid request (formatter_plugins lib)); simpl in H;
    [|injection H as <-; auto with flow].
  destruct (Dict.get dataset _) as [collection|]; [|injection H as <-; auto with flow].
  repeat (apply bind_return in H as [H|(? & _ & H)];
          [eauto using offset_param_fails, limit_param_fails, bbox_param_fails,
             datetime_param_fails, items_provider_fails, sortby_param_fails,
             properties_param_fails|]).
  discriminate.
Qed.

Lemma prepare_fails request dataset r :
  prepare lib api request dataset = Return r -> failure r.
Proof.
  unfold prepare. intros H.
  repeat (apply bind_return in H as [H|(? & _ & H)];
          [eauto using before_filter_fails, filter_param_fails,
             filter_lang_param_fails|]).
  discriminate.
Qed.

Lemma respond_outcome request dataset pr content r :
  run (respond lib api request dataset pr content) = Responded r ->
  delivers r \/ failure r.
Proof.
  unfold respond, csv_response. intros H.
  repeat match type of H with
         | context [if ?c then _ else _] => destruct c
         | context [match ?x with _ => _ end] => destruct x
         end; cbn [run] in H; try discriminate; injection H as <-.
  all: try (left; split; [reflexivity|]; cbn; eauto; fail).
  all: right; unfold server_error; auto with flow.
Qed.

(** Whatever the item handler answers is either a complete success (status
    200 with the item document, or the CSV text) or an exception report with
    status 400, 404 or 500; there is nothing in between. *)
Theorem items_all_or_nothing request dataset r :
  get_collection_items lib api request dataset = Responded r ->
  delivers r \/ failure r.
Proof.
  unfold get_collection_items. intros H.
  destruct (prepare lib api request dataset) as [pr|r0|e] eqn:Hp; cbn [bind] in H.
  - destruct (query_provider api request pr) as [content|r0|e] eqn:Hq; cbn [bind] in H.
    + now apply respond_outcome in H.
    + injection H as <-. right. eapply query_provider_fails; eassumption.
    + discriminate.
  - injection H as <-. right. eapply prepare_fails; eassumption.
  - discriminate.
Qed.

(** The two kinds of answer exclude each other. *)
Lemma delivers_not_failure r : delivers r -> ~ failure r.
Proof. intros [Hs _] [[H|[H|H]] _]; rewrite Hs in H; discriminate. Qed.

End Outcomes.

Lemma items_all_or_nothing_witness :
  exists r,
    get_collection_items Demo.lib Demo.api Demo.page2 "stations" = Responded r
    /\ delivers r.
Proof.
  eexists. split; [lazy; reflexivity|].
  destruct (items_all_or_nothing Demo.lib Demo.api Demo.page2 "stations" _ eq_refl)
    as [H|[[H|[H|H]] _]]; [exact H | discriminate H ..].
Defined.

(** ** What the provider is asked *)

Section QueryArguments.

Variable lib : Lib.
Variable api : API.

(** The offset handed to the provider is never negative, and a limit given
    in the request is positive; a request without [limit] gets the configured
    default as it is, whatever its sign. *)
Theorem items_validated_paging request dataset pr :
  prepare lib api request dataset = Next pr ->
  0 <= q_offset (pr_args pr)
  /\ match Dict.get "offset" (params request) with
     | None => q_offset (pr_args pr) = 0
     | Some s => py_int lib s = Some (q_offset (pr_args pr))
     end
  /\ match Dict.get "limit" (params request) with
     | None => q_limit (pr_args pr) = server_limit (config api)
     | Some s => py_int lib s = Some (q_limit (pr_args pr)) /\ 0 < q_limit (pr_args pr)
     end.
Proof.
  intros Hp. apply prepare_next in Hp as (R & _ & _).
  destruct R as [_ _ _ Ro Rl _ _ _ _ _ _].
  unfold offset_param in Ro. unfold limit_param in Rl.
  destruct (Dict.get "offset" (params request)) as [s|].
  - destruct (py_int lib s) as [n|]; [|discriminate].
    destruct (n <? 0) eqn:E; [discriminate|]. injection Ro as <-.
    apply Z.ltb_ge in E. split; [exact E|]. split; [reflexivity|].
    destruct (Dict.get "limit" (params request)) as [t|].
    + destruct (py_int lib t) as [m|]; [|discriminate].
      destruct (m <=? 0) eqn:E'; [discriminate|]. injection Rl as <-.
      apply Z.leb_gt in E'. auto.
    + now injection Rl as <-.
  - injection Ro as <-. split; [lia|]. split; [reflexivity|].
    destruct (Dict.get "limit" (params request)) as [t|].
    + destruct (py_int lib t) as [m|]; [|discriminate].
      destruct (m <=? 0) eqn:E'; [discriminate|]. injection Rl as <-.
      apply Z.leb_gt in E'. auto.
    + now injection Rl as <-.
Qed.

Lemma sort_tokens_next request hdrs p sorts acc out :
  sort_tokens api request hdrs p sorts acc = Next out ->
  exists ks,
    out = (acc ++ ks)%list
    /\ Forall2 (fun s k => sort_token s = Ok k) sorts ks
    /\ Forall (fun k => inb (sk_property k) (Dict.keys (p_fields p)) = true) ks.
Proof.
  revert acc. induction sorts as [|s sorts IH]; cbn [sort_tokens]; intros acc H.
  - injection H as <-. exists []. rewrite app_nil_r. repeat split; constructor.
  - destruct (sort_token s) as [k|] eqn:Et; [|discriminate].
    destruct (inb (sk_property k) (Dict.keys (p_fields p))) eqn:Ef; [|discriminate].
    apply IH in H as (ks & -> & H2 & Hf).
    exists (k :: ks). rewrite <- app_assoc. repeat split; constructor; assumption.
Qed.

Lemma inb_In x l : inb x l = true <-> In x l.
Proof.
  unfold inb. rewrite existsb_exists. split.
  - intros (y & Hy & E). apply String.eqb_eq in E. now subst y.
  - intros H. exists x. split; [exact H | apply String.eqb_refl].
Qed.

(** The sort keys handed to the provider are the comma-separated tokens of
    [sortby] in their order.  A token that starts with [+] or [-] gives that
    sign as the order and the rest of the token as the property; any other
    token gives the order [+] and the whole token as the property; and every
    property names a field of the provider.  Without [sortby] there is no
    sort key. *)
Theorem items_sortby_keys request dataset pr :
  prepare lib api request dataset = Next pr ->
  match Dict.get "sortby" (params request) with
  | None => q_sortby (pr_args pr) = []
  | Some val =>
      Forall2 (fun s k =>
                 (exists sign rest,
                     s = String sign rest
                     /\ (sign = "+"%char \/ sign = "-"%char)
                     /\ sk_order k = String sign EmptyString
                     /\ sk_property k = rest)
                 \/ (s <> EmptyString
                     /\ (forall rest, s <> String "+" rest /\ s <> String "-" rest)
                     /\ sk_order k = "+"
                     /\ sk_property k = s))
        (Str.split "," val) (q_sortby (pr_args pr))
      /\ Forall (fun k => In (sk_property k) (Dict.keys (p_fields (pr_provider pr))))
           (q_sortby (pr_args pr))
  end.
Proof.
  intros Hp. apply prepare_next in Hp as (R & _ & _).
  pose proof (reached_sortby _ _ _ _ _ R) as Rs. unfold sortby_param in Rs.
  destruct (Dict.get "sortby" (params request)) as [val|]; [|now injection Rs].
  apply sort_tokens_next in Rs as (ks & -> & H2 & Hf). cbn [app]. split.
  - clear Hf. induction H2 as [|s k sorts ks' Hk _ IH]; constructor; [|exact IH].
    destruct s as [|c r]; [discriminate|]. cbn [sort_token] in Hk.
    destruct (Ascii.eqb c "+") eqn:Ep.
    + apply Ascii.eqb_eq in Ep. subst c. cbn in Hk. injection Hk as <-.
      left. exists "+"%char, r. cbn. auto.
    + destruct (Ascii.eqb c "-") eqn:Em.
      * apply Ascii.eqb_eq in Em. subst c. cbn in Hk. injection Hk as <-.
        left. exists "-"%char, r. cbn. auto.
      * cbn in Hk. injection Hk as <-. right.
        apply Ascii.eqb_neq in Ep. apply Ascii.eqb_neq in Em.
        split; [discriminate|]. split; [|cbn; auto].
        intros rest. split; intros E; injection E as E _; contradiction.
  - eapply Forall_impl; [exact Hf|]. intros k. apply inb_In.
Qed.

(** A [sortby] whose first token is empty (an empty value, or one that
    starts with a comma) is not answered 400: taking the first character of
    the token raises [IndexError], which no handler catches. *)
Theorem items_sortby_empty_token request dataset collection loaded val rest :
  reaches_provider lib api request dataset collection ->
  items_provider lib api request (items_headers lib request) collection = Next loaded ->
  Dict.get "sortby" (params request) = Some val ->
  Str.split "," val = EmptyString :: rest ->
  get_collection_items lib api request dataset = Raised IndexError.
Proof.
  intros ((Hv & Hc & (o & Ho) & (l & Hl) & (b & Hb)) & (d & Hd)) Hp Hs Ht.
  unfold get_collection_items, prepare, before_filter.
  unfold items_headers in *.
  rewrite Hv, Hc. cbn [negb]. cbv iota.
  rewrite Ho, Hl, Hb, Hd, Hp. cbn [bind].
  unfold sortby_param. rewrite Hs, Ht. reflexivity.
Qed.

(** The selection handed to the provider is the comma-separated list given
    in [properties], and each of its names is a property or a field of the
    provider; without [properties] the selection is empty. *)
Theorem items_selected_properties request dataset pr :
  prepare lib api request dataset = Next pr ->
  match Dict.get "properties" (params request) with
  | None => q_select_properties (pr_args pr) = []
  | Some val =>
      q_select_properties (pr_args pr) = Str.split "," val
      /\ forall name, In name (Str.split "," val) ->
           In name (p_properties (pr_provider pr))
           \/ In name (Dict.keys (p_fields (pr_provider pr)))
  end.
Proof.
  intros Hp. apply prepare_next in Hp as (R & _ & _).
  pose proof (reached_select _ _ _ _ _ R) as Rs. unfold properties_param in Rs.
  destruct (Dict.get "properties" (params request)) as [val|]; [|now injection Rs].
  destruct (existsb _ _) eqn:E; [discriminate|]. injection Rs as <-.
  split; [reflexivity|]. intros name Hin.
  apply in_app_or. apply inb_In.
  destruct (inb name _) eqn:En; [reflexivity|].
  assert (X : existsb (fun s => negb (inb s (p_properties (pr_provider pr)
                                            ++ Dict.keys (p_fields (pr_provider pr)))%list))
                (Str.split "," val) = true).
  { apply existsb_exists. exists name. split; [exact Hin|]. now rewrite En. }
  rewrite X in E. discriminate.
Qed.

End QueryArguments.

Lemma demo_reaches_provider (ps : list (string * string)) :
  Dict.get "offset" ps = None -> Dict.get "limit" ps = None ->
  Dict.get "bbox" ps = None -> Dict.get "datetime" ps = None ->
  reaches_provider Demo.lib Demo.api (Demo.get ps) "stations" Demo.stations.
Proof.
  intros Ho Hl Hb Hd. unfold reaches_provider, reaches_datetime.
  unfold offset_param, limit_param, bbox_param, datetime_param.
  cbn [params Demo.get]. rewrite Ho, Hl, Hb, Hd.
  repeat split; try reflexivity; eexists; reflexivity.
Defined.

Lemma items_validated_paging_witness :
  exists pr,
    prepare Demo.lib Demo.api Demo.page2 "stations" = Next pr
    /\ 0 <= q_offset (pr_args pr).
Proof.
  eexists. split; [lazy; reflexivity|].
  exact (proj1 (items_validated_paging Demo.lib Demo.api Demo.page2 "stations"
                  _ eq_refl)).
Defined.

Lemma items_sortby_keys_witness :
  exists pr,
    prepare Demo.lib Demo.api Demo.sorted "stations" = Next pr
    /\ Forall (fun k => In (sk_property k) ["id"; "name"; "elevation"])
         (q_sortby (pr_args pr)).
Proof.
  eexists. split; [lazy; reflexivity|].
  exact (proj2 (items_sortby_keys Demo.lib Demo.api Demo.sorted "stations"
                  _ eq_refl)).
Defined.

Lemma items_sortby_empty_token_witness :
  get_collection_items Demo.lib Demo.api (Demo.get [("sortby", ",name")]) "stations"
  = Raised IndexError.
Proof.
  refine (items_sortby_empty_token Demo.lib Demo.api (Demo.get [("sortby", ",name")])
            "stations" Demo.stations
            (Demo.binding "feature" "Stations", Demo.stations_provider)
            ",name" ["name"] _ eq_refl eq_refl eq_refl).
  apply demo_reaches_provider; reflexivity.
Defined.

Lemma items_selected_properties_witness :
  exists pr,
    prepare Demo.lib Demo.api Demo.sorted "stations" = Next pr
    /\ q_select_properties (pr_args pr) = ["name"; "id"].
Proof.
  eexists. split; [lazy; reflexivity|].
  exact (proj1 (items_selected_properties Demo.lib Demo.api Demo.sorted "stations"
                  _ eq_refl)).
Defined.

(** ** Providers and their failures *)

Section Providers.

Variable lib : Lib.
Variable api : API.

Lemma get_provider_by_type_ok providers provider_type d :
  get_provider_by_type providers provider_type = Ok d ->
  In d providers /\ pd_type d = provider_type.
Proof.
  induction providers as [|x l IH]; cbn [get_provider_by_type]; [discriminate|].
  destruct (String.eqb (pd_type x) provider_type) eqn:E.
  - intros H. injection H as <-. apply String.eqb_eq in E. split; [now left | exact E].
  - intros H. apply IH in H as [H1 H2]. split; [now right | exact H2].
Qed.

Lemma load_provider_ok providers provider_type d p :
  load_provider lib providers provider_type = Ok (d, p) ->
  get_provider_by_type providers provider_type = Ok d /\ load_plugin lib d = Ok p.
Proof.
  unfold load_provider.
  destruct (get_provider_by_type providers provider_type) as [d0|]; [|discriminate].
  destruct (load_plugin lib d0) as [p0|] eqn:E; [|discriminate].
  intros H. injection H as <- <-. auto.
Qed.

(** The provider that is queried is the loaded plugin of a binding of the
    collection: the first [feature] binding, or the first [record] binding
    when looking up or loading the feature provider raised
    [ProviderTypeError]. *)
Theorem items_provider_choice request dataset pr :
  prepare lib api request dataset = Next pr ->
  let providers := r_providers (pr_collection pr) in
  In (pr_provider_def pr) providers
  /\ load_plugin lib (pr_provider_def pr) = Ok (pr_provider pr)
  /\ (get_provider_by_type providers "feature" = Ok (pr_provider_def pr)
      \/ load_provider lib providers "feature" = Err ProviderTypeError
         /\ get_provider_by_type providers "record" = Ok (pr_provider_def pr)).
Proof.
  intros Hp. apply prepare_next in Hp as (R & _ & _).
  pose proof (reached_provider _ _ _ _ _ R) as Rp. cbv zeta.
  unfold items_provider in Rp.
  destruct (load_provider lib (r_providers (pr_collection pr)) "feature")
    as [[d p]|e] eqn:Ef.
  - injection Rp as <- <-. apply load_provider_ok in Ef as [Hg Hl].
    split; [exact (proj1 (get_provider_by_type_ok _ _ _ Hg))|]. auto.
  - destruct e; try discriminate.
    destruct (load_provider lib (r_providers (pr_collection pr)) "record")
      as [[d p]|e] eqn:Er; [|destruct e; discriminate].
    injection Rp as <- <-. apply load_provider_ok in Er as [Hg Hl].
    split; [exact (proj1 (get_provider_by_type_ok _ _ _ Hg))|]. auto.
Qed.

(** A failure of the provider's query is answered 500 [NoApplicableCode]
    with one of three fixed messages, chosen by the class of the error; an
    exception that is no provider error is not caught. *)
Theorem items_query_errors request dataset pr e :
  prepare lib api request dataset = Next pr ->
  p_query (pr_provider pr) (pr_args pr) = Err e ->
  get_collection_items lib api request dataset
  = match e with
    | ProviderConnectionError =>
        Responded (get_exception api 500 (items_headers lib request) (format request)
                     "NoApplicableCode" "connection error (check logs)")
    | ProviderQueryError =>
        Responded (get_exception api 500 (items_headers lib request) (format request)
                     "NoApplicableCode" "query error (check logs)")
    | ProviderGenericError | ProviderTypeError =>
        Responded (get_exception api 500 (items_headers lib request) (format request)
                     "NoApplicableCode" "generic error (check logs)")
    | _ => Raised e
    end.
Proof.
  intros Hp Hq.
  pose proof (reached_headers _ _ _ _ _ (proj1 (prepare_next _ _ _ _ _ Hp))) as Hh.
  unfold get_collection_items. rewrite Hp. cbn [bind].
  unfold query_provider, server_error, items_headers. rewrite Hq, Hh.
  destruct e; reflexivity.
Qed.

(** Looking up or loading the feature provider: a connection error or a
    query error is answered 500 with the fixed message, for a request that
    has come as far as the provider. *)
Theorem items_feature_load_errors request dataset collection e :
  reaches_provider lib api request dataset collection ->
  load_provider lib (r_providers collection) "feature" = Err e ->
  (e = ProviderConnectionError ->
   get_collection_items lib api request dataset
   = Responded (get_exception api 500 (items_headers lib request) (format request)
                  "NoApplicableCode" "connection error (check logs)"))
  /\ (e = ProviderQueryError ->
      get_collection_items lib api request dataset
      = Responded (get_exception api 500 (items_headers lib request) (format request)
                     "NoApplicableCode" "query error (check logs)")).
Proof.
  intros ((Hv & Hc & (o & Ho) & (l & Hl) & (b & Hb)) & (d & Hd)) He.
  split; intros ->.
  all: unfold get_collection_items, prepare, before_filter.
  all: unfold items_headers in *.
  all: rewrite Hv, Hc; cbn [negb]; cbv iota.
  all: rewrite Ho, Hl, Hb, Hd; cbn [bind].
  all: unfold items_provider; rewrite He; reflexivity.
Qed.

Lemma get_filtered_none (d : list (string * Resource)) k value :
  (forall v, In (k, v) d -> r_type v <> value) ->
  Dict.get k (filter_dict_by_type d value) = None.
Proof.
  unfold filter_dict_by_type.
  induction d as [|[k0 v0] d IH]; cbn [List.filter Dict.get]; intros H; [reflexivity|].
  cbn [snd]. destruct (String.eqb (r_type v0) value) eqn:Et.
  - cbn [Dict.get]. destruct (String.eqb k k0) eqn:Ek.
    + apply String.eqb_eq in Ek. subst k0. apply String.eqb_eq in Et.
      exfalso. apply (H v0); [now left | exact Et].
    + apply IH. intros v Hin. apply H. now right.
  - apply IH. intros v Hin. apply H. now right.
Qed.

(** A name that is not configured, or that is configured as something else
    than a collection, is answered 404 [Collection not found], whatever the
    parameters of the request are. *)
Theorem items_not_found request dataset :
  is_valid request (formatter_plugins lib) = true ->
  (forall v, In (dataset, v) (resources (config api)) -> r_type v <> "collection") ->
  get_collection_items lib api request dataset
  = Responded (get_exception api 404 (items_headers lib request) (format request)
                 "NotFound" "Collection not found").
Proof.
  intros Hv Hn. unfold get_collection_items, prepare, before_filter.
  rewrite Hv, (get_filtered_none _ _ _ Hn). reflexivity.
Qed.

(** A bad [offset] is reported before [limit] is looked at, and a bad
    [limit] before anything that follows: each with its own message. *)
Theorem items_paging_rejected request dataset collection :
  is_valid request (formatter_plugins lib) = true ->
  Dict.get dataset (filter_dict_by_type (resources (config api)) "collection")
  = Some collection ->
  let rejected msg :=
    get_collection_items lib api request dataset
    = Responded (get_exception api 400 (items_headers lib request) (format request)
                   "InvalidParameterValue" msg) in
  (forall s, Dict.get "offset" (params request) = Some s ->
     (py_int lib s = None -> rejected "offset value should be an integer")
     /\ (forall n, py_int lib s = Some n -> n < 0 ->
           rejected "offset value should be positive or zero"))
  /\ (forall offset s,
        offset_param lib api request (items_headers lib request) = Next offset ->
        Dict.get "limit" (params request) = Some s ->
        (py_int lib s = None -> rejected "limit value should be an integer")
        /\ (forall n, py_int lib s = Some n -> n <= 0 ->
              rejected "limit value should be strictly positive")).
Proof.
  intros Hv Hc. cbv zeta. split.
  - intros s Hs. split.
    + intros Hi. unfold get_collection_items, prepare, before_filter.
      rewrite Hv, Hc. cbn [negb]. cbv iota.
      unfold offset_param. rewrite Hs, Hi. reflexivity.
    + intros n Hi Hn. unfold get_collection_items, prepare, before_filter.
      rewrite Hv, Hc. cbn [negb]. cbv iota.
      unfold offset_param. rewrite Hs, Hi.
      apply Z.ltb_lt in Hn. rewrite Hn. reflexivity.
  - intros offset s Ho Hs. unfold items_headers in Ho. split.
    + intros Hi. unfold get_collection_items, prepare, before_filter.
      rewrite Hv, Hc. cbn [negb]. cbv iota. rewrite Ho. cbn [bind].
      unfold limit_param. rewrite Hs, Hi. reflexivity.
    + intros n Hi Hn. unfold get_collection_items, prepare, before_filter.
      rewrite Hv, Hc. cbn [negb]. cbv iota. rewrite Ho. cbn [bind].
      unfold limit_param. rewrite Hs, Hi.
      apply Z.leb_le in Hn. rewrite Hn. reflexivity.
Qed.

End Providers.

Lemma items_provider_choice_witness :
  exists pr,
    prepare Demo.lib Demo.api Demo.page2 "stations" = Next pr
    /\ load_plugin Demo.lib (pr_provider_def pr) = Ok (pr_provider pr).
Proof.
  eexists. split; [lazy; reflexivity|].
  exact (proj1 (proj2 (items_provider_choice Demo.lib Demo.api Demo.page2 "stations"
                         _ eq_refl))).
Defined.

Lemma items_not_found_witness :
  get_collection_items Demo.lib Demo.api Demo.page2 "nowhere"
  = Responded (get_exception Demo.api 404 (items_headers Demo.lib Demo.page2)
                 (format Demo.page2) "NotFound" "Collection not found").
Proof.
  refine (items_not_found Demo.lib Demo.api Demo.page2 "nowhere" eq_refl _).
  simpl. intros v H. decompose [or] H; try discriminate; contradiction.
Defined.

Lemma items_paging_rejected_witness :
  get_collection_items Demo.lib Demo.api
    (Demo.get [("offset", "-1"); ("limit", "many")]) "stations"
  = Responded (get_exception Demo.api 400
                 (items_headers Demo.lib (Demo.get [("offset", "-1"); ("limit", "many")]))
                 None "InvalidParameterValue" "offset value should be positive or zero").
Proof.
  refine (proj2 (proj1 (items_paging_rejected Demo.lib Demo.api
                          (Demo.get [("offset", "-1"); ("limit", "many")])
                          "stations" Demo.stations eq_refl eq_refl)
                   "-1" eq_refl) (-1) eq_refl _).
  lia.
Defined.

(** ** Following a generated link *)

Section LinkQueries.

Variable lib : Lib.
Variable api : API.

Lemma digit_between (n : N) : Url.between "0" "9" (Str.digit (n mod 10)) = true.
Proof.
  assert (H : (n mod 10 < 10)%N) by (apply N.mod_upper_bound; discriminate).
  destruct (n mod 10)%N as [|p]; [reflexivity|].
  do 4 (destruct p as [p|p|]; try reflexivity; try (exfalso; lia)).
Qed.

Lemma of_pos_fuel_avoids (x : ascii) fuel n acc :
  Url.between "0" "9" x = false ->
  Str.mem x acc = false ->
  Str.mem x (Str.of_pos_fuel fuel n acc) = false.
Proof.
  intros Hx. revert n acc. induction fuel as [|f IH]; intros n acc Ha; [exact Ha|].
  cbn [Str.of_pos_fuel].
  assert (Hd : Str.mem x (String (Str.digit (n mod 10)) acc) = false).
  { cbn [Str.mem]. rewrite Ha, orb_false_r. apply Ascii.eqb_neq. intros ->.
    rewrite digit_between in Hx. discriminate. }
  destruct (n / 10 =? 0)%N; [exact Hd | now apply IH].
Qed.

(** The decimal text of an integer has digits and at most a sign. *)
Lemma of_Z_avoids (x : ascii) (z : Z) :
  Url.between "0" "9" x = false -> x <> "-"%char ->
  Str.mem x (Str.of_Z z) = false.
Proof.
  intros Hx Hm. destruct z as [|p|p]; cbn [Str.of_Z].
  - cbn [Str.mem]. rewrite orb_false_r. apply Ascii.eqb_neq. intros ->. discriminate.
  - unfold Str.of_N. now apply of_pos_fuel_avoids.
  - cbn [Str.mem]. unfold Str.of_N. rewrite of_pos_fuel_avoids by easy.
    rewrite orb_false_r. now apply Ascii.eqb_neq.
Qed.

Lemma unquote_plain (s : string) : Str.mem "%" s = false -> Url.unquote s = s.
Proof.
  induction s as [|c s IH]; cbn [Str.mem Url.unquote]; intros H; [reflexivity|].
  apply orb_false_elim in H as [Hc Hs].
  rewrite Ascii.eqb_sym, Hc, (IH Hs). reflexivity.
Qed.

Lemma parse_plain_pair (k v : string) :
  plain k -> plain v -> Url.parse_pair (k +:+ String "=" v) = (k, v).
Proof.
  intros (_ & Hk & Hkp & Hkq) (_ & _ & Hvp & Hvq).
  unfold Url.parse_pair. rewrite split1_at_sep by exact Hk.
  rewrite !replace_absent by assumption.
  now rewrite !unquote_plain.
Qed.

(** A first pair in plain text followed by the suffix reads back as that pair
    followed by the parameters of the suffix. *)
Lemma parse_pair_then_suffix (k v : string) (l : list (string * string)) :
  plain k -> plain v ->
  Url.parse_qsl ((k +:+ String "=" v) +:+ suffix_of l) = (k, v) :: l.
Proof.
  intros Hk Hv. unfold Url.parse_qsl.
  rewrite split_suffix.
  - cbn [Url.parse_pairs]. rewrite parse_pairs_texts.
    destruct (k +:+ String "=" v) as [|c s] eqn:E.
    + destruct k; discriminate E.
    + rewrite <- E, parse_plain_pair by assumption. reflexivity.
  - destruct Hk as (Hk & _), Hv as (Hv & _).
    rewrite mem_append, Hk. cbn [Str.mem]. now rewrite Hv.
Qed.

Lemma split1_question (uri q : string) :
  Str.mem "?" uri = false -> Str.split1 "?" (uri +:+ String "?" q) = (uri, Some q).
Proof. apply split1_at_sep. Qed.

Lemma plain_of_Z z : plain (Str.of_Z z).
Proof. repeat split; apply of_Z_avoids; (reflexivity || discriminate). Qed.

Lemma kept_has_no (key : string) (ps : list (string * string)) :
  key = "f" \/ key = "offset" -> Dict.get key (List.filter kept ps) = None.
Proof.
  intros Hk. induction ps as [|[k v] ps IH]; [reflexivity|].
  cbn [List.filter]. unfold kept at 1. cbn [fst inb existsb].
  destruct (String.eqb k "f") eqn:Ef; [exact IH|].
  destruct (String.eqb k "offset") eqn:Eo; [exact IH|].
  cbn [negb orb Dict.get].
  destruct (String.eqb key k) eqn:E; [|exact IH].
  apply String.eqb_eq in E. subst k.
  destruct Hk as [-> | ->]; [rewrite String.eqb_refl in Ef | rewrite String.eqb_refl in Eo];
    discriminate.
Qed.

(** The query string of every link of an item response, but the backlink,
    read back as a query: the [prev] link gives [offset] with
    [max(0, offset - limit)] and the [next] link [offset] with
    [offset + limit], each followed by the request's parameters other than
    [f] and [offset] and so without any [f]; every other link gives [f] with
    one of the three formats followed by the same parameters, and so without
    any [offset]. *)
Theorem items_link_queries request dataset r d l offset limit :
  get_collection_items lib api request dataset = Responded r ->
  response_items r = Some d ->
  offset_param lib api request (items_headers lib request) = Next offset ->
  limit_param lib api request (items_headers lib request) = Next limit ->
  Str.mem "?" (items_uri api dataset) = false ->
  In l (i_links d) ->
  l_rel l <> "collection" ->
  (l_rel l = "prev"
   /\ Url.parse_qsl (link_query l)
      = ("offset", Str.of_Z (Z.max 0 (offset - limit)))
          :: List.filter kept (params request)
   /\ Dict.get "f" (Url.parse_qsl (link_query l)) = None)
  \/ (l_rel l = "next"
      /\ Url.parse_qsl (link_query l)
         = ("offset", Str.of_Z (offset + limit)) :: List.filter kept (params request)
      /\ Dict.get "f" (Url.parse_qsl (link_query l)) = None)
  \/ (l_rel l <> "prev" /\ l_rel l <> "next"
      /\ exists fmt,
           In fmt [F_JSON; F_JSONLD; F_HTML]
           /\ Url.parse_qsl (link_query l)
              = ("f", fmt) :: List.filter kept (params request)
           /\ Dict.get "offset" (Url.parse_qsl (link_query l)) = None).
Proof.
  intros Hr Hd Ho Hl Hq Hin Hrel.
  destruct (items_response _ _ _ _ _ _ Hr Hd) as (pr & content & Hp & _ & _ & Hlinks).
  apply prepare_next in Hp as (R & _ & _).
  destruct (reached_offset_limit lib api _ _ _ _ _ R Ho Hl) as [Eo El].
  rewrite Eo, El in Hlinks.
  rewrite Hlinks in Hin. apply (links_split lib api) in Hin.
  assert (Hfmt : forall f, In f [F_JSON; F_JSONLD; F_HTML] ->
            forall l0, l_href l0 = items_uri api dataset +:+ "?f=" +:+ f
                                   +:+ serialized_query_params request ->
            Url.parse_qsl (link_query l0) = ("f", f) :: List.filter kept (params request)).
  { intros f Hfin l0 E. unfold link_query. rewrite E.
    change (items_uri api dataset +:+ "?f=" +:+ f +:+ serialized_query_params request)
      with (items_uri api dataset
              +:+ String "?" ("f=" +:+ f +:+ serialized_query_params request)).
    rewrite split1_question by exact Hq. cbn [snd].
    rewrite serialized_query_params_eq.
    replace ("f=" +:+ f +:+ suffix_of (List.filter kept (params request)))
      with (("f" +:+ String "=" f) +:+ suffix_of (List.filter kept (params request)))
      by (rewrite !append_assoc; reflexivity).
    apply parse_pair_then_suffix; [repeat split|].
    destruct Hfin as [<-|[<-|[<-|[]]]]; repeat split. }
  assert (Hoff : forall n l0,
            l_href l0 = items_uri api dataset +:+ "?offset=" +:+ Str.of_Z n
                        +:+ serialized_query_params request ->
            Url.parse_qsl (link_query l0)
            = ("offset", Str.of_Z n) :: List.filter kept (params request)).
  { intros n l0 E. unfold link_query. rewrite E.
    change (items_uri api dataset +:+ "?offset=" +:+ Str.of_Z n
              +:+ serialized_query_params request)
      with (items_uri api dataset
              +:+ String "?" ("offset=" +:+ Str.of_Z n
                                +:+ serialized_query_params request)).
    rewrite split1_question by exact Hq. cbn [snd].
    rewrite serialized_query_params_eq.
    replace ("offset=" +:+ Str.of_Z n +:+ suffix_of (List.filter kept (params request)))
      with (("offset" +:+ String "=" (Str.of_Z n))
              +:+ suffix_of (List.filter kept (params request)))
      by (rewrite !append_assoc; reflexivity).
    apply parse_pair_then_suffix; [repeat split | apply plain_of_Z]. }
  destruct Hin as [H|[H|[H|H]]].
  - right. right.
    pose proof (format_links_rel _ _ _ H) as Hself.
    split; [destruct Hself as [E|E]; rewrite E; discriminate|].
    split; [destruct Hself as [E|E]; rewrite E; discriminate|].
    unfold format_links in H. cbn [In] in H.
    assert (X : exists fmt, In fmt [F_JSON; F_JSONLD; F_HTML]
                /\ Url.parse_qsl (link_query l)
                   = ("f", fmt) :: List.filter kept (params request)).
    { destruct H as [<-|[<-|[<-|[]]]]; eexists;
        (split; [|apply Hfmt; [|reflexivity]]); cbn; auto. }
    destruct X as (fmt & Hfin & E). exists fmt. split; [exact Hfin|].
    split; [exact E|]. rewrite E. cbn [Dict.get].
    change (String.eqb "offset" "f") with false. cbv iota.
    apply kept_has_no. now right.
  - left. unfold prev_link in H.
    destruct (0 <? offset); [|destruct H]. destruct H as [<-|[]].
    match goal with
    | |- context [link_query ?l0] => pose proof (Hoff _ l0 eq_refl) as E
    end.
    rewrite E. split; [reflexivity|]. split; [reflexivity|].
    cbn [Dict.get]. change (String.eqb "f" "offset") with false. cbv iota.
    apply kept_has_no. now left.
  - right. left. unfold next_link in H.
    destruct (_ =? _); [|destruct H]. destruct H as [<-|[]].
    match goal with
    | |- context [link_query ?l0] => pose proof (Hoff _ l0 eq_refl) as E
    end.
    rewrite E. split; [reflexivity|]. split; [reflexivity|].
    cbn [Dict.get]. change (String.eqb "f" "offset") with false. cbv iota.
    apply kept_has_no. now left.
  - unfold collection_link in H. destruct H as [<-|[]]. now contradict Hrel.
Qed.

End LinkQueries.

Lemma items_link_queries_witness :
  Url.parse_qsl (link_query (the_next Demo.api Demo.page2 "stations" 2 2))
  = [("offset", "4"); ("limit", "2"); ("name", "s 3,s4")].
Proof.
  destruct (items_link_queries Demo.lib Demo.api Demo.page2 "stations" _ _
              (the_next Demo.api Demo.page2 "stations" 2 2) 2 2
              eq_refl eq_refl eq_refl eq_refl eq_refl)
    as [(Hrel & _)|[(_ & E & _)|(_ & Hrel & _)]].
  - vm_compute. tauto.
  - discriminate.
  - discriminate Hrel.
  - exact E.
  - now contradict Hrel.
Defined.

(** ** CSV and HTML output *)

Section Formats.

Variable lib : Lib.
Variable api : API.

Lemma dict_get_set_eq {V} (k : string) (v : V) (d : list (string * V)) :
  Dict.get k (Dict.set k v d) = Some v.
Proof.
  induction d as [|[k0 v0] d IH]; cbn [Dict.set Dict.get].
  - now rewrite String.eqb_refl.
  - destruct (String.eqb k k0) eqn:E; cbn [Dict.get].
    + now rewrite String.eqb_refl.
    + now rewrite E.
Qed.

Lemma dict_get_set_ne {V} (k k' : string) (v : V) (d : list (string * V)) :
  k <> k' -> Dict.get k (Dict.set k' v d) = Dict.get k d.
Proof.
  intros Hne. apply String.eqb_neq in Hne.
  induction d as [|[k0 v0] d IH]; cbn [Dict.set Dict.get].
  - now rewrite Hne.
  - destruct (String.eqb k' k0) eqn:E; cbn [Dict.get].
    + apply String.eqb_eq in E. subst k0. now rewrite Hne.
    + now rewrite IH.
Qed.

(** A CSV export that succeeds is a 200 whose body is the formatter's text,
    sent as an attachment: the file is named by the provider when it has a
    file name and [<collection>.csv] otherwise, and the content type is the
    formatter's with the configured encoding. *)
Theorem items_csv_attachment request dataset pr content d text :
  format request = Some "csv" ->
  prepare lib api request dataset = Next pr ->
  p_query (pr_provider pr) (pr_args pr) = Ok content ->
  get_provider_by_type (r_providers (pr_collection pr)) "feature" = Ok d ->
  csv_write lib (items_document lib api request dataset pr content) d = Ok text ->
  exists r,
    get_collection_items lib api request dataset = Responded r
    /\ rs_status r = 200
    /\ rs_body r = BRaw text
    /\ Dict.get "Content-Disposition" (rs_headers r)
       = Some ("attachment; filename="
                 +:+ String dquote
                       (match p_filename (pr_provider pr) with
                        | None => dataset +:+ ".csv"
                        | Some f => f
                        end +:+ String dquote EmptyString))
    /\ Dict.get "Content-Type" (rs_headers r)
       = Some (csv_mimetype lib +:+ "; charset=" +:+ server_encoding (config api)).
Proof.
  intros Hf Hp Hq Hg Hw.
  unfold get_collection_items. rewrite Hp. cbn [bind].
  unfold query_provider. rewrite Hq. cbn [bind].
  unfold respond. rewrite Hf.
  change (opt_eqb (Some "csv") F_HTML) with false.
  change (opt_eqb (Some "csv") "csv") with true. cbv iota.
  unfold csv_response. rewrite Hg.
  fold (items_document lib api request dataset pr content). rewrite Hw.
  eexists. split; [reflexivity|]. cbn [rs_status rs_body rs_headers].
  split; [reflexivity|]. split; [reflexivity|]. split.
  - now rewrite dict_get_set_eq.
  - rewrite dict_get_set_ne by discriminate. apply dict_get_set_eq.
Qed.

(** The CSV export asks for the [feature] binding again: on a collection
    served through the record fallback it raises [ProviderTypeError], caught
    by nothing, after the provider has answered; and a formatter that cannot
    serialise is answered 500 [Error serializing output]. *)
Theorem items_csv_failures request dataset pr content :
  format request = Some "csv" ->
  prepare lib api request dataset = Next pr ->
  p_query (pr_provider pr) (pr_args pr) = Ok content ->
  ((forall d, In d (r_providers (pr_collection pr)) -> pd_type d <> "feature") ->
   get_collection_items lib api request dataset = Raised ProviderTypeError)
  /\ (forall d,
        get_provider_by_type (r_providers (pr_collection pr)) "feature" = Ok d ->
        csv_write lib (items_document lib api request dataset pr content) d
        = Err FormatterSerializationError ->
        exists r,
          get_collection_items lib api request dataset = Responded r
          /\ rs_status r = 500
          /\ error_message r = Some "Error serializing output").
Proof.
  intros Hf Hp Hq.
  assert (E : get_collection_items lib api request dataset
              = run (csv_response lib api request dataset pr
                       (set_response_language lib (pr_headers pr)
                          (q_language (pr_args pr)) (locale request))
                       (items_document lib api request dataset pr content))).
  { unfold get_collection_items. rewrite Hp. cbn [bind].
    unfold query_provider. rewrite Hq. cbn [bind].
    unfold respond. rewrite Hf. reflexivity. }
  rewrite E. unfold csv_response. split.
  - intros Hn. now rewrite (get_provider_by_type_none _ _ Hn).
  - intros d Hg Hw. rewrite Hg, Hw.
    eexists. split; [reflexivity|]. split; [reflexivity|].
    unfold server_error, get_exception, error_message. cbn [rs_body].
    rewrite Hf. reflexivity.
Qed.

Lemma split_nonempty sep s : Str.split sep s <> [].
Proof.
  destruct s as [|c r]; cbn [Str.split]; [discriminate|].
  destruct (Ascii.eqb c sep); [discriminate|].
  destruct (Str.split sep r); discriminate.
Qed.

Lemma split_append sep a b :
  Str.split sep (a +:+ String sep b) = (Str.split sep a ++ Str.split sep b)%list.
Proof.
  induction a as [|c a IH]; rewrite ?append_cons, ?append_nil_l; cbn [Str.split].
  - now rewrite Ascii.eqb_refl.
  - destruct (Ascii.eqb c sep); [now rewrite IH|].
    rewrite IH. pose proof (split_nonempty sep a) as Hn.
    destruct (Str.split sep a) as [|h t]; [contradiction | reflexivity].
Qed.

Lemma join_split sep s : Str.join (String sep EmptyString) (Str.split sep s) = s.
Proof.
  induction s as [|c r IH]; cbn [Str.split]; [reflexivity|].
  pose proof (split_nonempty sep r) as Hn.
  destruct (Ascii.eqb c sep) eqn:E.
  - apply Ascii.eqb_eq in E. subst c.
    destruct (Str.split sep r) as [|h t]; [contradiction|].
    cbn [Str.join] in *. rewrite IH. reflexivity.
  - destruct (Str.split sep r) as [|h t]; [contradiction|].
    destruct t as [|h' t'].
    + cbn [Str.join] in *. now rewrite IH.
    + cbn [Str.join] in *. rewrite append_cons, IH. reflexivity.
Qed.

(** Cutting the last segment off a path whose last segment has no [/]. *)
Lemma parent_path (a b : string) :
  Str.mem "/" b = false ->
  Str.join "/" (removelast (Str.split "/" (a +:+ String "/" b))) = a.
Proof.
  intros Hb. rewrite split_append, (split_no_sep _ _ Hb).
  rewrite removelast_last. apply join_split.
Qed.

(** The HTML page of items is rendered from the item document with the
    paths of the page added: [items_path] is the URI of the items,
    [dataset_path] the URI of the collection (whatever the collection is
    called), and the field shown as identifier is the translated title
    field when the provider has one, else its id field. *)
Theorem items_html_context request dataset pr content :
  format request = Some F_HTML ->
  prepare lib api request dataset = Next pr ->
  p_query (pr_provider pr) (pr_args pr) = Ok content ->
  exists r d h,
    get_collection_items lib api request dataset = Responded r
    /\ rs_status r = 200
    /\ rs_body r = BHtml "collections/items/index.html" (DItems d) (locale request)
    /\ i_links d = i_links (items_document lib api request dataset pr content)
    /\ i_html d = Some h
    /\ items_path h = get_collections_url api +:+ "/" +:+ dataset +:+ "/items"
    /\ dataset_path h = get_collections_url api +:+ "/" +:+ dataset
    /\ h_offset h = q_offset (pr_args pr)
    /\ id_field h = match p_title_field (pr_provider pr) with
                    | Some t => translate lib t (locale request)
                    | None => p_id_field (pr_provider pr)
                    end.
Proof.
  intros Hf Hp Hq.
  unfold get_collection_items. rewrite Hp. cbn [bind].
  unfold query_provider. rewrite Hq. cbn [bind].
  unfold respond. rewrite Hf.
  change (opt_eqb (Some F_HTML) F_HTML) with true. cbv iota.
  eexists _, _, _. split; [reflexivity|]. cbn [rs_status rs_body i_links i_html].
  repeat split.
  - cbn [html_items dataset_path]. unfold items_uri.
    replace (get_collections_url api +:+ "/" +:+ dataset +:+ "/items")
      with ((get_collections_url api +:+ "/" +:+ dataset) +:+ String "/" "items")
      by (rewrite !append_assoc; reflexivity).
    now apply parent_path.
  - cbn [html_items id_field].
    destruct (p_title_field (pr_provider pr)); reflexivity.
Qed.

End Formats.

Lemma items_query_errors_witness :
  get_collection_items Demo.lib2 Demo.api2 (Demo.get []) "flaky"
  = Responded (get_exception Demo.api2 500 (items_headers Demo.lib2 (Demo.get []))
                 None "NoApplicableCode" "query error (check logs)").
Proof.
  exact (items_query_errors Demo.lib2 Demo.api2 (Demo.get []) "flaky" _
           ProviderQueryError eq_refl eq_refl).
Defined.

Lemma demo2_reaches_provider (k : string) (v : Resource) :
  Dict.get k (filter_dict_by_type (resources Demo.cfg2) "collection") = Some v ->
  r_extents v = None ->
  reaches_provider Demo.lib2 Demo.api2 (Demo.get []) k v.
Proof.
  intros Hk He. unfold reaches_provider, reaches_datetime, datetime_param.
  rewrite He. repeat split; try assumption; try reflexivity; eexists; reflexivity.
Defined.

Lemma items_feature_load_errors_witness :
  get_collection_items Demo.lib2 Demo.api2 (Demo.get []) "offline"
  = Responded (get_exception Demo.api2 500 (items_headers Demo.lib2 (Demo.get []))
                 None "NoApplicableCode" "connection error (check logs)").
Proof.
  refine (proj1 (items_feature_load_errors Demo.lib2 Demo.api2 (Demo.get []) "offline"
                   (Demo.resource "Offline" [Demo.binding "feature" "Down"] None None)
                   ProviderConnectionError _ eq_refl) eq_refl).
  apply demo2_reaches_provider; reflexivity.
Defined.

Lemma items_csv_attachment_witness :
  exists r,
    get_collection_items Demo.lib2 Demo.api2 (Demo.get_as "csv" []) "titled"
    = Responded r
    /\ Dict.get "Content-Disposition" (rs_headers r)
       = Some ("attachment; filename="
                 +:+ String dquote ("export.csv" +:+ String dquote EmptyString)).
Proof.
  destruct (items_csv_attachment Demo.lib2 Demo.api2 (Demo.get_as "csv" []) "titled"
              _ _ (Demo.binding "feature" "Titled") "id,name"
              eq_refl eq_refl eq_refl eq_refl eq_refl)
    as (r & H & _ & _ & Hd & _).
  exists r. split; [exact H | exact Hd].
Defined.

Lemma items_csv_failures_witness :
  get_collection_items Demo.lib2 Demo.api2 (Demo.get_as "csv" []) "records"
  = Raised ProviderTypeError.
Proof.
  refine (proj1 (items_csv_failures Demo.lib2 Demo.api2 (Demo.get_as "csv" [])
                   "records" _ _ eq_refl eq_refl eq_refl) _).
  intros d [<-|[]]. discriminate.
Defined.

Lemma items_html_context_witness :
  exists r d h,
    get_collection_items Demo.lib2 Demo.api2 (Demo.get_as "html" []) "titled"
    = Responded r
    /\ rs_body r = BHtml "collections/items/index.html" (DItems d) "en_US"
    /\ i_html d = Some h
    /\ dataset_path h = "http://localhost:5000/oapi/collections/titled"
    /\ id_field h = "name".
Proof.
  destruct (items_html_context Demo.lib2 Demo.api2 (Demo.get_as "html" []) "titled"
              _ _ eq_refl eq_refl eq_refl)
    as (r & d & h & H & _ & Hb & _ & Hh & _ & Hp & _ & Hi).
  exists r, d, h. auto.
Defined.

(** ** More on the collection listing *)

Section Listing.

Variable lib : Lib.
Variable api : API.
Variable request : APIRequest.

Local Abbreviation hdrs := (describe_headers lib request).

Lemma get_provider_default_error providers e :
  get_provider_default providers = Err e -> e = IndexError /\ providers = [].
Proof.
  unfold get_provider_default. destruct (find _ providers); [discriminate|].
  destruct providers; [|discriminate]. intros H. injection H as <-. auto.
Qed.

Lemma get_provider_default_some providers :
  providers <> [] -> exists d, get_provider_default providers = Ok d.
Proof.
  intros Hn. unfold get_provider_default. destruct (find _ providers); [eauto|].
  destruct providers; [contradiction | eauto].
Qed.

(** Without a requested collection, building a collection fails only for
    want of any provider binding. *)
Lemma build_collection_listing_cases k v :
  match build_collection lib api request hdrs None k v with
  | Next c => c_id c = k /\ r_providers v <> []
  | Return _ => False
  | Raise e => e = IndexError /\ r_providers v = []
  end.
Proof.
  destruct (build_collection lib api request hdrs None k v) as [c|r|e] eqn:Hb.
  - split; [exact (build_collection_id _ _ _ _ _ _ _ Hb)|].
    unfold build_collection in Hb. intros Hn. rewrite Hn in Hb. discriminate.
  - now apply build_collection_listing in Hb.
  - unfold build_collection in Hb.
    destruct (get_provider_default (r_providers v)) eqn:Hd.
    + cbn [is_some] in Hb. rewrite !andb_false_r in Hb. discriminate.
    + injection Hb as <-. now apply get_provider_default_error.
Qed.

Lemma filter_visible_cons k v (items : list (string * Resource)) :
  List.filter visible ((k, v) :: items)
  = if is_hidden v then List.filter visible items
    else (k, v) :: List.filter visible items.
Proof. cbn [List.filter]. unfold visible at 1. cbn [snd]. now destruct (is_hidden v). Qed.

Lemma collect_listing_exact items fcm :
  match collect lib api request hdrs None items fcm with
  | Next f =>
      exists cs,
        f = FListing {| collections := (collections fcm ++ cs)%list;
                        links := links fcm |}
        /\ map c_id cs = map fst (List.filter visible items)
        /\ forall kv, In kv (List.filter visible items) -> r_providers (snd kv) <> []
  | Return _ => False
  | Raise e =>
      e = IndexError
      /\ exists kv, In kv (List.filter visible items) /\ r_providers (snd kv) = []
  end.
Proof.
  revert fcm. induction items as [|[k v] items IH]; intros fcm; cbn [collect].
  - exists []. rewrite app_nil_r. destruct fcm. repeat split. intros kv [].
  - rewrite !filter_visible_cons.
    destruct (is_hidden v) eqn:Hh.
    + apply IH.
    + pose proof (build_collection_listing_cases k v) as Hb.
      destruct (build_collection lib api request hdrs None k v) as [c|r|e];
        cbn [bind opt_eqb].
      * destruct Hb as [Hid Hp].
        specialize (IH {| collections := (collections fcm ++ [c])%list;
                          links := links fcm |}).
        destruct (collect _ _ _ _ _ _ _) as [f|r|e].
        -- destruct IH as (cs & -> & Hids & Hall). exists (c :: cs).
           cbn [collections links map fst]. rewrite <- app_assoc, Hid, Hids.
           repeat split. intros kv [<-|Hin]; [exact Hp | now apply Hall].
        -- exact IH.
        -- destruct IH as (-> & kv & Hin & Hkv). split; [reflexivity|].
           exists kv. split; [now right | exact Hkv].
      * exact Hb.
      * destruct Hb as [-> Hp]. split; [reflexivity|].
        exists (k, v). split; [now left | exact Hp].
Qed.

(** The listing: when every collection that is not hidden has a provider
    binding, the answer is 200 and lists exactly the collections that are
    not hidden, in configuration order, with the three links of the listing;
    no provider is loaded for it, so no provider failure can show.  When one
    of them has no binding at all, the whole listing raises [IndexError]. *)
Theorem describe_listing :
  is_valid request [] = true ->
  let shown :=
    List.filter visible (filter_dict_by_type (resources (config api)) "collection") in
  ((forall kv, In kv shown -> r_providers (snd kv) <> []) ->
   exists l,
     describe_collections lib api request None
     = Responded (describe_response api request hdrs None (FListing l))
     /\ rs_status (describe_response api request hdrs None (FListing l)) = 200
     /\ map c_id (collections l) = map fst shown
     /\ links l = listing_links api request)
  /\ ((exists kv, In kv shown /\ r_providers (snd kv) = []) ->
      describe_collections lib api request None = Raised IndexError).
Proof.
  intros Hv. cbv zeta.
  unfold describe_collections. rewrite Hv. cbn [negb]. cbv iota.
  pose proof (collect_listing_exact
                (filter_dict_by_type (resources (config api)) "collection")
                {| collections := []; links := [] |}) as Hc.
  fold (describe_headers lib request).
  destruct (collect _ _ _ _ _ _ _) as [f|r0|e]; [|destruct Hc|].
  - destruct Hc as (cs & -> & Hids & Hall). split.
    + intros _. eexists. cbn [bind run is_some append_links collections links app].
      split; [reflexivity|]. split.
      * unfold describe_response.
        destruct (opt_eqb _ _); [reflexivity|]. destruct (opt_eqb _ _); reflexivity.
      * cbn [collections links]. split; [exact Hids | reflexivity].
    + intros (kv & Hin & Hkv). now apply Hall in Hin.
  - destruct Hc as (-> & kv & Hin & Hkv). split.
    + intros Hall. now apply Hall in Hin.
    + intros _. reflexivity.
Qed.

Lemma get_none_inb {V} (d : list (string * V)) k :
  Dict.get k d = None -> inb k (Dict.keys d) = false.
Proof.
  induction d as [|[k0 v0] d IH]; cbn [Dict.get]; [reflexivity|].
  destruct (String.eqb k k0) eqn:E; [discriminate|].
  intros H. unfold inb, Dict.keys. cbn [map existsb fst]. rewrite E. now apply IH.
Qed.

(** Asking for the description of a name that is not configured as a
    collection is answered 404 [Collection not found]. *)
Theorem describe_not_found k :
  is_valid request [] = true ->
  (forall v, In (k, v) (resources (config api)) -> r_type v <> "collection") ->
  describe_collections lib api request (Some k)
  = Responded (get_exception api 404 hdrs (format request) "NotFound"
                 "Collection not found").
Proof.
  intros Hv Hn. unfold describe_collections. rewrite Hv. cbn [negb]. cbv iota.
  now rewrite (get_none_inb _ _ (get_filtered_none _ _ _ Hn)).
Qed.

(** The description of a single coverage collection loads its coverage
    provider; when that cannot connect the answer is 500
    [connection error (check logs)] instead of the description. *)
Theorem describe_coverage_connection_error k v d :
  is_valid request [] = true ->
  Dict.get k (filter_dict_by_type (resources (config api)) "collection") = Some v ->
  is_hidden v = false ->
  get_provider_default (r_providers v) = Ok d ->
  pd_type d = "coverage" ->
  load_provider lib (r_providers v) "coverage" = Err ProviderConnectionError ->
  describe_collections lib api request (Some k)
  = Responded (get_exception api 500 hdrs (format request) "NoApplicableCode"
                 "connection error (check logs)").
Proof.
  intros Hv Hg Hvis Hd Ht Hl.
  unfold describe_collections. rewrite Hv. cbn [negb]. cbv iota.
  rewrite (inb_keys _ _ _ (get_in _ _ _ Hg)). cbn [negb]. cbv iota.
  destruct (get_filter_head _ _ _ Hg) as (rest & E). rewrite E.
  fold (describe_headers lib request).
  cbn [collect]. rewrite Hvis.
  unfold build_collection. rewrite Hd, Ht.
  change (inb "coverage" ["feature"; "record"; "tile"]) with false.
  cbn [negb andb is_some]. rewrite String.eqb_refl.
  unfold coverage_extension. rewrite Hl. reflexivity.
Qed.

End Listing.

Lemma describe_listing_witness :
  (exists l,
     describe_collections Demo.lib Demo.api (Demo.get []) None
     = Responded (describe_response Demo.api (Demo.get [])
                    (describe_headers Demo.lib (Demo.get [])) None (FListing l))
     /\ map c_id (collections l)
        = ["stations"; "basemap"; "catalogue"; "plain"; "bare"])
  /\ describe_collections Demo.lib Demo.api3 (Demo.get []) None = Raised IndexError.
Proof.
  split.
  - destruct (proj1 (describe_listing Demo.lib Demo.api (Demo.get []) eq_refl))
      as (l & H & _ & Hids & _).
    + intros kv Hin. vm_compute in Hin.
      decompose [or] Hin; try contradiction; subst kv; discriminate.
    + exists l. split; [exact H | exact Hids].
  - refine (proj2 (describe_listing Demo.lib Demo.api3 (Demo.get []) eq_refl) _).
    exists ("empty", Demo.resource "Empty" [] None None).
    split; [vm_compute; tauto | reflexivity].
Defined.

Lemma describe_not_found_witness :
  describe_collections Demo.lib2 Demo.api2 (Demo.get []) (Some "job")
  = Responded (get_exception Demo.api2 404 (describe_headers Demo.lib2 (Demo.get []))
                 None "NotFound" "Collection not found").
Proof.
  refine (describe_not_found Demo.lib2 Demo.api2 (Demo.get []) "job" eq_refl _).
  simpl. intros v H. decompose [or] H; try discriminate; try contradiction.
  match goal with E : (_, _) = (_, _) |- _ => injection E as <- end. discriminate.
Defined.

Lemma describe_coverage_connection_error_witness :
  describe_collections Demo.lib2 Demo.api2 (Demo.get []) (Some "grid")
  = Responded (get_exception Demo.api2 500 (describe_headers Demo.lib2 (Demo.get []))
                 None "NoApplicableCode" "connection error (check logs)").
Proof.
  exact (describe_coverage_connection_error Demo.lib2 Demo.api2 (Demo.get []) "grid"
           (Demo.resource "Grid" [Demo.binding "coverage" "Down"] None None)
           (Demo.binding "coverage" "Down")
           eq_refl eq_refl eq_refl eq_refl eq_refl eq_refl).
Defined.

(** ** More on the queryables *)

Section QueryablesMore.

Variable lib : Lib.
Variable api : API.

Lemma get_not_key {V} (d : list (string * V)) k :
  ~ In k (Dict.keys d) -> Dict.get k d = None.
Proof.
  induction d as [|[k0 v0] d IH]; cbn [Dict.get Dict.keys map fst In]; intros H;
    [reflexivity|].
  destruct (String.eqb k k0) eqn:E.
  - apply String.eqb_eq in E. subst k0. exfalso. apply H. now left.
  - apply IH. intros Hin. apply H. now right.
Qed.

Lemma fold_add_field_lookup (p : Provider) (l : list (string * FieldDef))
    (m : gmap string PropSchema) (k : string) :
  List.NoDup (Dict.keys l) ->
  fold_left (add_field p) l m !! k
  = match Dict.get k l with
    | Some fd =>
        if show_field p k then Some (PField k (f_type fd) (f_values fd)) else m !! k
    | None => m !! k
    end.
Proof.
  revert m. induction l as [|[k0 fd0] l IH]; intros m Hn; [reflexivity|].
  inversion Hn as [|? ? Hnot Hn']; subst.
  cbn [fold_left Dict.get]. rewrite IH by exact Hn'.
  destruct (String.eqb k k0) eqn:E.
  - apply String.eqb_eq in E. subst k0.
    rewrite (get_not_key _ _ Hnot). unfold add_field. cbn [fst snd].
    destruct (show_field p k); [apply lookup_insert_eq | reflexivity].
  - apply String.eqb_neq in E.
    assert (A : add_field p m (k0, fd0) !! k = m !! k).
    { unfold add_field. cbn [fst snd].
      destruct (show_field p k0); [|reflexivity].
      apply lookup_insert_ne. congruence. }
    rewrite A. reflexivity.
Qed.

(** The property map of a queryables response, entry by entry: a field of
    the provider is there, with its name as title, its type and its
    enumeration, exactly when the provider shows it (every field when the
    provider names no properties, else the named ones); a shown field called
    [geometry] takes the place of the geometry reference; nothing else is in
    the map.  Unless HTML was asked for, the content type is
    [application/schema+json]. *)
Theorem queryables_property_map request dataset resource p :
  is_valid request [] = true ->
  Dict.get dataset (resources (config api)) = Some resource ->
  queryables_provider lib api request (get_response_headers lib request None)
    (r_providers resource) = Next p ->
  List.NoDup (Dict.keys (p_fields p)) ->
  exists r q,
    get_collection_queryables lib api request (Some dataset) = Responded r
    /\ rs_status r = 200
    /\ response_queryables r = Some q
    /\ (forall k,
          qy_properties q !! k
          = match Dict.get k (p_fields p) with
            | Some fd =>
                if show_field p k
                then Some (PField k (f_type fd) (f_values fd))
                else geometry_entry p k
            | None => geometry_entry p k
            end)
    /\ (opt_eqb (format request) F_HTML = false ->
        Dict.get "Content-Type" (rs_headers r) = Some "application/schema+json").
Proof.
  intros Hv Hc Hp Hn.
  assert (G : forall k,
             queryables_properties p !! k
             = match Dict.get k (p_fields p) with
               | Some fd =>
                   if show_field p k
                   then Some (PField k (f_type fd) (f_values fd))
                   else geometry_entry p k
               | None => geometry_entry p k
               end).
  { intros k. unfold queryables_properties. rewrite fold_add_field_lookup by exact Hn.
    assert (B : (if wants_geometry p
                 then <[ "geometry" := geometry_ref ]> (∅ : gmap string PropSchema)
                 else ∅) !! k = geometry_entry p k).
    { unfold geometry_entry. destruct (wants_geometry p).
      - destruct (String.eqb k "geometry") eqn:E; cbn [andb].
        + apply String.eqb_eq in E. subst k. apply lookup_insert_eq.
        + apply String.eqb_neq in E. rewrite lookup_insert_ne by congruence.
          apply lookup_empty.
      - rewrite andb_false_r. apply lookup_empty. }
    rewrite B. reflexivity. }
  unfold get_collection_queryables. rewrite Hv, Hc. cbn [negb]. cbv iota.
  rewrite Hp. cbn [bind].
  destruct (opt_eqb (format request) F_HTML) eqn:Ef;
    eexists _, _; (split; [reflexivity|]); cbn [rs_status rs_headers];
    (split; [reflexivity|]); (split; [reflexivity|]); (split; [exact G|]).
  - discriminate.
  - intros _. apply dict_get_set_eq.
Qed.

(** A collection with no [feature] and no [record] binding has no 400 for
    its queryables as it has for its items: the fallback raises
    [ProviderTypeError] inside the handler of the first one, and nothing
    catches it. *)
Theorem queryables_without_provider request dataset resource :
  is_valid request [] = true ->
  Dict.get dataset (resources (config api)) = Some resource ->
  (forall d, In d (r_providers resource) ->
             pd_type d <> "feature" /\ pd_type d <> "record") ->
  get_collection_queryables lib api request (Some dataset) = Raised ProviderTypeError.
Proof.
  intros Hv Hc Hn.
  unfold get_collection_queryables. rewrite Hv, Hc. cbn [negb]. cbv iota.
  unfold queryables_provider, load_provider.
  rewrite !get_provider_by_type_none by (intros ? ?; now apply Hn).
  reflexivity.
Qed.

(** Queryables are answered 404 when no collection is named or the name is
    not a configured resource; unlike the item query, the resource need not
    be of type [collection], and a failure to connect to the feature provider
    is a 500 with the fixed message. *)
Theorem queryables_early_answers request :
  is_valid request [] = true ->
  let answered dataset status code msg :=
    get_collection_queryables lib api request dataset
    = Responded (get_exception api status (get_response_headers lib request None)
                   (format request) code msg) in
  answered None 404 "NotFound" "Collection not found"
  /\ (forall k, Dict.get k (resources (config api)) = None ->
        answered (Some k) 404 "NotFound" "Collection not found")
  /\ (forall k resource,
        Dict.get k (resources (config api)) = Some resource ->
        load_provider lib (r_providers resource) "feature"
        = Err ProviderConnectionError ->
        answered (Some k) 500 "NoApplicableCode" "connection error (check logs)")
  /\ (forall k resource,
        Dict.get k (resources (config api)) = Some resource ->
        load_provider lib (r_providers resource) "feature" = Err ProviderQueryError ->
        answered (Some k) 500 "NoApplicableCode" "query error (check logs)").
Proof.
  intros Hv. cbv zeta. unfold get_collection_queryables. rewrite Hv.
  cbn [negb]. cbv iota. repeat split.
  - intros k Hk. now rewrite Hk.
  - intros k resource Hk Hl. rewrite Hk. unfold queryables_provider.
    now rewrite Hl.
  - intros k resource Hk Hl. rewrite Hk. unfold queryables_provider.
    now rewrite Hl.
Qed.

End QueryablesMore.

Lemma queryables_property_map_witness :
  exists r q,
    get_collection_queryables Demo.lib2 Demo.api2 (Demo.get []) (Some "titled")
    = Responded r
    /\ response_queryables r = Some q
    /\ qy_properties q !! "id" = None
    /\ qy_properties q !! "name" = Some (PField "name" "string" None)
    /\ qy_properties q !! "geometry" = None.
Proof.
  destruct (queryables_property_map Demo.lib2 Demo.api2 (Demo.get []) "titled"
              (Demo.resource "Titled" [Demo.binding "feature" "Titled"] None None)
              Demo.titled_provider eq_refl eq_refl eq_refl)
    as (r & q & H & _ & Hq & Hmap & _).
  - repeat (constructor; [simpl; intuition discriminate|]). constructor.
  - exists r, q. split; [exact H|]. split; [exact Hq|].
    split; [exact (Hmap "id")|]. split; [exact (Hmap "name") | exact (Hmap "geometry")].
Defined.

Lemma queryables_without_provider_witness :
  get_collection_queryables Demo.lib Demo.api (Demo.get []) (Some "basemap")
  = Raised ProviderTypeError.
Proof.
  refine (queryables_without_provider Demo.lib Demo.api (Demo.get []) "basemap"
            (Demo.resource "Base map" [Demo.binding "tile" "MVT"]
               (Some Demo.world) None) eq_refl eq_refl _).
  intros d [<-|[]]. split; discriminate.
Defined.

Lemma queryables_early_answers_witness :
  get_collection_queryables Demo.lib2 Demo.api2 (Demo.get []) (Some "offline")
  = Responded (get_exception Demo.api2 500
                 (get_response_headers Demo.lib2 (Demo.get []) None) None
                 "NoApplicableCode" "connection error (check logs)").
Proof.
  exact (proj1 (proj2 (proj2 (queryables_early_answers Demo.lib2 Demo.api2
                                (Demo.get []) eq_refl)))
           "offline" (Demo.resource "Offline" [Demo.binding "feature" "Down"] None None)
           eq_refl eq_refl).
Defined.

(** ** The remaining arguments of the query *)

Section OptionalArguments.

Variable lib : Lib.
Variable api : API.

(** The provider is only queried when [filter-lang] is absent or
    [cql-text], and is handed the parsed [filter] when there is one; an empty
    [q] or [resulttype] counts as absent ([resulttype] is then [results]);
    [skipGeometry] is off unless given; the language is the provider's locale
    for the request. *)
Theorem items_optional_arguments request dataset pr :
  prepare lib api request dataset = Next pr ->
  match Dict.get "filter-lang" (params request) with
  | None => True
  | Some filter_lang => filter_lang = "cql-text"
  end
  /\ match Dict.get "filter" (params request) with
     | None => q_filterq (pr_args pr) = None
     | Some cql_text =>
         exists ast, parse_ecql_text lib cql_text = Some ast
                     /\ q_filterq (pr_args pr) = Some ast
     end
  /\ q_q (pr_args pr)
     = match Dict.get "q" (params request) with
       | Some (String c s) => Some (String c s)
       | _ => None
       end
  /\ q_resulttype (pr_args pr)
     = match Dict.get "resulttype" (params request) with
       | Some (String c s) => String c s
       | _ => "results"
       end
  /\ q_skip_geometry (pr_args pr)
     = match Dict.get "skipGeometry" (params request) with
       | Some val => str2bool lib val
       | None => false
       end
  /\ q_language (pr_args pr)
     = get_plugin_locale lib (pr_provider_def pr) (raw_locale request).
Proof.
  intros Hp. pose proof (prepare_next _ _ _ _ _ Hp) as (_ & Hf & Hl).
  unfold filter_lang_param in Hl. unfold filter_param in Hf.
  split; [|split].
  - destruct (Dict.get "filter-lang" (params request)) as [fl|]; [|exact I].
    destruct (String.eqb fl "cql-text") eqn:E; [|discriminate].
    now apply String.eqb_eq in E.
  - destruct (Dict.get "filter" (params request)) as [t|]; [|now injection Hf].
    destruct (parse_ecql_text lib t) as [ast|]; [|discriminate].
    injection Hf as Hf. eauto.
  - unfold prepare in Hp.
    apply bind_next in Hp as (pr0 & H0 & Hp).
    apply bind_next in Hp as (filter_ & _ & Hp).
    apply bind_next in Hp as ([] & _ & Hp).
    injection Hp as <-. cbn [pr_args pr_provider_def q_q q_resulttype
                                q_skip_geometry q_language].
    unfold before_filter in H0.
    destruct (is_valid request (formatter_plugins lib)); [|discriminate].
    cbn [negb] in H0. cbv iota in H0.
    destruct (Dict.get dataset _) as [collection|]; [|discriminate].
    apply bind_next in H0 as (offset & _ & H0).
    apply bind_next in H0 as (limit & _ & H0).
    apply bind_next in H0 as (bbox & _ & H0).
    apply bind_next in H0 as (datetime_ & _ & H0).
    apply bind_next in H0 as (loaded & _ & H0).
    apply bind_next in H0 as (sortby & _ & H0).
    apply bind_next in H0 as (select & _ & H0).
    injection H0 as <-. cbn [pr_args pr_provider_def q_q q_resulttype q_skip_geometry].
    unfold or_else, skip_geometry_param.
    repeat split.
    + destruct (Dict.get "q" (params request)) as [[|c s]|]; reflexivity.
    + destruct (Dict.get "resulttype" (params request)) as [[|c s]|]; reflexivity.
Qed.

End OptionalArguments.

Lemma items_optional_arguments_witness :
  exists pr,
    prepare Demo.lib Demo.api
      (Demo.get [("q", EmptyString); ("filter", "name = 's1'")]) "stations" = Next pr
    /\ q_q (pr_args pr) = None
    /\ q_resulttype (pr_args pr) = "results".
Proof.
  eexists. split; [lazy; reflexivity|].
  destruct (items_optional_arguments Demo.lib Demo.api
              (Demo.get [("q", EmptyString); ("filter", "name = 's1'")]) "stations"
              _ eq_refl) as (_ & _ & Hq & Hr & _).
  split; [exact Hq | exact Hr].
Defined.

(** ** One collection, listed and described *)

Section SingleAndListed.

Variable lib : Lib.
Variable api : API.
Variable request : APIRequest.

Lemma links_then_extra {X} (a b c t e : list X) :
  (a ++ b ++ c ++ t ++ e = (a ++ b ++ c ++ t ++ []) ++ e)%list.
Proof. rewrite List.app_nil_r. now rewrite <- !List.app_assoc. Qed.

Lemma edr_links_rel curl_ k qts l :
  In l (edr_links curl_ k qts) -> l_rel l = "data".
Proof.
  unfold edr_links. rewrite in_flat_map. intros (qt & _ & [<-|[<-|[]]]); reflexivity.
Qed.

(** The object a collection has in the listing and the one it has when
    described alone agree on id, title, description, keywords, extent and
    item type; the links of the single description are those of the listing
    entry followed by the EDR [data] links, and only the single description
    can carry a coordinate reference system, domain set, range type or EDR
    parameter names. *)
Theorem describe_single_extends_listing k v listed single :
  build_collection lib api request (describe_headers lib request) None k v
  = Next listed ->
  build_collection lib api request (describe_headers lib request) (Some k) k v
  = Next single ->
  c_id single = c_id listed
  /\ c_title single = c_title listed
  /\ c_description single = c_description listed
  /\ c_keywords single = c_keywords listed
  /\ c_extent single = c_extent listed
  /\ c_itemType single = c_itemType listed
  /\ (exists extra, c_links single = (c_links listed ++ extra)%list
                    /\ forall l, In l extra -> l_rel l = "data")
  /\ c_crs listed = None /\ c_domainset listed = None /\ c_rangetype listed = None
  /\ c_parameter_names listed = None.
Proof.
  unfold build_collection.
  destruct (get_provider_default (r_providers v)) as [d|]; [|discriminate].
  cbn [is_some]. rewrite !andb_false_r. cbn [bind].
  intros H0 H1.
  apply bind_next in H1 as (cov & _ & H1).
  apply bind_next in H1 as (edr & _ & H1).
  match type of H0 with
  | Next ?x = _ => assert (E0 : x = listed) by congruence
  end.
  match type of H1 with
  | Next ?x = _ => assert (E1 : x = single) by congruence
  end.
  rewrite <- E0, <- E1.
  cbv beta iota delta [c_id c_title c_description c_keywords c_extent c_itemType
                         c_links c_crs c_domainset c_rangetype c_parameter_names].
  split; [reflexivity|]. split; [reflexivity|]. split; [reflexivity|].
  split; [reflexivity|]. split; [reflexivity|]. split; [reflexivity|].
  split; [|repeat split].
  exists (match edr with
          | Some p => edr_links api k (p_query_types p)
          | None => []
          end).
  split.
  - apply links_then_extra.
  - destruct edr as [p|]; [|intros l []]. intros l. apply edr_links_rel.
Qed.

End SingleAndListed.

Lemma describe_single_extends_listing_witness :
  exists listed single,
    build_collection Demo.lib Demo.api (Demo.get [])
      (describe_headers Demo.lib (Demo.get [])) None "stations" Demo.stations
    = Next listed
    /\ build_collection Demo.lib Demo.api (Demo.get [])
         (describe_headers Demo.lib (Demo.get [])) (Some "stations") "stations"
         Demo.stations
       = Next single
    /\ c_itemType single = c_itemType listed.
Proof.
  eexists _, _. split; [lazy; reflexivity|]. split; [lazy; reflexivity|].
  exact (proj1 (proj2 (proj2 (proj2 (proj2 (proj2
           (describe_single_extends_listing Demo.lib Demo.api (Demo.get [])
              "stations" Demo.stations _ _ eq_refl eq_refl))))))).
Defined.
